(** * getsimpletool/tools: the tool invocation contract, checked on the tools

    A shallow embedding of the tool plugins under [src/tools] and the
    properties the specification states about them.

    Conventions of the embedding.
    - A Python [str] is a [string]; every [ascii] stands for one code point
      below 256.
    - A Python exception is a value of [exn]; a computation that may raise
      returns [Res A].
    - The process-wide state a tool touches (the clock, the module global
      [LAST_REQUEST_TIME], the file system) is threaded explicitly.
    - External collaborators (the HTTP upstream, the regular-expression
      engine, the geocoder) are scripted: their answers are inputs.
    - The arguments of a tool are a record of its [InputModel]'s fields
      with their declared types.  Where the model declares constraints,
      their check is part of [run] as in the source, where a validation
      error leaves [run] unless the source catches it; or else the
      definition says that it takes validated arguments.
    - A text file is kept as the text its bytes encode (UTF-8); reading
      it translates the line ends as Python does, writing it on POSIX
      does not. *)

From Stdlib Require Import ZArith QArith String Ascii List DecimalString Lia Bool.
From stdpp Require Import base option gmap strings list.

Local Open Scope Z_scope.

(** ** Python runtime: exceptions, strings, numbers *)

Module Py.

(** The exception classes the tools raise or catch.  [ValidationError] is
    pydantic's, a subclass of [ValueError]; [PermissionError] and
    [FileNotFoundError] are subclasses of [OSError]; [JSONDecodeError] and
    [UnicodeDecodeError] are subclasses of [ValueError]; [ConnectError] and
    [HTTPStatusError] are subclasses of [httpx.HTTPError].  Everything
    here is an [Exception]. *)
Inductive exn_class :=
| ValueError | ValidationError | JSONDecodeError | UnicodeDecodeError
| KeyError | TypeError | AttributeError | IndexError | OverflowError
| OSError | PermissionError | FileNotFoundError | IsADirectoryError
| NotADirectoryError | FileExistsError
| HTTPError | ConnectError | HTTPStatusError
| GeocoderTimedOut | GeocoderServiceError
| ReError | RuntimeError.

Record exn := Exn { exn_cls : exn_class; exn_msg : string }.

(** [issubclass c d]: an [except d] clause catches an exception of class [c]. *)
Definition issubclass (c d : exn_class) : bool :=
  match c, d with
  | ValueError, ValueError | ValidationError, ValueError
  | JSONDecodeError, ValueError | ValidationError, ValidationError
  | JSONDecodeError, JSONDecodeError => true
  | UnicodeDecodeError, ValueError
  | UnicodeDecodeError, UnicodeDecodeError => true
  | KeyError, KeyError | TypeError, TypeError
  | AttributeError, AttributeError | IndexError, IndexError
  | OverflowError, OverflowError => true
  | OSError, OSError | PermissionError, OSError | FileNotFoundError, OSError
  | IsADirectoryError, OSError | NotADirectoryError, OSError
  | FileExistsError, OSError => true
  | PermissionError, PermissionError | FileNotFoundError, FileNotFoundError
  | IsADirectoryError, IsADirectoryError
  | NotADirectoryError, NotADirectoryError
  | FileExistsError, FileExistsError => true
  | HTTPError, HTTPError | ConnectError, HTTPError
  | HTTPStatusError, HTTPError | ConnectError, ConnectError
  | HTTPStatusError, HTTPStatusError => true
  | GeocoderTimedOut, GeocoderTimedOut
  | GeocoderServiceError, GeocoderServiceError => true
  | ReError, ReError | RuntimeError, RuntimeError => true
  | _, _ => false
  end.

(** The result of a call: a value, or an exception on its way up. *)
Inductive Res (A : Type) :=
| Ok (a : A)
| Raise (e : exn).
Arguments Ok {A} a.
Arguments Raise {A} e.

Definition bind {A B} (r : Res A) (k : A -> Res B) : Res B :=
  match r with
  | Ok a => k a
  | Raise e => Raise e
  end.

(** [try: r  except cls as e: h e] *)
Definition try_except {A} (r : Res A) (cls : exn_class) (h : exn -> Res A) : Res A :=
  match r with
  | Ok a => Ok a
  | Raise e => if issubclass (exn_cls e) cls then h e else Raise e
  end.

(** [try: r  except Exception as e: h e] *)
Definition try_except_Exception {A} (r : Res A) (h : exn -> Res A) : Res A :=
  match r with
  | Ok a => Ok a
  | Raise e => h e
  end.

(** [[f(x) for x in l]], left to right, stopping at the first exception. *)
Fixpoint comprehension {A B} (f : A -> Res B) (l : list A) : Res (list B) :=
  match l with
  | [] => Ok []
  | x :: rest =>
      match f x with
      | Raise e => Raise e
      | Ok y =>
          match comprehension f rest with
          | Raise e => Raise e
          | Ok ys => Ok (y :: ys)
          end
      end
  end.

Definition raises {A} (r : Res A) : Prop := exists e, r = Raise e.
Definition returns {A} (r : Res A) : Prop := exists a, r = Ok a.

(** [str(n)] for an [int]. *)
Definition str_of_Z (n : Z) : string := NilZero.string_of_int (Z.to_int n).

(** [str.isspace] on one character (code points below 256). *)
Definition isspace (c : ascii) : bool :=
  let n := nat_of_ascii c in
  ((9 <=? n) && (n <=? 13) || (28 <=? n) && (n <=? 32)
   || (n =? 133) || (n =? 160))%nat.

Definition is_empty (s : string) : bool :=
  match s with EmptyString => true | String _ _ => false end.

Definition snoc (s : string) (c : ascii) : string := s +:+ String c EmptyString.

(** [s.split()] with no argument: the scanner of CPython's
    [split_whitespace].  [word] is the word being collected. *)
Fixpoint split_from (word : string) (s : string) : list string :=
  match s with
  | EmptyString => if is_empty word then [] else [word]
  | String c s' =>
      if isspace c
      then (if is_empty word then split_from EmptyString s'
            else word :: split_from EmptyString s')
      else split_from (snoc word c) s'
  end.

Definition split (s : string) : list string := split_from EmptyString s.

(** [sep.join(l)] *)
Fixpoint join (sep : string) (l : list string) : string :=
  match l with
  | [] => EmptyString
  | [x] => x
  | x :: rest => x +:+ sep +:+ join sep rest
  end.

(** [s.startswith(p)] *)
Definition startswith (s p : string) : bool := String.prefix p s.

(** [c in s] for a one-character [c]. *)
Fixpoint contains_char (c : ascii) (s : string) : bool :=
  match s with
  | EmptyString => false
  | String d s' => if Ascii.eqb c d then true else contains_char c s'
  end.

(** [s.split(sep)] for a one-character separator. *)
Fixpoint split_on (sep : ascii) (cur : string) (s : string) : list string :=
  match s with
  | EmptyString => [cur]
  | String c s' =>
      if Ascii.eqb c sep then cur :: split_on sep EmptyString s'
      else split_on sep (snoc cur c) s'
  end.

Definition LF : ascii := "010"%char.
Definition CR : ascii := "013"%char.
Definition nl : string := String LF EmptyString.

(** The line boundaries of [str.splitlines]. *)
Definition is_linebreak (c : ascii) : bool :=
  let n := nat_of_ascii c in
  ((10 <=? n) && (n <=? 13) || (28 <=? n) && (n <=? 30) || (n =? 133))%nat.

(** [s.splitlines()]: CR LF counts as one boundary, and a final boundary
    opens no empty last line. *)
Fixpoint splitlines_from (cur : string) (s : string) : list string :=
  match s with
  | EmptyString => if is_empty cur then [] else [cur]
  | String c s' =>
      if is_linebreak c then
        match s' with
        | String d s'' =>
            if Ascii.eqb c CR && Ascii.eqb d LF
            then cur :: splitlines_from EmptyString s''
            else cur :: splitlines_from EmptyString s'
        | EmptyString => [cur]
        end
      else splitlines_from (snoc cur c) s'
  end.

Definition splitlines (s : string) : list string := splitlines_from EmptyString s.

(** [s.strip()] *)
Fixpoint lstrip (s : string) : string :=
  match s with
  | EmptyString => EmptyString
  | String c s' => if isspace c then lstrip s' else s
  end.

Definition rev_string (s : string) : string :=
  string_of_list_ascii (rev (list_ascii_of_string s)).

Definition rstrip (s : string) : string := rev_string (lstrip (rev_string s)).

Definition strip (s : string) : string := rstrip (lstrip s).

Definition digit_value (c : ascii) : option Z :=
  let n := nat_of_ascii c in
  if ((48 <=? n) && (n <=? 57))%nat then Some (Z.of_nat n - 48) else None.

Definition starts_with_digit (s : string) : bool :=
  match s with
  | String c _ => match digit_value c with Some _ => true | None => false end
  | EmptyString => false
  end.

(** The whitespace [int] passes over around a literal: the ASCII
    whitespace of [Py_ISSPACE], and the two other whitespace characters
    below 256, which [int] turns into spaces before it reads.  The
    separators 28 to 31, whitespace for [str.isspace], are not passed
    over. *)
Definition is_int_space (c : ascii) : bool :=
  let n := nat_of_ascii c in
  ((9 <=? n) && (n <=? 13) || (n =? 32) || (n =? 133) || (n =? 160))%nat.

Fixpoint skip_int_space (s : string) : string :=
  match s with
  | EmptyString => EmptyString
  | String c s' => if is_int_space c then skip_int_space s' else s
  end.

Fixpoint all_int_space (s : string) : bool :=
  match s with
  | EmptyString => true
  | String c s' => is_int_space c && all_int_space s'
  end.

(** The run of digits [int] reads: digits, with single underscores
    between them.  The result is the value, the number of digits and what
    follows the run; [None] when an underscore is doubled or ends the
    run. *)
Fixpoint scan_digits (acc : Z) (digits : nat) (after_underscore : bool)
    (s : string) : option (Z * nat * string) :=
  match s with
  | EmptyString => if after_underscore then None else Some (acc, digits, s)
  | String c s' =>
      match digit_value c with
      | Some d => scan_digits (10 * acc + d) (S digits) false s'
      | None =>
          if Ascii.eqb c "_" then
            if after_underscore then None else scan_digits acc digits true s'
          else if after_underscore then None else Some (acc, digits, s)
      end
  end.

(** [repr(s)] for a [str]: the quote is the apostrophe unless the text
    holds one and holds no double quote; the quote and the backslash are
    escaped, and so is every character that is not printable. *)
Definition dquote : ascii := "034"%char.
Definition backslash : ascii := "092"%char.

Definition is_printable (c : ascii) : bool :=
  let n := nat_of_ascii c in
  ((32 <=? n) && (n <=? 126) || (161 <=? n) && negb (n =? 173))%nat.

Definition hex_digit (n : nat) : ascii :=
  nth n (list_ascii_of_string "0123456789abcdef") "0"%char.

Definition escape_char (quote c : ascii) : string :=
  let n := nat_of_ascii c in
  if Ascii.eqb c quote || Ascii.eqb c backslash
  then String backslash (String c EmptyString)
  else if (n =? 9)%nat then String backslash "t"
  else if (n =? 10)%nat then String backslash "n"
  else if (n =? 13)%nat then String backslash "r"
  else if is_printable c then String c EmptyString
  else String backslash
         (String "x" (String (hex_digit (n / 16)) (String (hex_digit (n mod 16))
            EmptyString))).

Fixpoint escape (quote : ascii) (s : string) : string :=
  match s with
  | EmptyString => EmptyString
  | String c s' => escape_char quote c +:+ escape quote s'
  end.

Definition repr_str (s : string) : string :=
  let quote :=
    if contains_char "'" s && negb (contains_char dquote s) then dquote
    else "'"%char in
  String quote (escape quote s) +:+ String quote EmptyString.

(** [sys.get_int_max_str_digits()], the interpreter's default. *)
Definition int_max_str_digits : nat := 4300.

(** [int(s)] for a [str] in base 10: whitespace, a sign, the digits,
    whitespace.  The message of the [ValueError] quotes at most 200
    characters of [repr(s)]. *)
Definition int_of_str (s : string) : Res Z :=
  let invalid :=
    Raise (Exn ValueError ("invalid literal for int() with base 10: "
                           +:+ substring 0 200 (repr_str s))) in
  let t := skip_int_space s in
  let signed :=
    match t with
    | String "-" r => (true, r)
    | String "+" r => (false, r)
    | _ => (false, t)
    end in
  if String.prefix "_" (snd signed) then invalid
  else
    match scan_digits 0 0 false (snd signed) with
    | None => invalid
    | Some (v, digits, rest) =>
        if (int_max_str_digits <? digits)%nat then
          Raise (Exn ValueError
                   ("Exceeds the limit (4300 digits) for integer string conversion: value has "
                    +:+ str_of_Z (Z.of_nat digits)
                    +:+ " digits; use sys.set_int_max_str_digits() to increase the limit"))
        else if (digits =? 0)%nat then invalid
        else if all_int_space rest then Ok (if fst signed then - v else v)
        else invalid
    end.

(** The largest [int] that [float] takes is below [2^1024 - 2^970]; from
    there on the conversion raises [OverflowError]. *)
Definition float_overflows (n : Z) : bool := 2 ^ 1024 - 2 ^ 970 <=? n.

(** The interpreter's stack: [recursion_room] is the number of times a
    coroutine can call itself, one call inside the other, before the
    recursion limit ([sys.getrecursionlimit()], 1000 by default, less
    the frames already in use) is reached. *)
Class Interpreter := { recursion_room : nat }.

End Py.

(** ** The content model of [simpletool.types] *)

Module Content.
Import Py.

(** Modelled from the spec: the content classes of [simpletool.types] are
    declared outside this repository.  The data model makes them a closed
    union of three variants; here the constructor is the variant tag. *)
Inductive ContentItem :=
| TextContent (text : string)
| ImageContent (image : string) (mime_type : string)
| ErrorContent (code : Z) (error : string).

Inductive tag := text_tag | image_tag | error_tag.

Definition tag_of (c : ContentItem) : tag :=
  match c with
  | TextContent _ => text_tag
  | ImageContent _ _ => image_tag
  | ErrorContent _ _ => error_tag
  end.

Definition tag_name (t : tag) : string :=
  match t with
  | text_tag => "text"
  | image_tag => "image"
  | error_tag => "error"
  end.

(** Python values as they occur in arguments and keyword calls. *)
Inductive pyval :=
| VNone
| VBool (b : bool)
| VInt (n : Z)
| VStr (s : string).

(** A call [Cls(k1=v1, k2=v2, ...)] as the source writes it. *)
Definition kwargs := list (string * pyval).

Fixpoint kw_get (k : string) (kw : kwargs) : option pyval :=
  match kw with
  | [] => None
  | (k', v) :: rest => if String.eqb k k' then Some v else kw_get k rest
  end.

Definition field_names (kw : kwargs) : list string := map fst kw.

Definition tag_ok (t : tag) (kw : kwargs) : bool :=
  match kw_get "type" kw with
  | None => true
  | Some (VStr s) => String.eqb s (tag_name t)
  | Some _ => false
  end.

Definition only_fields (allowed : list string) (kw : kwargs) : bool :=
  forallb (fun k => existsb (String.eqb k) allowed) (field_names kw).

(** The exception a keyword call without [error] raises. *)
Definition field_required : exn :=
  Exn ValidationError "1 validation error for ErrorContent: error: Field required".

(** Modelled from the spec: the class [ErrorContent] of [simpletool.types]
    is declared outside this repository.  The data model gives it the tag
    [error] and exactly the fields [code : integer] and [error : string]; a
    keyword call that leaves a declared field out is a validation error of
    the model class, as for every pydantic model. *)
Definition new_ErrorContent (kw : kwargs) : Res ContentItem :=
  match kw_get "code" kw, kw_get "error" kw with
  | Some (VInt c), Some (VStr e) =>
      if tag_ok error_tag kw && only_fields ["type"; "code"; "error"] kw
      then Ok (ErrorContent c e)
      else Raise (Exn ValidationError "1 validation error for ErrorContent")
  | _, None => Raise field_required
  | _, _ => Raise (Exn ValidationError "1 validation error for ErrorContent")
  end.

(** Modelled from the spec: the payload of an image item is bytes as
    base64.  The check the class makes of a payload is declared with the
    class, outside this repository. *)
Class ImagePayload := { well_formed_image : string -> bool }.

(** Modelled from the spec: [ImageContent { image, mime_type }] with tag
    [image], declared in [simpletool.types]. *)
Definition new_ImageContent `{IP : ImagePayload} (kw : kwargs) : Res ContentItem :=
  match kw_get "image" kw, kw_get "mime_type" kw with
  | Some (VStr i), Some (VStr m) =>
      if tag_ok image_tag kw && only_fields ["type"; "image"; "mime_type"] kw
         && well_formed_image i
      then Ok (ImageContent i m)
      else Raise (Exn ValidationError "1 validation error for ImageContent")
  | _, _ => Raise (Exn ValidationError "1 validation error for ImageContent")
  end.

(** Modelled from the spec: [TextContent { text : string }] with tag [text],
    declared in [simpletool.types]. *)
Definition new_TextContent (kw : kwargs) : Res ContentItem :=
  match kw_get "text" kw with
  | Some (VStr t) =>
      if tag_ok text_tag kw && only_fields ["type"; "text"] kw
      then Ok (TextContent t)
      else Raise (Exn ValidationError "1 validation error for TextContent")
  | _ => Raise (Exn ValidationError "1 validation error for TextContent")
  end.


Definition is_text (c : ContentItem) : Prop := tag_of c = text_tag.

End Content.

(** ** src/tools/word_counter.py *)

Module WordCounter.
Import Py Content.

(** The validated [WordCounterInput]: one required [str] field. *)
Record WordCounterInput := { text : string }.

(** [WordCounterTool.run]:
    [len(arguments["text"].split())] formatted into one [TextContent]. *)
Definition run (arguments : WordCounterInput) : list ContentItem :=
  let word_count := Z.of_nat (length (Py.split (text arguments))) in
  [TextContent ("Word count: " +:+ str_of_Z word_count)].

(** The specification's reading of the count: the number of maximal runs
    of non-whitespace characters, counted by their first positions.  A
    position starts a word when its character is no whitespace and it is
    the first position or follows a whitespace character. *)
Definition char_at (s : string) (i : nat) : option ascii := String.get i s.

Definition non_space_at (s : string) (i : nat) : bool :=
  match char_at s i with
  | Some c => negb (isspace c)
  | None => false
  end.

Definition is_word_start (s : string) (i : nat) : bool :=
  non_space_at s i &&
  match i with
  | O => true
  | S j => negb (non_space_at s j)
  end.

Definition spec_word_count (s : string) : nat :=
  length (List.filter (is_word_start s) (seq 0 (String.length s))).


(** Word starts counted along the string; [inside] tells whether the
    previous character belonged to a word. *)
Fixpoint starts (inside : bool) (s : string) : nat :=
  match s with
  | EmptyString => 0
  | String c s' =>
      if isspace c then starts false s'
      else (if inside then 0 else 1) + starts true s'
  end%nat.

(** The position test with the character before position 0 supplied. *)
Definition starts_at (inside : bool) (s : string) (i : nat) : bool :=
  non_space_at s i &&
  match i with
  | O => negb inside
  | S j => negb (non_space_at s j)
  end.

(** A word: at least one character, none of them whitespace. *)
Fixpoint no_space (w : string) : bool :=
  match w with
  | EmptyString => true
  | String c w' => negb (isspace c) && no_space w'
  end.

Definition is_word (w : string) : Prop :=
  is_empty w = false /\ no_space w = true.

End WordCounter.

(** ** [posixpath]: the lexical path functions the tools call *)

Module PosixPath.
Import Py.

Definition slash : string := "/".

Definition isabs (p : string) : bool := startswith p "/".

Definition endswith_slash (p : string) : bool :=
  match rev (list_ascii_of_string p) with
  | c :: _ => Ascii.eqb c "/"
  | [] => false
  end.

(** [os.path.join(a, p)] for two arguments. *)
Definition join2 (a p : string) : string :=
  if startswith p "/" then p
  else if is_empty a || endswith_slash a then a +:+ p
  else a +:+ "/" +:+ p.

(** One round of the loop of [normpath]; [stack] is [new_comps] with its
    last element first. *)
Definition norm_step (initial_slashes : nat) (stack : list string)
    (comp : string) : list string :=
  if String.eqb comp EmptyString || String.eqb comp "." then stack
  else if negb (String.eqb comp "..")
          || (Nat.eqb initial_slashes 0 && match stack with [] => true | _ => false end)
          || match stack with top :: _ => String.eqb top ".." | [] => false end
       then comp :: stack
       else match stack with
            | _ :: rest => rest
            | [] => []
            end.

Definition count_initial_slashes (path : string) : nat :=
  if startswith path "/" then
    if startswith path "//" && negb (startswith path "///") then 2%nat else 1%nat
  else 0%nat.

Definition slashes (n : nat) : string :=
  string_of_list_ascii (repeat "/"%char n).

Definition normpath_comps (path : string) : list string :=
  rev (fold_left (norm_step (count_initial_slashes path))
                 (split_on "/" EmptyString path) []).

(** [os.path.normpath(path)] *)
Definition normpath (path : string) : string :=
  if is_empty path then "." else
  let initial_slashes := count_initial_slashes path in
  let p := Py.join "/" (normpath_comps path) in
  let p := if Nat.eqb initial_slashes 0 then p
           else slashes initial_slashes +:+ p in
  if is_empty p then "." else p.

(** [os.path.abspath(path)] in a process whose working directory is [cwd]. *)
Definition abspath (cwd : string) (path : string) : string :=
  normpath (if isabs path then path else join2 cwd path).

End PosixPath.

(** ** The operating system the file tools run on *)

Module OS.
Import Py PosixPath.

(** A file-system entry.  The tree is kept flat: the key of an entry is the
    list of its path components from the root; the root itself is [[]].
    A regular file whose bytes are the UTF-8 encoding of a text is a
    [File] and is kept as that text, as stored: its line ends are the
    stored ones.  A regular file whose bytes are not UTF-8 is [Raw]; all
    that is kept of it is the complaint of the decoder. *)
Inductive node :=
| Dir
| File (content : string)
| Raw (complaint : string).

(** Process and file-system state.  [protected] holds the entries the
    process may not modify: no entry is created or removed inside a
    protected directory and a protected file is not written. *)
Record state := State {
  cwd : string;
  home : string;
  tree : gmap (list string) node;
  protected : gset (list string)
}.

Definition with_tree (st : state) (t : gmap (list string) node) : state :=
  {| cwd := cwd st; home := home st; tree := t; protected := protected st |}.

Definition lookup_node (st : state) (k : list string) : option node :=
  match k with
  | [] => Some Dir
  | _ => tree st !! k
  end.

Definition is_dir_key (st : state) (k : list string) : bool :=
  match lookup_node st k with
  | Some Dir => true
  | _ => false
  end.

Definition parent (k : list string) : list string := removelast k.

(** Path resolution as the kernel does it, one component at a time: every
    component is looked up in a directory that exists.  [cur] is the key
    reached so far.  There are no symbolic links. *)
Fixpoint walk (st : state) (cur : list string) (comps : list string)
    : option (list string) :=
  match comps with
  | [] => Some cur
  | c :: rest =>
      if is_dir_key st cur then
        if String.eqb c EmptyString || String.eqb c "." then walk st cur rest
        else if String.eqb c ".." then walk st (parent cur) rest
        else walk st (cur ++ [c]) rest
      else None
  end.

Definition components (p : string) : list string := split_on "/" EmptyString p.

(** The key a path names, if its directories can be traversed. *)
Definition resolve (st : state) (path : string) : option (list string) :=
  if is_empty path then None
  else if isabs path then walk st [] (components path)
  else match walk st [] (components (cwd st)) with
       | Some k => walk st k (components path)
       | None => None
       end.

Definition stat (st : state) (path : string) : option node :=
  match resolve st path with
  | Some k => lookup_node st k
  | None => None
  end.

(** [os.path.exists], [os.path.isdir] *)
Definition exists_ (st : state) (path : string) : bool :=
  match stat st path with Some _ => true | None => false end.

Definition isdir (st : state) (path : string) : bool :=
  match stat st path with Some Dir => true | _ => false end.

Definition quote (s : string) : string := "'" +:+ s +:+ "'".

Definition os_error (c : exn_class) (errno : string) (what : string)
    (path : string) : exn :=
  Exn c ("[Errno " +:+ errno +:+ "] " +:+ what +:+ ": " +:+ quote path).

Definition ENOENT := os_error FileNotFoundError "2" "No such file or directory".
Definition EACCES := os_error PermissionError "13" "Permission denied".
Definition EEXIST := os_error FileExistsError "17" "File exists".
Definition ENOTDIR := os_error NotADirectoryError "20" "Not a directory".
Definition EISDIR := os_error IsADirectoryError "21" "Is a directory".
Definition ENOTEMPTY := os_error OSError "39" "Directory not empty".

Definition is_protected (st : state) (k : list string) : bool :=
  bool_decide (k ∈ protected st).

(** Universal newlines, the default of a file opened for reading as
    text: CR LF and a lone CR are both read as LF. *)
Fixpoint universal_newlines (s : string) : string :=
  match s with
  | EmptyString => EmptyString
  | String c s' =>
      if Ascii.eqb c CR then
        match s' with
        | String d s'' =>
            if Ascii.eqb d LF then String LF (universal_newlines s'')
            else String LF (universal_newlines s')
        | EmptyString => String LF EmptyString
        end
      else String c (universal_newlines s')
  end.

(** [open(path, 'r', encoding='utf-8').read()]: the text decoded, with
    its line ends translated. *)
Definition read_file (st : state) (path : string) : Res string :=
  match resolve st path with
  | None => Raise (ENOENT path)
  | Some k =>
      match lookup_node st k with
      | None => Raise (ENOENT path)
      | Some Dir => Raise (EISDIR path)
      | Some (File c) => Ok (universal_newlines c)
      | Some (Raw complaint) => Raise (Exn UnicodeDecodeError complaint)
      end
  end.

(** [open(path, 'w', encoding='utf-8').write(data)]: the file is created
    or truncated, then written; on POSIX the line ends are written as
    they are. *)
Definition write_file (st : state) (path : string) (data : string)
    : state * Res unit :=
  match resolve st path with
  | None => (st, Raise (ENOENT path))
  | Some k =>
      match lookup_node st k with
      | Some Dir => (st, Raise (EISDIR path))
      | Some (File _) | Some (Raw _) =>
          if is_protected st k then (st, Raise (EACCES path))
          else (with_tree st (<[k := File data]> (tree st)), Ok tt)
      | None =>
          if is_protected st (parent k) then (st, Raise (EACCES path))
          else (with_tree st (<[k := File data]> (tree st)), Ok tt)
      end
  end.

(** [os.mkdir] on a key whose parent has been resolved. *)
Definition mkdir_key (st : state) (k : list string) (path : string)
    : state * Res unit :=
  match lookup_node st k with
  | Some _ => (st, Raise (EEXIST path))
  | None =>
      match lookup_node st (parent k) with
      | None => (st, Raise (ENOENT path))
      | Some (File _) | Some (Raw _) => (st, Raise (ENOTDIR path))
      | Some Dir =>
          if is_protected st (parent k) then (st, Raise (EACCES path))
          else (with_tree st (<[k := Dir]> (tree st)), Ok tt)
      end
  end.

(** [os.makedirs(path, exist_ok=True)] for the components [todo] still to
    visit below the key [done]: every missing directory on the way is
    created; an existing directory is accepted; a file in the way is an
    error.  Directories created before a failure stay. *)
Fixpoint makedirs_from (st : state) (done : list string) (todo : list string)
    (path : string) : state * Res unit :=
  match todo with
  | [] => (st, Ok tt)
  | c :: rest =>
      let k := done ++ [c] in
      match lookup_node st k with
      | Some Dir => makedirs_from st k rest path
      | Some (File _) | Some (Raw _) =>
          (st, Raise (match rest with
                      | [] => EEXIST path
                      | _ => ENOTDIR path
                      end))
      | None =>
          match mkdir_key st k path with
          | (st', Ok _) => makedirs_from st' k rest path
          | (st', Raise e) => (st', Raise e)
          end
      end
  end.

(** [os.makedirs(path, exist_ok=True)] on a normalised absolute path. *)
Definition makedirs (st : state) (path : string) : state * Res unit :=
  makedirs_from st [] (normpath_comps path) path.

(** [os.listdir]: the names directly below a directory. *)
Definition children (st : state) (k : list string) : list (list string) :=
  filter (fun k' => parent k' = k ∧ k' ≠ []) (map fst (map_to_list (tree st))).

Definition listdir (st : state) (path : string) : Res (list string) :=
  match resolve st path with
  | None => Raise (ENOENT path)
  | Some k =>
      match lookup_node st k with
      | Some Dir => Ok (omap last (children st k))
      | Some (File _) | Some (Raw _) => Raise (ENOTDIR path)
      | None => Raise (ENOENT path)
      end
  end.

(** [os.rmdir] *)
Definition rmdir (st : state) (path : string) : state * Res unit :=
  match resolve st path with
  | None => (st, Raise (ENOENT path))
  | Some k =>
      match lookup_node st k with
      | None => (st, Raise (ENOENT path))
      | Some (File _) | Some (Raw _) => (st, Raise (ENOTDIR path))
      | Some Dir =>
          match k, children st k with
          | [], _ => (st, Raise (EACCES path))
          | _, _ :: _ => (st, Raise (ENOTEMPTY path))
          | _, [] =>
              if is_protected st (parent k) then (st, Raise (EACCES path))
              else (with_tree st (delete k (tree st)), Ok tt)
          end
      end
  end.

Definition is_prefix (k k' : list string) : bool :=
  bool_decide (k `prefix_of` k').

(** [shutil.rmtree]: the directory and everything below it go.  A
    protected directory on the way refuses; the partial removal the real
    function leaves behind in that case is not modelled. *)
Definition rmtree (st : state) (path : string) : state * Res unit :=
  match resolve st path with
  | None => (st, Raise (ENOENT path))
  | Some k =>
      match lookup_node st k with
      | None => (st, Raise (ENOENT path))
      | Some (File _) | Some (Raw _) => (st, Raise (ENOTDIR path))
      | Some Dir =>
          if is_protected st (parent k)
             || existsb (fun k' => is_prefix k k' && is_protected st k')
                        (map fst (map_to_list (tree st)))
          then (st, Raise (EACCES path))
          else (with_tree st (filter (fun kv => ¬ (k `prefix_of` kv.1)) (tree st)), Ok tt)
      end
  end.

(** [os.path.expanduser('~')] *)
Definition expanduser_home (st : state) : string := home st.

End OS.

(** ** src/tools/os_delete_folders_tool.py *)

Module OsDeleteFolders.
Import Py Content PosixPath OS.

Record InputModel := { folder_paths : list string; force : bool }.

Definition unsafe_paths (st : state) : list string :=
  ["/"; "/home"; "/etc"; "/usr"; "/var"; "/bin"; "/sbin"; expanduser_home st].

(** [OsDeleteFoldersTool._is_safe_path] *)
Definition _is_safe_path (st : state) (path : string) : bool :=
  let abs_path := abspath (cwd st) path in
  negb (existsb (fun safe_path =>
                   startswith abs_path safe_path || String.eqb abs_path safe_path)
                (unsafe_paths st)).

(** The [try] block of one round of the loop: the status line, or the
    exception that leaves the block. *)
Definition attempt (st : state) (force : bool) (path : string)
    : state * Res string :=
  let normalized_path := normpath path in
  let absolute_path := abspath (cwd st) normalized_path in
  if negb (_is_safe_path st absolute_path) then
    (st, Ok ("Unsafe deletion prevented for path: " +:+ path))
  else if negb (exists_ st absolute_path) then
    (st, Ok ("Path does not exist: " +:+ path))
  else if negb (isdir st absolute_path) then
    (st, Ok ("Path is not a directory: " +:+ path))
  else if force then
    match rmtree st absolute_path with
    | (st', Ok _) => (st', Ok ("Forcefully deleted folder: " +:+ path))
    | (st', Raise e) => (st', Raise e)
    end
  else
    match listdir st absolute_path with
    | Raise e => (st, Raise e)
    | Ok [] =>
        match rmdir st absolute_path with
        | (st', Ok _) => (st', Ok ("Successfully deleted empty folder: " +:+ path))
        | (st', Raise e) => (st', Raise e)
        end
    | Ok (_ :: _) =>
        (st, Ok ("Folder not empty, deletion skipped: " +:+ path
                 +:+ ". Use 'force=true' to delete non-empty folders."))
    end.

(** One round with its three [except] clauses. *)
Definition delete_one (st : state) (force : bool) (path : string)
    : state * string :=
  match attempt st force path with
  | (st', Ok line) => (st', line)
  | (st', Raise e) =>
      if issubclass (exn_cls e) PermissionError then
        (st', "Permission denied: Unable to delete folder " +:+ path)
      else if issubclass (exn_cls e) OSError then
        (st', "Error deleting folder " +:+ path +:+ ": " +:+ exn_msg e)
      else
        (st', "Unexpected error deleting folder " +:+ path +:+ ": " +:+ exn_msg e)
  end.

(** [for path in folder_paths: ...], with [results] threaded. *)
Fixpoint loop (st : state) (force : bool) (paths : list string)
    (results : list string) : state * list string :=
  match paths with
  | [] => (st, results)
  | path :: rest =>
      let '(st', line) := delete_one st force path in
      loop st' force rest (results ++ [line])
  end.

(** [OsDeleteFoldersTool.run] *)
Definition run (st : state) (arg : InputModel) : state * list ContentItem :=
  match folder_paths arg with
  | [] => (st, [TextContent "No folder paths provided"])
  | _ =>
      let '(st', results) := loop st (force arg) (folder_paths arg) [] in
      (st', [TextContent (Py.join nl results)])
  end.

(** The status line of a refused path. *)
Definition refusal (path : string) : string :=
  "Unsafe deletion prevented for path: " +:+ path.

(** A sample process: the working directory [/w] holds a non-empty
    folder and a file. *)
Definition sample_state : state :=
  State "/w" "/home/u"
    {[ ["w"] := Dir; ["w"; "d"] := Dir; ["w"; "d"; "f"] := File "abc";
       ["w"; "f"] := File "abc" ]} ∅.

End OsDeleteFolders.

(** ** src/tools/os_create_folders_tool.py *)

Module OsCreateFolders.
Import Py Content PosixPath OS.

Record InputModel := { folder_paths : list string }.

(** The seven characters the path check rejects: less-than, greater-than,
    colon, double quote (code 34), bar, question mark, star. *)
Definition disallowed : string := "<>:" +:+ String "034"%char "|?*".

(** [all(c not in disallowed for c in absolute_path)] *)
Definition all_allowed (absolute_path : string) : bool :=
  forallb (fun c => negb (contains_char c disallowed))
          (list_ascii_of_string absolute_path).

Definition attempt (st : state) (path : string) : state * Res string :=
  let normalized_path := normpath path in
  let absolute_path := abspath (cwd st) normalized_path in
  if negb (all_allowed absolute_path) then
    (st, Ok ("Invalid characters in path: " +:+ path))
  else
    match makedirs st absolute_path with
    | (st', Ok _) => (st', Ok ("Successfully created folder: " +:+ path))
    | (st', Raise e) => (st', Raise e)
    end.

Definition create_one (st : state) (path : string) : state * string :=
  match attempt st path with
  | (st', Ok line) => (st', line)
  | (st', Raise e) =>
      if issubclass (exn_cls e) PermissionError then
        (st', "Permission denied: Unable to create folder " +:+ path)
      else
        (st', "Error creating folder " +:+ path +:+ ": " +:+ exn_msg e)
  end.

Fixpoint loop (st : state) (paths : list string) (results : list string)
    : state * list string :=
  match paths with
  | [] => (st, results)
  | path :: rest =>
      let '(st', line) := create_one st path in
      loop st' rest (results ++ [line])
  end.

(** [OsCreateFoldersTool.run] *)
Definition run (st : state) (arg : InputModel) : state * list ContentItem :=
  match folder_paths arg with
  | [] => (st, [TextContent "No folder paths provided"])
  | _ =>
      let '(st', results) := loop st (folder_paths arg) [] in
      (st', [TextContent (Py.join nl results)])
  end.


(** The status lines. *)
Definition created (path : string) : string :=
  "Successfully created folder: " +:+ path.

Definition rejected (path : string) : string :=
  "Invalid characters in path: " +:+ path.

(** The four status lines a path can get. *)
Definition reports (path line : string) : Prop :=
  line = created path \/ line = rejected path
  \/ line = "Permission denied: Unable to create folder " +:+ path
  \/ exists msg, line = "Error creating folder " +:+ path +:+ ": " +:+ msg.

(** The absolute path the tool checks and creates. *)
Definition target (st : state) (path : string) : string :=
  abspath (cwd st) (normpath path).

(** A sample process with an empty working directory, and the same after
    the folder [ok] has been created in it. *)
Definition folders_state : state :=
  State "/w" "/home/u" {[ ["w"] := Dir ]} ∅.

Definition folders_state_ok : state :=
  with_tree folders_state (<[ ["w"; "ok"] := Dir ]> (tree folders_state)).

End OsCreateFolders.

(** ** src/tools/os_file_edit_tool.py *)

(** The regular-expression engine is the interpreter's: [re_sub pattern
    repl content] is [re.sub(pattern, repl, content)], which raises
    [re.error] (class [ReError]) on a pattern it cannot compile. *)
Class Regex := { re_sub : string -> string -> string -> Py.Res string }.

(** A regular-expression engine described just far enough for the
    examples: the pattern made of one opening parenthesis does not
    compile; any other pattern is taken not to match and leaves the
    content as it is. *)
Definition sample_regex : Regex :=
  {| re_sub pattern repl content :=
       if String.eqb pattern "("
       then Py.Raise (Py.Exn Py.ReError
                        "missing ), unterminated subpattern at position 0")
       else Py.Ok content |}.

Module OsFileEdit.
Import Py Content PosixPath OS.

(** The validated [InputModel].  The three required fields are [str], so
    the [is None] tests [run] makes on them never fire. *)
Record InputModel := {
  file_path : string;
  edit_type : string;
  new_content : string;
  start_line : option Z;
  end_line : option Z;
  search_pattern : option string;
  replacement_text : option string
}.

(** Truth value of an [Optional[str]]. *)
Definition truthy_opt (o : option string) : bool :=
  match o with
  | Some s => negb (is_empty s)
  | None => false
  end.

(** [OsFileEditTool._edit_by_lines]; the slice assignment
    [lines[start_line - 1:end_line] = new_content.splitlines()] *)
Definition _edit_by_lines (lines : list string) (start_line end_line : Z)
    (new_content : string) : Res string :=
  if (start_line <? 1) || (end_line >? Z.of_nat (length lines))
     || (start_line >? end_line)
  then Raise (Exn ValueError "Invalid line numbers")
  else Ok (Py.join nl (take (Z.to_nat (start_line - 1)) lines
                       ++ splitlines new_content
                       ++ drop (Z.to_nat end_line) lines)).

(** [OsFileEditTool._find_and_replace] *)
Definition _find_and_replace `{R : Regex} (content pattern replacement : string)
    : Res string :=
  try_except (re_sub pattern replacement content) ReError
    (fun e => Ok ("Invalid regular expression pattern: " +:+ exn_msg e)).

(** The [try] block of [run]. *)
Definition edit `{R : Regex} (st : state) (arg : InputModel)
    : state * Res (list ContentItem) :=
  match read_file st (file_path arg) with
  | Raise e => (st, Raise e)
  | Ok original_content =>
      let lines := splitlines original_content in
      let updated : Res string :=
        if String.eqb (edit_type arg) "full" then Ok (new_content arg)
        else
          match start_line arg, end_line arg with
          | Some s, Some e => _edit_by_lines lines s e (new_content arg)
          | _, _ =>
              match search_pattern arg, replacement_text arg with
              | Some p, Some r =>
                  if negb (is_empty p) && negb (is_empty r)
                  then _find_and_replace original_content p r
                  else Raise (Exn ValueError "Invalid partial edit parameters")
              | _, _ => Raise (Exn ValueError "Invalid partial edit parameters")
              end
          end in
      match updated with
      | Raise e => (st, Raise e)
      | Ok updated_content =>
          match write_file st (file_path arg) updated_content with
          | (st', Ok _) =>
              (st', Ok [TextContent ("File successfully updated: "
                                     +:+ file_path arg +:+ nl +:+ updated_content)])
          | (st', Raise e) => (st', Raise e)
          end
      end
  end.

(** [OsFileEditTool.run] *)
Definition run `{R : Regex} (st : state) (arg : InputModel)
    : state * list ContentItem :=
  if negb (exists_ st (file_path arg)) then
    (st, [TextContent ("File not found: " +:+ file_path arg)])
  else
    match edit st arg with
    | (st', Ok items) => (st', items)
    | (st', Raise e) => (st', [TextContent ("Error editing file: " +:+ exn_msg e)])
    end.


(** An existing regular file the process may read and write. *)
Definition writable_file (st : state) (path : string) (k : list string)
    (content : string) : Prop :=
  resolve st path = Some k
  /\ lookup_node st k = Some (File content)
  /\ is_protected st k = false.

(** The text [_find_and_replace] returns for a rejected pattern. *)
Definition invalid_pattern_text (msg : string) : string :=
  "Invalid regular expression pattern: " +:+ msg.

(** A sample process with one file, and a partial edit of it with a
    pattern that does not compile; [lines] is given as both line numbers. *)
Definition edit_state : state :=
  State "/w" "/home/u" {[ ["w"] := Dir; ["w"; "f"] := File "abc" ]} ∅.

Definition bad_pattern_edit (lines : option Z) : InputModel :=
  {| file_path := "f"; edit_type := "partial"; new_content := "b";
     start_line := lines; end_line := lines;
     search_pattern := Some "("; replacement_text := Some "x" |}.

(** The state after [data] has been written at the key [k]. *)
Definition written (st : state) (k : list string) (data : string) : state :=
  with_tree st (<[k := File data]> (tree st)).

(** What a line edit leaves in the file. *)
Definition edited_lines (content : string) (start_line end_line : Z)
    (new_content : string) : string :=
  Py.join nl (take (Z.to_nat (start_line - 1)) (splitlines content)
              ++ splitlines new_content
              ++ drop (Z.to_nat end_line) (splitlines content)).

(** Sample edits of the file of [edit_state]. *)
Definition sample_edit (edit_type : string) (new_content : string)
    (lines : option (Z * Z)) (pattern replacement : option string) : InputModel :=
  {| file_path := "f"; edit_type := edit_type; new_content := new_content;
     start_line := option_map fst lines; end_line := option_map snd lines;
     search_pattern := pattern; replacement_text := replacement |}.

(** A sample process with a file of three lines. *)
Definition lines_state : state :=
  State "/w" "/home/u"
    {[ ["w"] := Dir;
       ["w"; "f"] := File ("one" +:+ nl +:+ "two" +:+ nl +:+ "three" +:+ nl);
       ["w"; "g"] := File "other" ]} ∅.

End OsFileEdit.

(** ** The HTTP upstream, as the tools see it through [httpx] *)

Module Http.
Import Py.

(** A decoded JSON document. *)
#[local] Unset Elimination Schemes.
Inductive json :=
| JNull
| JBool (b : bool)
| JNum (n : Z)
| JStr (s : string)
| JArr (items : list json)
| JObj (fields : list (string * json)).
#[local] Set Elimination Schemes.

Record response := Response {
  status_code : Z;
  headers : list (string * string);
  text : string;
  (** what [response.json()] gives: the document, or [JSONDecodeError] *)
  json_body : Res json
}.

(** What [await client.get(...)] does: it raises, or it returns. *)
Inductive outcome :=
| Failed (e : exn)
| Replied (r : response).

(** One scripted exchange: the time the upstream takes (microseconds) and
    what comes back. *)
Record exchange := Exchange { latency : Z; result : outcome }.

(** ASCII lower case: what [httpx.Headers] does to the name of a header
    it stores and to the name it is asked for (the tools ask for ASCII
    names). *)
Definition lower_char (c : ascii) : ascii :=
  let n := nat_of_ascii c in
  if ((65 <=? n) && (n <=? 90))%nat then ascii_of_nat (n + 32) else c.

Fixpoint lower (s : string) : string :=
  match s with
  | EmptyString => EmptyString
  | String c s' => String (lower_char c) (lower s')
  end.

(** The values of the headers named [k], in the order received; names
    are compared without regard to case. *)
Fixpoint header_values (k : string) (h : list (string * string)) : list string :=
  match h with
  | [] => []
  | (k', v) :: rest =>
      if String.eqb (lower k) (lower k') then v :: header_values k rest
      else header_values k rest
  end.

(** [response.headers.get(k)]: the values of the headers of that name,
    joined by a comma and a space when there are several. *)
Definition header_get (k : string) (h : list (string * string)) : option string :=
  match header_values k h with
  | [] => None
  | vs => Some (join ", " vs)
  end.

Fixpoint field_get (k : string) (fields : list (string * json)) : option json :=
  match fields with
  | [] => None
  | (k', v) :: rest => if String.eqb k k' then Some v else field_get k rest
  end.

Definition type_name (v : json) : string :=
  match v with
  | JNull => "NoneType"
  | JBool _ => "bool"
  | JNum _ => "int"
  | JStr _ => "str"
  | JArr _ => "list"
  | JObj _ => "dict"
  end.

(** [v.get(k, default)]: only a [dict] has the method. *)
Definition get (v : json) (k : string) (default : json) : Res json :=
  match v with
  | JObj fields => Ok (match field_get k fields with
                       | Some x => x
                       | None => default
                       end)
  | _ => Raise (Exn AttributeError
                  ("'" +:+ type_name v +:+ "' object has no attribute 'get'"))
  end.

(** The items [for x in v] visits. *)
Definition iterate (v : json) : Res (list json) :=
  match v with
  | JArr items => Ok items
  | JObj fields => Ok (map (fun kv => JStr (fst kv)) fields)
  | JStr s => Ok (map (fun c => JStr (String c EmptyString)) (list_ascii_of_string s))
  | _ => Raise (Exn TypeError ("'" +:+ type_name v +:+ "' object is not iterable"))
  end.

(** The interpreter's [repr] of a decoded document, used when a value
    that is no [str] is formatted into text. *)
Class PyRepr := { repr : json -> string }.

(** [f"{v}"] *)
Definition format `{PR : PyRepr} (v : json) : string :=
  match v with
  | JStr s => s
  | _ => repr v
  end.

End Http.

(** ** src/tools/web_brave_web_search.py *)

Module WebBraveWebSearch.
Import Py Content Http.

(** [RATE_LIMIT = 1  # Requests per second] *)
Definition RATE_LIMIT : Z := 1.

(** Times are in microseconds, the resolution of [datetime]. *)
Definition second : Z := 1000000.

(** [1 / RATE_LIMIT] seconds *)
Definition min_interval : Z := second / RATE_LIMIT.

(** The raw arguments: [count] and [offset] may be left out. *)
Record arguments := Arguments {
  query : string;
  count : option Z;
  offset : option Z
}.

Record InputModel := Validated {
  im_query : string;
  im_count : Z;
  im_offset : Z
}.

(** [InputModel] built from the arguments: the declared constraints, with the defaults
    [count = 10] and [offset = 0]. *)
Definition validate (a : arguments) : Res InputModel :=
  let c := default 10 (count a) in
  let o := default 0 (offset a) in
  if (Nat.leb (String.length (query a)) 400)
     && (1 <=? c) && (c <=? 20) && (0 <=? o) && (o <=? 9)
  then Ok (Validated (query a) c o)
  else Raise (Exn ValidationError "validation error for InputModel").

(** What the process does that the outside can observe. *)
Inductive event :=
| Requested (at_time : Z) (q : string) (count : Z) (offset : Z)
| LimiterSleep (microseconds : Z)
| RetrySleep (seconds : Z).

(** The process state the tool reads and writes: the clock behind
    [datetime.now()], the module global, and the record of events. *)
Record proc := Proc {
  now : Z;
  LAST_REQUEST_TIME : option Z;
  log : list event
}.

Definition advance (d : Z) (p : proc) : proc :=
  Proc (now p + Z.max 0 d) (LAST_REQUEST_TIME p) (log p).

Definition record (e : event) (p : proc) : proc :=
  Proc (now p) (LAST_REQUEST_TIME p) (log p ++ [e]).

(** The environment [self.get_env(arguments, prefix="BRAVE_")] returns. *)
Definition has_key (env : gmap string string) : bool :=
  match env !! "BRAVE_API_KEY" with
  | Some k => negb (is_empty k)
  | None => false
  end.

(** Lines 49-52: the delay the limiter asks for, if any. *)
Definition rate_limit_delay (p : proc) : option Z :=
  match LAST_REQUEST_TIME p with
  | Some last =>
      let elapsed := now p - last in
      if elapsed <? min_interval then Some (min_interval - elapsed) else None
  | None => None
  end.

(** The state after the limiter of lines 47-52 has had its sleep. *)
Definition limited (p : proc) : proc :=
  match rate_limit_delay p with
  | Some d => advance d (record (LimiterSleep d) p)
  | None => p
  end.

(** Lines 53-74, up to the moment the request leaves:
    [LAST_REQUEST_TIME = datetime.now()], validation, the request. *)
Definition send (a : arguments) (p : proc) : Res InputModel * proc :=
  let p1 := Proc (now p) (Some (now p)) (log p) in
  match validate a with
  | Raise e => (Raise e, p1)
  | Ok im =>
      (Ok im, record (Requested (now p1) (im_query im)
                        (Z.min (im_count im) 20) (im_offset im)) p1)
  end.

(** [data.get("web", {}).get("results", [])] and the comprehension over
    it. *)
Definition format_result `{PR : PyRepr} (result : json) : Res ContentItem :=
  bind (get result "title" (JStr EmptyString)) (fun title =>
  bind (get result "description" (JStr EmptyString)) (fun description =>
  bind (get result "url" (JStr EmptyString)) (fun url =>
  Ok (TextContent ("Title: " +:+ format title +:+ nl
                   +:+ "Description: " +:+ format description +:+ nl
                   +:+ "URL: " +:+ format url))))).

Definition format_results `{PR : PyRepr} (r : response) : Res (list ContentItem) :=
  bind (json_body r) (fun data =>
  bind (get data "web" (JObj [])) (fun web =>
  bind (get web "results" (JArr [])) (fun results =>
  bind (iterate results) (fun items =>
  comprehension format_result items)))).

(** Lines 75-95: what [run] does with a response. *)
Inductive verdict :=
| Return (r : Res (list ContentItem))
| Retry (retry_after : Z).

(** Line 77: [int(response.headers.get('Retry-After', 1))]. *)
Definition retry_after (r : response) : Res Z :=
  match header_get "Retry-After" (headers r) with
  | None => Ok 1
  | Some v => int_of_str v
  end.

(** [asyncio.sleep] returns at once for a delay that is not positive and
    hands any other to the event loop, which adds it to its clock, a
    [float]: an [int] too large for a [float] raises there. *)
Definition on_response `{PR : PyRepr} (r : response) : verdict :=
  if status_code r =? 429 then
    match retry_after r with
    | Ok n =>
        if float_overflows n
        then Return (Raise (Exn OverflowError "int too large to convert to float"))
        else Retry n
    | Raise e => Return (Raise e)
    end
  else if negb (status_code r =? 200) then
    Return (Ok [ErrorContent (status_code r)
                  ("Brave API error: " +:+ str_of_Z (status_code r)
                   +:+ " " +:+ text r)])
  else Return (format_results r).

(** [WebBraveWebSearchTool.run], one invocation at a time, [depth] calls
    of itself deep.  [upstream] scripts the answers to the requests the
    call will make.  The result is [None] when the script ends before the
    call does, and when the call would nest deeper than the interpreter's
    stack has room for: where the [RecursionError] then comes from is not
    modelled. *)
Fixpoint run_from `{PR : PyRepr} `{IL : Interpreter} (depth : nat)
    (env : gmap string string) (a : arguments)
    (upstream : list exchange) (p : proc)
    : option (Res (list ContentItem) * proc) :=
  if negb (has_key env) then
    Some (Ok [TextContent "Missing required BRAVE_API_KEY environment variables"], p)
  else
    match send a (limited p) with
    | (Raise e, p2) => Some (Raise e, p2)
    | (Ok _, p2) =>
        match upstream with
        | [] => None
        | x :: rest =>
            let p3 := advance (latency x) p2 in
            match result x with
            | Failed e => Some (Raise e, p3)
            | Replied r =>
                match on_response r with
                | Return res => Some (res, p3)
                | Retry n =>
                    if (depth <? recursion_room)%nat then
                      run_from (S depth) env a rest
                        (advance (n * second) (record (RetrySleep n) p3))
                    else None
                end
            end
        end
    end.

(** [WebBraveWebSearchTool.run] as a caller invokes it. *)
Definition run `{PR : PyRepr} `{IL : Interpreter} (env : gmap string string)
    (a : arguments) (upstream : list exchange) (p : proc)
    : option (Res (list ContentItem) * proc) :=
  run_from 0 env a upstream p.

(** *** Several invocations in flight

    [run] is a coroutine: it gives up control at [await asyncio.sleep] and
    at [await client.get], and the event loop may run another invocation
    in between.  A task is an invocation stopped at one of these points.
    The machine keeps no count of how deep a task has called itself: it
    describes tasks within the room of the interpreter's stack. *)
Inductive task :=
| Entry                          (** not started, or re-entered by line 79 *)
| LimiterSleeping (wake : Z)     (** in the [sleep] of line 52 *)
| Awaiting                       (** in [client.get], line 74 *)
| RetrySleeping (wake : Z)       (** in the [sleep] of line 78 *)
| Finished (r : Res (list ContentItem)).

Definition resume_send (a : arguments) (p : proc) : task * proc :=
  match send a p with
  | (Raise e, p') => (Finished (Raise e), p')
  | (Ok _, p') => (Awaiting, p')
  end.

(** From line 43 to the next suspension. *)
Definition resume_entry (env : gmap string string) (a : arguments) (p : proc)
    : task * proc :=
  if negb (has_key env) then
    (Finished (Ok [TextContent "Missing required BRAVE_API_KEY environment variables"]), p)
  else
    match rate_limit_delay p with
    | Some d => (LimiterSleeping (now p + Z.max 0 d), record (LimiterSleep d) p)
    | None => resume_send a p
    end.

Definition resume_response `{PR : PyRepr} (x : outcome) (p : proc) : task * proc :=
  match x with
  | Failed e => (Finished (Raise e), p)
  | Replied r =>
      match on_response r with
      | Return res => (Finished res, p)
      | Retry n =>
          (RetrySleeping (now p + Z.max 0 (n * second)), record (RetrySleep n) p)
      end
  end.

(** What the event loop and the world can do next. *)
Inductive action :=
| Resume (i : nat)                 (** run task [i] to its next suspension *)
| Tick (d : Z)                     (** [d] microseconds pass *)
| Deliver (i : nat) (x : outcome)  (** the upstream answers task [i] *).

Record system := System {
  shared : proc;
  tasks : list (arguments * task)
}.

Definition set_task (s : system) (i : nat) (a : arguments) (tp : task * proc)
    : system :=
  System (snd tp) (<[i := (a, fst tp)]> (tasks s)).

(** One step; [None] when the action is not enabled: a sleeping task is
    not resumed before its time, a finished task not at all. *)
Definition step `{PR : PyRepr} (env : gmap string string) (s : system) (act : action)
    : option system :=
  match act with
  | Tick d =>
      if 0 <=? d then Some (System (advance d (shared s)) (tasks s)) else None
  | Resume i =>
      match tasks s !! i with
      | Some (a, Entry) => Some (set_task s i a (resume_entry env a (shared s)))
      | Some (a, LimiterSleeping wake) =>
          if wake <=? now (shared s)
          then Some (set_task s i a (resume_send a (shared s)))
          else None
      | Some (a, RetrySleeping wake) =>
          if wake <=? now (shared s)
          then Some (set_task s i a (resume_entry env a (shared s)))
          else None
      | _ => None
      end
  | Deliver i x =>
      match tasks s !! i with
      | Some (a, Awaiting) => Some (set_task s i a (resume_response x (shared s)))
      | _ => None
      end
  end.

Fixpoint exec `{PR : PyRepr} (env : gmap string string) (s : system)
    (schedule : list action) : option system :=
  match schedule with
  | [] => Some s
  | act :: rest =>
      match step env s act with
      | Some s' => exec env s' rest
      | None => None
      end
  end.

(** The times at which requests left, in order. *)
Definition request_times (l : list event) : list Z :=
  omap (fun e => match e with
                 | Requested t _ _ _ => Some t
                 | _ => None
                 end) l.

Definition retry_sleeps (l : list event) : list Z :=
  omap (fun e => match e with
                 | RetrySleep d => Some d
                 | _ => None
                 end) l.

(** Consecutive entries are at least [gap] apart. *)
Fixpoint spaced (gap : Z) (ts : list Z) : Prop :=
  match ts with
  | t1 :: ((t2 :: _) as rest) => t1 + gap <= t2 /\ spaced gap rest
  | _ => True
  end.


(** The state in which a valid request has just left. *)
Definition sent (a : arguments) (p : proc) : proc := snd (send a (limited p)).

(** The upstream answered [429] and asked for [n] seconds: its
    [Retry-After] header, whatever the case of its name, is read by [int]
    as [n], or there is none and [n] is 1; and [n] is a delay the event
    loop takes. *)
Definition throttles (r : response) (n : Z) : Prop :=
  status_code r = 429 /\ retry_after r = Ok n /\ float_overflows n = false.

(** The invariant of the limiter between calls: the requests made so far
    are a minimum interval apart, none is later than
    [LAST_REQUEST_TIME], and that time is not in the future. *)
Definition paced (p : proc) : Prop :=
  spaced min_interval (request_times (log p))
  /\ match LAST_REQUEST_TIME p with
     | Some last => last <= now p
                    /\ Forall (fun t => t <= last) (request_times (log p))
     | None => request_times (log p) = []
     end.

(** Calls made in sequence: before each call the caller idles for some
    time, and the call runs to its end before the next one starts. *)
Fixpoint run_each `{PR : PyRepr} `{IL : Interpreter} (env : gmap string string)
    (calls : list (Z * arguments * list exchange)) (p : proc) : option proc :=
  match calls with
  | [] => Some p
  | (idle, a, upstream) :: rest =>
      match run env a upstream (advance idle p) with
      | Some (_, p') => run_each env rest p'
      | None => None
      end
  end.

(** The schedule of the machine for one invocation running alone on the
    answers [upstream]: the task is resumed whenever it can be, and the
    clock is moved by each sleep and each latency, no further. *)
Fixpoint solo `{PR : PyRepr} (env : gmap string string) (a : arguments)
    (upstream : list exchange) (p : proc) : list action :=
  if negb (has_key env) then [Resume 0]
  else
    match rate_limit_delay p with
    | Some d => [Resume 0; Tick (Z.max 0 d)]
    | None => []
    end ++
    Resume 0 ::
    match send a (limited p), upstream with
    | (Ok _, p2), x :: rest =>
        Tick (Z.max 0 (latency x)) :: Deliver 0 (result x) ::
        match result x with
        | Replied r =>
            match on_response r with
            | Retry n =>
                Tick (Z.max 0 (n * second))
                :: solo env a rest
                     (advance (n * second)
                        (record (RetrySleep n) (advance (latency x) p2)))
            | Return _ => []
            end
        | Failed _ => []
        end
    | _, _ => []
    end.

(** A task the loop may resume into line 43. *)
Definition startable (p : proc) (t : task) : Prop :=
  t = Entry \/ exists wake, t = RetrySleeping wake /\ wake <= now p.

(** *** Sample inputs

    A [repr] for the samples (none of them formats a value that is not a
    string), an environment with the key, a query, a fresh process, and
    three scripted exchanges: a throttled one, an answered one, and one
    that fails in transport. *)
Definition sample_repr : PyRepr := {| repr _ := "..." |}.

(** An interpreter with room for 900 nested calls. *)
Definition sample_interpreter : Interpreter := {| recursion_room := 900 |}.

Definition sample_env : gmap string string := {[ "BRAVE_API_KEY" := "secret" ]}.
Definition sample_query : arguments := Arguments "rocq prover" None None.
Definition fresh : proc := Proc 0 None [].

Definition throttled_response (name retry_after : string) : response :=
  Response 429 [(name, retry_after)] "Too Many Requests"
    (Raise (Exn JSONDecodeError "Expecting value")).

Definition throttled (retry_after : string) : exchange :=
  Exchange 100 (Replied (throttled_response "Retry-After" retry_after)).

Definition answered (data : json) : exchange :=
  Exchange 100 (Replied (Response 200 [] EmptyString (Ok data))).

Definition unreachable : exchange :=
  Exchange 100 (Failed (Exn ConnectError "All connection attempts failed")).

(** Three invocations started together, and a schedule of the event loop
    for them: all three are run to their first suspension, a second
    passes, and the two sleepers are woken 50 microseconds apart. *)
Definition three_calls : system :=
  System fresh [(sample_query, Entry); (sample_query, Entry); (sample_query, Entry)].

Definition racing_schedule : list action :=
  [Resume 0; Resume 1; Resume 2; Tick 1000000; Resume 1; Tick 50; Resume 2]%nat.

(** The item [run] makes of one result that is a [dict] with the fields
    [fields]: a missing field reads as the empty string. *)
Definition field_text `{PR : PyRepr} (fields : list (string * json))
    (k : string) : string :=
  format (match field_get k fields with
          | Some v => v
          | None => JStr EmptyString
          end).

Definition result_item `{PR : PyRepr} (fields : list (string * json))
    : ContentItem :=
  TextContent ("Title: " +:+ field_text fields "title" +:+ nl
               +:+ "Description: " +:+ field_text fields "description" +:+ nl
               +:+ "URL: " +:+ field_text fields "url").

End WebBraveWebSearch.

(** ** src/tools/web_duckduckgo_search.py *)

Module WebDuckduckgoSearch.
Import Py Content Http.

(** The fields of the request; [None] is a field left out or given as
    [None]. *)
Record InputModel := {
  query : string;
  num_results : option Z;
  region : option string
}.

(** Line 35, the [InputModel] built from the arguments: [num_results],
    when given, is between 1 and 50. *)
Definition validate (arg : InputModel) : Res InputModel :=
  match num_results arg with
  | Some n =>
      if (1 <=? n) && (n <=? 50) then Ok arg
      else Raise (Exn ValidationError "1 validation error for InputModel: num_results")
  | None => Ok arg
  end.

(** [arg.num_results or 8] and [arg.region or "en-en"] *)
Definition limit (arg : InputModel) : Z :=
  match num_results arg with
  | Some n => if n =? 0 then 8 else n
  | None => 8
  end.

Definition search_region (arg : InputModel) : string :=
  match region arg with
  | Some r => if is_empty r then "en-en" else r
  | None => "en-en"
  end.

(** The search engine behind [DuckDuckGoSearchResults.arun]: for a region,
    a result limit and a query it yields the value [arun] returns, or the
    exception building the wrapper or searching raised. *)
Class SearchEngine := { arun : string -> Z -> string -> Res json }.

(** [html.unescape] and [unidecode], taken as given. *)
Class Sanitizer := {
  html_unescape : string -> string;
  unidecode : string -> string
}.

(** The local function [sanitize_text]. *)
Definition sanitize_text `{PR : PyRepr} `{SZ : Sanitizer} (text : json) : string :=
  strip (unidecode (html_unescape (format text))).

(** The body of [for result in search_results]. *)
Fixpoint collect `{PR : PyRepr} `{SZ : Sanitizer} (items : list json)
    (results : list ContentItem) : Res (list ContentItem) :=
  match items with
  | [] => Ok results
  | result :: rest =>
      bind (get result "title" (JStr EmptyString)) (fun t =>
      bind (get result "link" (JStr EmptyString)) (fun l =>
      bind (get result "snippet" (JStr EmptyString)) (fun s =>
      let title := sanitize_text t in
      let link := sanitize_text l in
      let snippet := sanitize_text s in
      if negb (is_empty title) || negb (is_empty link) || negb (is_empty snippet)
      then collect rest
             (results ++ [TextContent ("Title: " +:+ title +:+ nl
                                       +:+ "Link: " +:+ link +:+ nl
                                       +:+ "Snippet: " +:+ snippet +:+ nl +:+ nl)])
      else collect rest results)))
  end.

(** [WebDuckduckgoSearchTool.run]: the validation of line 35 is outside
    the [try], which catches everything the search raises. *)
Definition run `{PR : PyRepr} `{SZ : Sanitizer} `{SE : SearchEngine} (arg : InputModel)
    : Res (list ContentItem) :=
  bind (validate arg) (fun arg =>
  if is_empty (query arg) then
    Ok [TextContent "Missing required argument: query"]
  else
    try_except_Exception
      (bind (arun (search_region arg) (limit arg) (query arg)) (fun search_results =>
       bind (iterate search_results) (fun items =>
       collect items [])))
      (fun e => Ok [TextContent ("Error performing search: " +:+ exn_msg e)])).

(** The item [run] makes of one result that is a [dict] with the fields
    [fields]: a missing field reads as the empty string, each field is
    cleaned, and a result whose three fields come out empty gives no
    item. *)
Definition field_text `{PR : PyRepr} `{SZ : Sanitizer}
    (fields : list (string * json)) (k : string) : string :=
  sanitize_text (match field_get k fields with
                 | Some v => v
                 | None => JStr EmptyString
                 end).

Definition result_item `{PR : PyRepr} `{SZ : Sanitizer}
    (fields : list (string * json)) : option ContentItem :=
  if is_empty (field_text fields "title") && is_empty (field_text fields "link")
     && is_empty (field_text fields "snippet")
  then None
  else Some (TextContent ("Title: " +:+ field_text fields "title" +:+ nl
                          +:+ "Link: " +:+ field_text fields "link" +:+ nl
                          +:+ "Snippet: " +:+ field_text fields "snippet"
                          +:+ nl +:+ nl)).

(** Samples: text that needs no cleaning, and an engine that finds
    nothing. *)
Definition plain_sanitizer : Sanitizer :=
  {| html_unescape s := s; unidecode s := s |}.

Definition silent_engine : SearchEngine :=
  {| arun _ _ _ := Ok (JArr []) |}.

(** More samples: an engine that returns one result with a title and one
    whose fields are blank, and an engine that fails. *)
Definition sample_results : list (list (string * json)) :=
  [[("title", JStr " Rocq "); ("link", JStr "https://rocq-prover.org")];
   [("title", JStr "  "); ("snippet", JStr EmptyString)]].

Definition two_results_engine : SearchEngine :=
  {| arun _ _ _ := Ok (JArr (map JObj sample_results)) |}.

Definition failing_engine : SearchEngine :=
  {| arun _ _ _ := Raise (Exn RuntimeError "202 Ratelimit") |}.

Definition sample_search : InputModel :=
  {| query := "rocq"; num_results := None; region := None |}.

End WebDuckduckgoSearch.

(** ** src/tools/generate_dalle_image.py *)

Module GenerateDalleImage.
Import Py Content.

(** The fields of the request, defaults filled in. *)
Record InputModel := {
  image_description : string;
  model : string;
  size : string;
  quality : string;
  n : Z
}.

(** The engine that checks a [pattern] constraint of a field:
    [pattern_search p s] tells whether the pattern [p] is found in [s]. *)
Class PatternEngine := { pattern_search : string -> string -> bool }.

(** Line 66, the [InputModel] built from the arguments: a description of
    10 to 1000 characters, a size and a quality that match their
    patterns, 1 to 10 images. *)
Definition validate `{PE : PatternEngine} (arg : InputModel) : Res InputModel :=
  if Nat.leb 10 (String.length (image_description arg))
     && Nat.leb (String.length (image_description arg)) 1000
     && pattern_search "^\d+x\d+$" (size arg)
     && pattern_search "^(standard|high)$" (quality arg)
     && (1 <=? n arg) && (n arg <=? 10)
  then Ok arg
  else Raise (Exn ValidationError "validation error for InputModel").

(** [litellm.image_generation]: it raises, or it answers; [response.data]
    is then a list or something else ([None]); an entry of the list holds
    a [b64_json] payload or none. *)
Class ImageApi := {
  image_generation : InputModel -> option string -> option string
                     -> Res (option (list (option string)))
}.

Definition check_required_env (env : gmap string string) : option string :=
  match env !! "OPENAI_API_KEY" with
  | Some (String _ _) => None
  | _ => Some "OpenAI API key is required. Please provide it in env_vars or set OPENAI_API_KEY environment variable."
  end.

Definition test_image : string :=
  "iVBORw0KGgoAAAANSUhEUgAAAAEAAAABCAQAAAC1HAwCAAAAC0lEQVR42mNk+A8AAQUBAScY42YAAAAASUVORK5CYII=".

(** The keyword calls of lines 119-120. *)
Definition error_site (e : exn) : list kwargs :=
  [ [("code", VInt 500); ("error", VStr ("Error generating image: " +:+ exn_msg e))];
    [("code", VInt 500); ("error", VStr "An error occurred")] ].

(** What is asked of the image API: the request with
    [arg.size or "1024x1024"] for its size. *)
Definition requested (arg : InputModel) : InputModel :=
  {| image_description := image_description arg; model := model arg;
     size := if is_empty (size arg) then "1024x1024" else size arg;
     quality := quality arg; n := n arg |}.

(** The [try] block. *)
Definition generate `{IP : ImagePayload} `{IA : ImageApi}
    (env : gmap string string) (arg : InputModel) : Res (list ContentItem) :=
  if bool_decide (env !! "OPENAI_API_KEY" = Some "test") then
    bind (new_ImageContent [("type", VStr "image"); ("mime_type", VStr "image/jpeg");
                            ("image", VStr test_image)])
         (fun i => Ok [i])
  else
    bind (image_generation (requested arg) (env !! "OPENAI_API_KEY")
            (env !! "OPENAI_BASE_URL"))
      (fun data =>
         match data with
         | Some (first :: _) =>
             let img := match first with Some b => VStr b | None => VNone end in
             bind (new_ImageContent [("type", VStr "image");
                                     ("mime_type", VStr "image/jpeg");
                                     ("image", img)])
                  (fun i => Ok [i])
         | _ => Ok [TextContent "No images generated."]
         end).

(** [DallETool.run]; [env] is what [self.get_env(env_vars or {})] returns.
    The validation of line 66 is outside the [try]. *)
Definition run `{PE : PatternEngine} `{IP : ImagePayload} `{IA : ImageApi}
    (env : gmap string string) (arg : InputModel) : Res (list ContentItem) :=
  bind (validate arg) (fun arg =>
  match check_required_env env with
  | Some env_check => Ok [TextContent env_check]
  | None =>
      if is_empty (image_description arg) then
        Ok [TextContent "Missing required argument: image_description"]
      else
        try_except_Exception (generate env arg)
          (fun e => comprehension new_ErrorContent (error_site e))
  end).

(** Samples: a request, an API that fails, and one that returns two
    images; an engine that knows the two patterns of the model on the
    sample values, and a payload check that accepts the base64
    alphabet. *)
Definition sample_request : InputModel :=
  {| image_description := "a lighthouse at dawn"; model := "dall-e-3";
     size := "1024x1024"; quality := "standard"; n := 2 |}.

Definition failing_api : ImageApi :=
  {| image_generation _ _ _ := Raise (Exn RuntimeError "quota exceeded") |}.

Definition two_images_api : ImageApi :=
  {| image_generation _ _ _ := Ok (Some [Some "AAAA"; Some "BBBB"]) |}.

Definition sample_patterns : PatternEngine :=
  {| pattern_search p s :=
       if String.eqb p "^\d+x\d+$"
       then String.eqb s "1024x1024" || String.eqb s "512x512"
       else if String.eqb p "^(standard|high)$"
       then String.eqb s "standard" || String.eqb s "high"
       else false |}.

Definition base64_char (c : ascii) : bool :=
  let k := nat_of_ascii c in
  ((65 <=? k) && (k <=? 90) || (97 <=? k) && (k <=? 122)
   || (48 <=? k) && (k <=? 57) || (k =? 43) || (k =? 47) || (k =? 61))%nat.

Definition base64_payload : ImagePayload :=
  {| well_formed_image s := forallb base64_char (list_ascii_of_string s) |}.

Definition missing_key_message : string :=
  "OpenAI API key is required. Please provide it in env_vars or set OPENAI_API_KEY environment variable.".

End GenerateDalleImage.

(** ** The weather tools *)

(** [Nominatim] behind [_geocode_city]: the coordinates of a city, or the
    exception [_geocode_city] lets out ([ValueError] for every geocoding
    failure it knows). *)
Class Geocoder := { _geocode_city : string -> Py.Res (Q * Q) }.

Module Weather.
Import Py.

(** The arguments the three weather tools share, before validation. *)
Record arguments := Arguments {
  latitude : option Q;
  longitude : option Q;
  city : option string;
  days : option Z
}.

Definition in_range (lo hi : Z) (x : option Q) : bool :=
  match x with
  | Some q => Qle_bool (inject_Z lo) q && Qle_bool q (inject_Z hi)
  | None => true
  end.

(** The [InputModel] of [weather_us_forecast.py] built from the
    arguments: latitude in -90..90, longitude in -180..180, a city name
    of at most 60 characters, 1 to 14 days (7 when left out). *)
Definition validate (a : arguments) : Res arguments :=
  if in_range (-90) 90 (latitude a) && in_range (-180) 180 (longitude a)
     && match city a with
        | Some c => Nat.leb (String.length c) 60
        | None => true
        end
     && match days a with
        | Some d => (1 <=? d) && (d <=? 14)
        | None => true
        end
  then Ok (Arguments (latitude a) (longitude a) (city a)
             (Some (default 7 (days a))))
  else Raise (Exn ValidationError "validation error for InputModel").

Definition truthy_str (o : option string) : bool :=
  match o with
  | Some s => negb (is_empty s)
  | None => false
  end.

Definition truthy_float (o : option Q) : bool :=
  match o with
  | Some q => negb (Qeq_bool q 0)
  | None => false
  end.

Definition lacks_coordinates (a : arguments) : bool :=
  match latitude a, longitude a with
  | Some _, Some _ => false
  | _, _ => true
  end.

(** The final four [except] clauses both US tools end with. *)
Definition describe (e : exn) : string :=
  if issubclass (exn_cls e) HTTPError then "HTTP Error: " +:+ exn_msg e
  else if issubclass (exn_cls e) KeyError then "Data parsing error: " +:+ exn_msg e
  else if issubclass (exn_cls e) ValueError then "Geocoding error: " +:+ exn_msg e
  else "Unexpected error: " +:+ exn_msg e.


(** Sample geocoders: one that knows no city, one that puts every city at
    the same place. *)
Definition no_city_geocoder : Geocoder :=
  {| _geocode_city c :=
       Raise (Exn ValueError ("Could not find location for city: " +:+ c)) |}.

Definition fixed_geocoder : Geocoder :=
  {| _geocode_city _ := Ok (47.6%Q, (-122.3)%Q) |}.

End Weather.

(** ** src/tools/weather_us_forecast.py *)

Module WeatherUSForecast.
Import Py Content Weather.

(** Lines 121-155: the two requests to api.weather.gov and the text made
    of the periods; the text, or the exception that ends the block. *)
Class Nws := { forecast_text : arguments -> Res string }.

(** The keyword calls of lines 104 and 112. *)
Definition error_site (e : exn) : kwargs :=
  [("code", VInt 400); ("message", VStr (exn_msg e))].

(** Lines 120-164 *)
Definition forecast `{N : Nws} (arg : arguments) : Res (list ContentItem) :=
  match forecast_text arg with
  | Ok t => Ok [TextContent t]
  | Raise e => Ok [TextContent (describe e)]
  end.

(** [WeatherUSForecastTool.run] *)
Definition run `{G : Geocoder} `{N : Nws} (a : arguments) : Res (list ContentItem) :=
  match validate a with
  | Raise e =>
      if issubclass (exn_cls e) ValueError
      then bind (new_ErrorContent (error_site e)) (fun x => Ok [x])
      else Raise e
  | Ok arg =>
      let located : Res arguments :=
        if truthy_str (city arg) && lacks_coordinates arg then
          bind (_geocode_city (default EmptyString (city arg))) (fun ll =>
          Ok (Arguments (Some (fst ll)) (Some (snd ll)) (city arg) (days arg)))
        else Ok arg in
      match located with
      | Ok arg' => forecast arg'
      | Raise e =>
          if issubclass (exn_cls e) ValueError then
            if lacks_coordinates arg then
              bind (new_ErrorContent (error_site e)) (fun x =>
              Ok [x; TextContent "Error: Either city or latitude/longitude must be provided"])
            else forecast arg
          else if issubclass (exn_cls e) GeocoderTimedOut then
            Ok [TextContent "Error: Geocoding timed out"]
          else if issubclass (exn_cls e) GeocoderServiceError then
            Ok [TextContent "Error: Geocoding service error"]
          else Raise e
      end
  end.


(** Sample services: one that answers, one that is down. *)
Definition sunny : Nws := {| forecast_text _ := Ok "Today: 70 F Sunny" |}.

Definition down : Nws :=
  {| forecast_text _ := Raise (Exn HTTPStatusError "Server error '503'") |}.

End WeatherUSForecast.

(** ** src/tools/weather_us_current.py *)

Module WeatherUSCurrent.
Import Py Content Weather.

(** The two requests to api.weather.gov inside [async with] and the text
    made of the first period; the text, or the exception that ends the
    block. *)
Class Nws := { current_text : arguments -> Res string }.

(** The [InputModel] of [weather_us_current.py] built from the
    arguments: latitude in -90..90, longitude in -180..180, a city name
    of at most 60 characters.  The model declares no [days]: a key of
    that name in the arguments is not looked at and is not kept. *)
Definition validate (a : arguments) : Res arguments :=
  if in_range (-90) 90 (latitude a) && in_range (-180) 180 (longitude a)
     && match city a with
        | Some c => Nat.leb (String.length c) 60
        | None => true
        end
  then Ok (Arguments (latitude a) (longitude a) (city a) None)
  else Raise (Exn ValidationError "validation error for InputModel").

(** The [try] block of [run]. *)
Definition current `{G : Geocoder} `{N : Nws} (a : arguments) : Res (list ContentItem) :=
  bind (validate a) (fun arg =>
  bind (if truthy_str (city arg) && lacks_coordinates arg then
          bind (_geocode_city (default EmptyString (city arg))) (fun ll =>
          Ok (Arguments (Some (fst ll)) (Some (snd ll)) (city arg) (days arg)))
        else Ok arg) (fun arg =>
  if lacks_coordinates arg then
    Ok [TextContent "Error: Either city or latitude/longitude must be provided"]
  else
    bind (current_text arg) (fun weather_info =>
    Ok [TextContent weather_info]))).

(** [WeatherUSCurrentTool.run] *)
Definition run `{G : Geocoder} `{N : Nws} (a : arguments) : Res (list ContentItem) :=
  try_except_Exception (current a) (fun e => Ok [TextContent (describe e)]).


(** A sample service that is down. *)
Definition down : Nws :=
  {| current_text _ := Raise (Exn HTTPStatusError "Server error '503'") |}.

End WeatherUSCurrent.

(** ** src/tools/weather_open_meteo_forecast.py *)

Module WeatherOpenMeteoForecast.
Import Py Content Weather.

(** Lines 114-225: the Open-Meteo client, the data frame, the plot and the
    returned items; or the exception that ends the block. *)
Class OpenMeteo := { retrieve : arguments -> Q * Q -> Res (list ContentItem) }.

(** The keyword call of lines 109-112. *)
Definition missing_location_site : kwargs :=
  [("code", VInt 400);
   ("message", VStr "Either city or latitude/longitude must be provided")].

(** The keyword call of line 228. *)
Definition failure_site (e : exn) : kwargs :=
  [("code", VInt 500); ("message", VStr ("Weather retrieval error: " +:+ exn_msg e))].

(** The [try] block: [run] reads the raw arguments and builds no
    [InputModel]. *)
Definition weather `{G : Geocoder} `{O : OpenMeteo} (a : arguments)
    : Res (list ContentItem) :=
  if truthy_str (city a) then
    bind (_geocode_city (default EmptyString (city a))) (fun ll => retrieve a ll)
  else if truthy_float (latitude a) && truthy_float (longitude a) then
    retrieve a (default 0%Q (latitude a), default 0%Q (longitude a))
  else
    bind (new_ErrorContent missing_location_site) (fun x => Ok [x]).

(** [WeatherOpenMeteoForecastTool.run] *)
Definition run `{G : Geocoder} `{O : OpenMeteo} (a : arguments) : Res (list ContentItem) :=
  try_except_Exception (weather a)
    (fun e => bind (new_ErrorContent (failure_site e)) (fun x => Ok [x])).


(** A sample client that answers with one text item. *)
Definition answering : OpenMeteo :=
  {| retrieve _ _ := Ok [TextContent "{'coordinates': ...}"] |}.

End WeatherOpenMeteoForecast.

(** ** More of the Python runtime: searching and cutting strings *)

Module PyStr.
Import Py.

(** [s[:n]] and [s[n:]] for [0 <= n]. *)
Fixpoint take_str (n : nat) (s : string) : string :=
  match n, s with
  | S n', String c s' => String c (take_str n' s')
  | _, _ => EmptyString
  end.

Fixpoint drop_str (n : nat) (s : string) : string :=
  match n, s with
  | S n', String _ s' => drop_str n' s'
  | _, _ => s
  end.

(** The lowest position at or after [i] (counted from the start of the
    whole string) where [sub] begins, scanning [s]. *)
Fixpoint find_from (sub s : string) (i : nat) : option nat :=
  if String.prefix sub s then Some i
  else match s with
       | EmptyString => None
       | String _ s' => find_from sub s' (S i)
       end.

(** [s.find(sub)]: the lowest index where [sub] begins, or -1. *)
Definition find (s sub : string) : Z :=
  match find_from sub s 0 with
  | Some i => Z.of_nat i
  | None => -1
  end.

(** [s.split(sep)] for a non-empty separator: the pieces between the
    occurrences of [sep], found from left to right without overlap.
    [skip] counts the characters of a separator still to pass over. *)
Fixpoint split_sep_from (sep : string) (skip : nat) (cur : string) (s : string)
    : list string :=
  match s with
  | EmptyString => [cur]
  | String c s' =>
      match skip with
      | S k => split_sep_from sep k cur s'
      | O =>
          if String.prefix sep s
          then cur :: split_sep_from sep (String.length sep - 1) EmptyString s'
          else split_sep_from sep 0 (snoc cur c) s'
      end
  end.

Definition split_sep (sep s : string) : list string :=
  split_sep_from sep 0 EmptyString s.

(** [sub] occurs in [s]. *)
Definition occurs (sub s : string) : Prop :=
  exists pre post, s = pre +:+ sub +:+ post.

(** [s] is [pre], then [sub], then [post], and [sub] begins nowhere in
    [s] before the end of [pre]: this is the first occurrence. *)
Definition first_occurrence (sub s pre post : string) : Prop :=
  s = pre +:+ sub +:+ post
  /\ forall pre' post', s = pre' +:+ sub +:+ post' ->
       (String.length pre <= String.length pre')%nat.

End PyStr.

(** ** src/tools/os_diff_editor_tool.py *)

Module OsDiffEditor.
Import Py PyStr Content PosixPath OS.

Record InputModel := { path : string; old_text : string; new_text : string }.

(** [os.path.isfile] *)
Definition isfile (st : state) (p : string) : bool :=
  match stat st p with
  | Some (File _) | Some (Raw _) => true
  | _ => false
  end.

(** [content[:index] + new_text + content[index + len(old_text):]] for an
    index that [find] returned. *)
Definition replace_at (content : string) (index : Z) (old_text new_text : string)
    : string :=
  take_str (Z.to_nat index) content +:+ new_text
  +:+ drop_str (Z.to_nat (index + Z.of_nat (String.length old_text))) content.

(** [OsDiffEditorTool.run] *)
Definition run (st : state) (arg : InputModel) : state * list ContentItem :=
  if negb (isfile st (path arg)) then
    (st, [TextContent ("Error: File does not exist at path: " +:+ path arg)])
  else
    match read_file st (path arg) with
    | Raise e =>
        (st, [TextContent ("Error reading file " +:+ path arg +:+ ": " +:+ exn_msg e)])
    | Ok content =>
        let index := find content (old_text arg) in
        if index =? -1 then
          (st, [TextContent ("'" +:+ old_text arg
                             +:+ "' not found in the file. No changes made.")])
        else
          let new_content := replace_at content index (old_text arg) (new_text arg) in
          match write_file st (path arg) new_content with
          | (st', Raise e) =>
              (st', [TextContent ("Error writing updated content to file "
                                  +:+ path arg +:+ ": " +:+ exn_msg e)])
          | (st', Ok _) =>
              (st', [TextContent ("Successfully replaced '" +:+ old_text arg
                                  +:+ "' with '" +:+ new_text arg
                                  +:+ "' in " +:+ path arg +:+ ".")])
          end
    end.

(** A sample process: a file that holds the same word twice. *)
Definition twice_state : state :=
  State "/w" "/home/u"
    {[ ["w"] := Dir; ["w"; "notes"] := File "red fish, red sea" ]} ∅.

(** Another: a file of two lines, the first ended by CR LF. *)
Definition dos_state : state :=
  State "/w" "/home/u"
    {[ ["w"] := Dir; ["w"; "notes"] := File ("red" +:+ String CR nl +:+ "fish") ]} ∅.

End OsDiffEditor.

(** ** Child processes, as the tools see them through [subprocess.run] *)

Module Subprocess.
Import Py.

(** What a finished child leaves: [returncode], [stdout], [stderr]. *)
Record completed := Completed {
  returncode : Z;
  stdout : string;
  stderr : string
}.

(** [spawn argv] is what starting [argv] and waiting for it gives: the
    finished child, or the exception of a child that could not be started
    (no such program, no permission). *)
Class Spawner := { spawn : list string -> Res completed }.

End Subprocess.

(** ** src/tools/apt_package_manager.py *)

Module AptPackageManager.
Import Py Content Subprocess.

Record InputModel := {
  command : string;
  packages : list string;
  use_sudo : bool;
  assume_yes : bool
}.

(** Lines 50-74: the command line, or nothing for a command the tool does
    not know. *)
Definition build (arg : InputModel) : option (list string) :=
  let cmd := ["apt-get"] in
  let cmd := if use_sudo arg then "sudo" :: cmd else cmd in
  let cmd := if assume_yes arg then cmd ++ ["-y"] else cmd in
  if String.eqb (command arg) "install" then Some (cmd ++ ["install"] ++ packages arg)
  else if String.eqb (command arg) "remove" then Some (cmd ++ ["remove"] ++ packages arg)
  else if String.eqb (command arg) "update" then Some (cmd ++ ["update"])
  else if String.eqb (command arg) "upgrade" then Some (cmd ++ ["upgrade"])
  else if String.eqb (command arg) "autoremove" then Some (cmd ++ ["autoremove"])
  else None.

(** [AptPackageManagerTool.run]; [check=True] makes a non-zero return code
    a [CalledProcessError], which the first handler reports. *)
Definition run `{SP : Spawner} (arg : InputModel) : list ContentItem :=
  match build arg with
  | None => [TextContent ("Unsupported command: " +:+ command arg)]
  | Some cmd =>
      match spawn cmd with
      | Raise e =>
          [TextContent ("Unexpected error in AptPackageManager: " +:+ exn_msg e)]
      | Ok result =>
          if returncode result =? 0 then
            [TextContent ("Command '" +:+ Py.join " " cmd
                          +:+ "' executed successfully:" +:+ nl
                          +:+ stdout result +:+ nl +:+ stderr result)]
          else
            [TextContent ("Error executing apt-get command:" +:+ nl
                          +:+ "Command: " +:+ Py.join " " cmd +:+ nl
                          +:+ "Return Code: " +:+ str_of_Z (returncode result) +:+ nl
                          +:+ "Standard Output: " +:+ stdout result +:+ nl
                          +:+ "Standard Error: " +:+ stderr result)]
      end
  end.

(** The five commands the tool knows. *)
Definition supported : list string :=
  ["install"; "remove"; "update"; "upgrade"; "autoremove"].

(** A sample spawner that echoes the command line it was given. *)
Definition echo : Spawner :=
  {| spawn argv := Ok (Completed 0 (Py.join " " argv) EmptyString) |}.

End AptPackageManager.

(** ** src/tools/apt_cache_info.py *)

Module AptCacheInfo.
Import Py Content Subprocess.

Record InputModel := {
  operation : string;
  package_name : string;
  use_sudo : bool
}.

(** Lines 38-57: the command line. *)
Definition build (arg : InputModel) : list string :=
  let cmd := ["apt-cache"] in
  let cmd := if use_sudo arg then "sudo" :: cmd else cmd in
  if String.eqb (operation arg) "show" then cmd ++ ["show"] ++ [package_name arg]
  else if String.eqb (operation arg) "search" then cmd ++ ["search"] ++ [package_name arg]
  else if String.eqb (operation arg) "policy" then
    cmd ++ ["policy"] ++ (if is_empty (package_name arg) then [] else [package_name arg])
  else cmd ++ ["stats"].

(** [AptCacheInfoTool.run] *)
Definition run `{SP : Spawner} (arg : InputModel) : list ContentItem :=
  match spawn (build arg) with
  | Raise e => [TextContent ("Unexpected error: " +:+ exn_msg e)]
  | Ok result =>
      if negb (returncode result =? 0)
      then [TextContent ("Error: " +:+ stderr result)]
      else [TextContent (stdout result)]
  end.

End AptCacheInfo.

(** ** src/tools/youtube_transcript_tool.py *)

Module YouTubeTranscript.
Import Py PyStr Content.

Record InputModel := { url : string; language : string }.

(** What [YouTubeTranscriptApi.get_transcript] does: it returns the texts
    of the entries, or raises one of the two exceptions the tool names, or
    another one. *)
Inductive fetched :=
| Transcript (texts : list string)
| TranscriptsDisabled
| NoTranscriptAvailable
| Failure (e : exn).

Class TranscriptApi := { get_transcript : string -> string -> fetched }.

(** [str(url).split("v=")[1].split("&")[0]] *)
Definition video_id (url : string) : Res string :=
  match split_sep "v=" url with
  | _ :: second :: _ =>
      match split_sep "&" second with
      | first :: _ => Ok first
      | [] => Raise (Exn IndexError "list index out of range")
      end
  | _ => Raise (Exn IndexError "list index out of range")
  end.

(** [YouTubeTranscriptTool.run] *)
Definition run `{TA : TranscriptApi} (arg : InputModel) : list ContentItem :=
  if is_empty (url arg) then [TextContent "Error: URL is required"]
  else
    match video_id (url arg) with
    | Raise e => [TextContent ("Error fetching transcript: " +:+ exn_msg e)]
    | Ok id =>
        match get_transcript id (language arg) with
        | Transcript texts => [TextContent (Py.join " " texts)]
        | TranscriptsDisabled =>
            [TextContent "Error: Transcripts are disabled for this video"]
        | NoTranscriptAvailable =>
            [TextContent "Error: No transcript available for this video"]
        | Failure e => [TextContent ("Error fetching transcript: " +:+ exn_msg e)]
        end
    end.

(** The reply to what the transcript API did for the id [id]. *)
Definition reply_for `{TA : TranscriptApi} (id language : string)
    : list ContentItem :=
  match get_transcript id language with
  | Transcript texts => [TextContent (Py.join " " texts)]
  | TranscriptsDisabled =>
      [TextContent "Error: Transcripts are disabled for this video"]
  | NoTranscriptAvailable =>
      [TextContent "Error: No transcript available for this video"]
  | Failure e => [TextContent ("Error fetching transcript: " +:+ exn_msg e)]
  end.

(** A sample API that answers with the id it was asked for. *)
Definition echo_api : TranscriptApi :=
  {| get_transcript id _ := Transcript ["transcript of"; id] |}.

End YouTubeTranscript.

(** ** src/tools/weather_us_alerts.py *)

Module WeatherUSAlerts.
Import Py Content Http.

(** [_make_nws_request]: the decoded document, or the exception of the
    request, of [raise_for_status] or of the decoding. *)
Class Nws := { _make_nws_request : string -> Res json }.

Definition NWS_API_BASE : string := "https://api.weather.gov".

(** The state codes the [InputModel] accepts: two characters, both
    capital ASCII letters.  [run] below is the tool on such a code; on
    any other argument the source raises the validation error of line 37
    before its [try] block. *)
Definition is_capital (c : ascii) : bool :=
  let k := nat_of_ascii c in ((65 <=? k) && (k <=? 90))%nat.

Definition valid_state (state : string) : bool :=
  match state with
  | String a (String b EmptyString) => is_capital a && is_capital b
  | _ => false
  end.

Definition alerts_url (state : string) : string :=
  NWS_API_BASE +:+ "/alerts/active?area=" +:+ state.

(** The five fields kept of one feature; [props.get(k)] is [None] for a
    missing key. *)
Record alert := Alert {
  event : json; area : json; severity : json; status : json; description : json
}.

Definition alert_of (feature : json) : Res alert :=
  bind (get feature "properties" (JObj [])) (fun props =>
  bind (get props "event" JNull) (fun e =>
  bind (get props "areaDesc" JNull) (fun a =>
  bind (get props "severity" JNull) (fun sv =>
  bind (get props "status" JNull) (fun st =>
  bind (get props "description" JNull) (fun d =>
  Ok (Alert e a sv st d))))))).

Definition alert_text `{PR : PyRepr} (a : alert) : string :=
  "Event: " +:+ format (event a) +:+ nl
  +:+ "Area: " +:+ format (area a) +:+ nl
  +:+ "Severity: " +:+ format (severity a) +:+ nl
  +:+ "Status: " +:+ format (status a) +:+ nl
  +:+ "Description: " +:+ format (description a) +:+ nl
  +:+ "---".

(** The [try] block of [run]. *)
Definition alerts_for `{PR : PyRepr} `{N : Nws} (state : string)
    : Res (list ContentItem) :=
  bind (_make_nws_request (alerts_url state)) (fun data =>
  bind (get data "features" (JArr [])) (fun features =>
  bind (iterate features) (fun items =>
  bind (comprehension alert_of items) (fun alerts =>
  match alerts with
  | [] => Ok [TextContent ("No active weather alerts for " +:+ state)]
  | _ => Ok [TextContent (Py.join nl (map alert_text alerts))]
  end)))).

(** [WeatherUSAlertsTool.run] on a validated state code. *)
Definition run `{PR : PyRepr} `{N : Nws} (state : string) : list ContentItem :=
  match alerts_for state with
  | Ok items => items
  | Raise e =>
      if issubclass (exn_cls e) HTTPError
      then [TextContent ("HTTP Error: " +:+ exn_msg e)]
      else [TextContent ("Unexpected error: " +:+ exn_msg e)]
  end.

(** The alert made of the properties [props] of a feature. *)
Definition alert_of_properties (props : list (string * json)) : alert :=
  let field k := match field_get k props with Some v => v | None => JNull end in
  Alert (field "event") (field "areaDesc") (field "severity") (field "status")
        (field "description").

(** The properties [run] reads of a feature: the object under the key
    [properties] of a feature that is an object, whatever its other keys,
    and no property at all when the key is missing.  A feature that is no
    object, or whose [properties] is no object, has none to read. *)
Definition properties_of (feature : json) : option (list (string * json)) :=
  match feature with
  | JObj fields =>
      match field_get "properties" fields with
      | Some (JObj props) => Some props
      | Some _ => None
      | None => Some []
      end
  | _ => None
  end.

(** A sample service with two alerts for every state: a feature as the
    service sends it, with an id and a geometry beside its properties,
    and a feature without properties. *)
Definition sample_features : list json :=
  [JObj [("id", JStr "urn:oid:2.49.0.1.840.0.1");
         ("type", JStr "Feature");
         ("geometry", JNull);
         ("properties", JObj [("event", JStr "Flood Warning");
                              ("severity", JStr "Severe")])];
   JObj [("type", JStr "Feature")]].

Definition two_alerts : Nws :=
  {| _make_nws_request _ := Ok (JObj [("features", JArr sample_features)]) |}.

(** A [repr] that renders [None]. *)
Definition none_repr : PyRepr := {| repr _ := "None" |}.

End WeatherUSAlerts.

(** * Properties *)

(** ** Word counter *)

Section WordCount.
Import Py Content WordCounter.

Lemma snoc_not_empty w c : is_empty (snoc w c) = false.
Proof. destruct w; reflexivity. Qed.

Lemma split_from_length s : forall w,
  length (split_from w s)
  = ((if is_empty w then 0 else 1) + starts (negb (is_empty w)) s)%nat.
Proof.
  induction s as [|c s IH]; intros w; simpl.
  - destruct (is_empty w); reflexivity.
  - destruct (isspace c).
    + destruct (is_empty w); simpl; rewrite IH; reflexivity.
    + rewrite IH, snoc_not_empty. destruct (is_empty w); simpl; lia.
Qed.

Lemma starts_at_shift inside c s i :
  starts_at inside (String c s) (S i) = starts_at (negb (isspace c)) s i.
Proof.
  unfold starts_at, non_space_at, char_at. simpl.
  destruct i; reflexivity.
Qed.

Lemma starts_positions s : forall inside,
  starts inside s
  = length (List.filter (starts_at inside s) (seq 0 (String.length s))).
Proof.
  induction s as [|c s IH]; intros inside; [reflexivity|].
  cbn [String.length seq List.filter starts].
  rewrite <- seq_shift, filter_map_swap.
  rewrite (List.filter_ext _ (starts_at (negb (isspace c)) s)
             (fun i => starts_at_shift inside c s i)).
  unfold starts_at at 1, non_space_at, char_at. simpl.
  destruct (isspace c), inside; simpl; rewrite length_map, <- IH; reflexivity.
Qed.

Lemma split_counts_word_starts s :
  length (Py.split s) = spec_word_count s.
Proof.
  unfold Py.split, spec_word_count. rewrite split_from_length. simpl.
  rewrite starts_positions. reflexivity.
Qed.

Lemma no_space_snoc w c :
  no_space w = true -> isspace c = false -> no_space (snoc w c) = true.
Proof.
  intros Hw Hc. unfold snoc. induction w as [|d w IH]; simpl in *.
  - rewrite Hc. reflexivity.
  - apply andb_true_iff in Hw as [Hd Hw]. rewrite Hd. simpl. apply IH, Hw.
Qed.

Lemma split_from_words s : forall w,
  no_space w = true -> Forall is_word (split_from w s).
Proof.
  induction s as [|c s IH]; intros w Hw; simpl.
  - destruct (is_empty w) eqn:He; repeat constructor; assumption.
  - destruct (isspace c) eqn:Hc.
    + destruct (is_empty w) eqn:He; [apply IH; reflexivity|].
      constructor; [split; assumption | apply IH; reflexivity].
    + apply IH, no_space_snoc; assumption.
Qed.

(** What [split] returns are words: none is empty and none holds a
    whitespace character. *)
Lemma split_words s : Forall is_word (Py.split s).
Proof. apply split_from_words. reflexivity. Qed.

(** C10.  On the empty text the tool answers the single item
    "Word count: 0", on "   Too    many   spaces   " the single item
    "Word count: 3", and on every text the single item whose number is the
    count of maximal runs of non-whitespace characters. *)
Theorem C10_word_count :
  run {| text := EmptyString |} = [TextContent "Word count: 0"]
  /\ run {| text := "   Too    many   spaces   " |} = [TextContent "Word count: 3"]
  /\ forall t, run {| text := t |}
               = [TextContent ("Word count: "
                               +:+ str_of_Z (Z.of_nat (spec_word_count t)))].
Proof.
  split; [reflexivity|]. split; [reflexivity|].
  intros t. unfold run. simpl. rewrite split_counts_word_starts. reflexivity.
Qed.

End WordCount.

(** ** Absolute paths start at the root *)

Section AbsolutePaths.
Import Py PosixPath.

Lemma startswith_slash_cons s :
  startswith s "/" = true -> exists s', s = String "/" s'.
Proof.
  unfold startswith. destruct s as [|c s]; cbn [String.prefix]; [discriminate|].
  destruct (ascii_dec "/" c) as [<-|]; [eauto | discriminate].
Qed.

Lemma startswith_slash_intro s : startswith (String "/" s) "/" = true.
Proof. unfold startswith. simpl. destruct s; reflexivity. Qed.

Lemma normpath_rooted q :
  startswith q "/" = true -> startswith (normpath q) "/" = true.
Proof.
  intros Hq. destruct (startswith_slash_cons _ Hq) as [q' ->].
  unfold normpath. cbn [is_empty].
  unfold count_initial_slashes. rewrite Hq.
  destruct (startswith (String "/" q') "//" && negb (startswith (String "/" q') "///"));
    cbn [Nat.eqb slashes repeat string_of_list_ascii String.app is_empty];
    apply startswith_slash_intro.
Qed.

Lemma join2_rooted cwd p :
  startswith cwd "/" = true -> startswith (join2 cwd p) "/" = true.
Proof.
  intros Hc. unfold join2.
  destruct (startswith p "/") eqn:Hp; [exact Hp|].
  destruct (startswith_slash_cons _ Hc) as [c' ->].
  destruct (is_empty (String "/" c') || endswith_slash (String "/" c'));
    apply startswith_slash_intro.
Qed.

Lemma abspath_rooted cwd p :
  isabs cwd = true -> startswith (abspath cwd p) "/" = true.
Proof.
  intros Hc. unfold abspath. apply normpath_rooted.
  destruct (isabs p) eqn:Hp; [exact Hp | apply join2_rooted, Hc].
Qed.

End AbsolutePaths.

(** ** Folder deletion *)

Section DeleteFolders.
Import Py Content PosixPath OS OsDeleteFolders.

Lemma nothing_is_safe st path :
  isabs (cwd st) = true -> _is_safe_path st path = false.
Proof.
  intros Hc. unfold _is_safe_path, unsafe_paths.
  cbn [existsb]. rewrite (abspath_rooted _ path Hc). reflexivity.
Qed.

Lemma delete_one_refuses st force path :
  isabs (cwd st) = true -> delete_one st force path = (st, refusal path).
Proof.
  intros Hc. unfold delete_one, attempt.
  rewrite (nothing_is_safe st _ Hc). reflexivity.
Qed.

Lemma loop_refuses st force paths : forall results,
  isabs (cwd st) = true ->
  loop st force paths results = (st, results ++ map refusal paths).
Proof.
  induction paths as [|p paths IH]; intros results Hc; simpl.
  - rewrite app_nil_r. reflexivity.
  - rewrite (delete_one_refuses st force p Hc), IH by exact Hc.
    rewrite <- app_assoc. reflexivity.
Qed.

(** C3.  In a process whose working directory is an absolute path (what
    [os.getcwd] returns), [_is_safe_path] is false for every path, and
    [run], with or without [force], leaves the file system as it was; for
    a non-empty list its text is one line
    "Unsafe deletion prevented for path: ..." per path, in order. *)
Theorem C3_delete_folders_deletes_nothing st arg :
  isabs (cwd st) = true ->
  (forall path, _is_safe_path st path = false)
  /\ fst (run st arg) = st
  /\ (folder_paths arg <> [] ->
      snd (run st arg)
      = [TextContent (Py.join nl (map refusal (folder_paths arg)))]).
Proof.
  intros Hc. split; [intros path; apply nothing_is_safe, Hc|].
  unfold run. destruct (folder_paths arg) as [|p ps] eqn:Hps.
  - split; [reflexivity | intros H; contradiction].
  - rewrite (loop_refuses st (force arg) (p :: ps) [] Hc).
    split; [reflexivity | intros _; reflexivity].
Qed.

Lemma C3_delete_folders_witness :
  isabs (cwd sample_state) = true
  /\ (forall path, _is_safe_path sample_state path = false)
  /\ fst (run sample_state {| folder_paths := ["d"; "/w"]; force := true |})
     = sample_state
  /\ (["d"; "/w"] <> [] ->
      snd (run sample_state {| folder_paths := ["d"; "/w"]; force := true |})
      = [TextContent (Py.join nl (map refusal ["d"; "/w"]))]).
Proof.
  split; [reflexivity|].
  exact (C3_delete_folders_deletes_nothing sample_state
           {| folder_paths := ["d"; "/w"]; force := true |} eq_refl).
Defined.

End DeleteFolders.

(** ** File editing *)

Section FileEdit.
Import Py Content PosixPath OS OsFileEdit.
Context `{R : Regex}.

(** C7.  When [file_path] names nothing that exists, [run] returns the
    single item "File not found: ..." and the state of the file system is
    the one it started from. *)
Theorem C7_missing_file_no_mutation st arg :
  exists_ st (file_path arg) = false ->
  run st arg = (st, [TextContent ("File not found: " +:+ file_path arg)]).
Proof. intros H. unfold run. rewrite H. reflexivity. Qed.

Lemma writable_exists st path k content :
  writable_file st path k content -> exists_ st path = true.
Proof.
  intros (Hr & Hl & _). unfold exists_, stat. rewrite Hr, Hl. reflexivity.
Qed.

Lemma writable_read st path k content :
  writable_file st path k content ->
  read_file st path = Ok (universal_newlines content).
Proof.
  intros (Hr & Hl & _). unfold read_file. rewrite Hr, Hl. reflexivity.
Qed.

Lemma writable_write st path k content data :
  writable_file st path k content ->
  write_file st path data = (with_tree st (<[k := File data]> (tree st)), Ok tt).
Proof.
  intros (Hr & Hl & Hp). unfold write_file. rewrite Hr, Hl, Hp. reflexivity.
Qed.

(** C6, as amended.  On an existing file the process may write, with
    any edit type other than "full", line numbers not both given, a
    non-empty pattern the engine rejects with [re.error] on the text of
    the file as read, and a non-empty replacement, [run] overwrites the
    whole file with "Invalid regular expression pattern: ..." and reports
    "File successfully updated: ..." with that text. *)
Theorem C6_invalid_pattern_overwrites_file st arg k content p r msg :
  writable_file st (file_path arg) k content ->
  edit_type arg <> "full" ->
  (start_line arg = None \/ end_line arg = None) ->
  search_pattern arg = Some p -> p <> EmptyString ->
  replacement_text arg = Some r -> r <> EmptyString ->
  re_sub p r (universal_newlines content) = Raise (Exn ReError msg) ->
  run st arg
  = (with_tree st (<[k := File (invalid_pattern_text msg)]> (tree st)),
     [TextContent ("File successfully updated: " +:+ file_path arg +:+ nl
                   +:+ invalid_pattern_text msg)]).
Proof.
  intros Hw Het Hlines Hp Hpne Hr Hrne Hre.
  unfold run. rewrite (writable_exists _ _ _ _ Hw). cbn [negb].
  unfold edit. rewrite (writable_read _ _ _ _ Hw), Hp, Hr.
  apply String.eqb_neq in Het. rewrite Het.
  assert (Hfind : _find_and_replace (universal_newlines content) p r
                  = Ok (invalid_pattern_text msg)).
  { unfold _find_and_replace, try_except. rewrite Hre. reflexivity. }
  assert (Hne : negb (is_empty p) && negb (is_empty r) = true).
  { destruct p; [contradiction|]. destruct r; [contradiction|]. reflexivity. }
  rewrite Hne, Hfind.
  destruct Hlines as [-> | ->]; [| destruct (start_line arg)];
    rewrite (writable_write _ _ _ _ _ Hw); reflexivity.
Qed.

End FileEdit.

Section FileEditExamples.
Import Py Content PosixPath OS OsFileEdit.

Lemma C7_missing_file_witness :
  exists_ edit_state "g" = false
  /\ run (R := sample_regex) edit_state
       {| file_path := "g"; edit_type := "full"; new_content := "b";
          start_line := None; end_line := None;
          search_pattern := None; replacement_text := None |}
     = (edit_state, [TextContent "File not found: g"]).
Proof.
  split; [reflexivity|].
  exact (C7_missing_file_no_mutation (R := sample_regex) edit_state
           {| file_path := "g"; edit_type := "full"; new_content := "b";
              start_line := None; end_line := None;
              search_pattern := None; replacement_text := None |} eq_refl).
Defined.

Lemma edit_state_file : writable_file edit_state "f" ["w"; "f"] "abc".
Proof. repeat split. Qed.

Lemma C6_invalid_pattern_witness :
  run (R := sample_regex) edit_state (bad_pattern_edit None)
  = (with_tree edit_state
       (<[ ["w"; "f"] :=
             File (invalid_pattern_text
                     "missing ), unterminated subpattern at position 0") ]>
          (tree edit_state)),
     [TextContent ("File successfully updated: f" +:+ nl
                   +:+ invalid_pattern_text
                         "missing ), unterminated subpattern at position 0")]).
Proof.
  refine (C6_invalid_pattern_overwrites_file (R := sample_regex)
            edit_state (bad_pattern_edit None) ["w"; "f"] "abc" "(" "x"
            "missing ), unterminated subpattern at position 0"
            _ _ (or_introl eq_refl) eq_refl _ eq_refl _ eq_refl).
  - repeat split.
  - discriminate.
  - discriminate.
  - discriminate.
Defined.

(** C6 as stated fails when both line numbers are given: the same file,
    edit type, rejected pattern and replacement, with [start_line = 1] and
    [end_line = 1], and the line edit wins: the file holds the new content
    and the invalid-pattern text appears nowhere. *)
Lemma C6_counterexample :
  writable_file edit_state "f" ["w"; "f"] "abc"
  /\ edit_type (bad_pattern_edit (Some 1)) = "partial"
  /\ search_pattern (bad_pattern_edit (Some 1)) = Some "("
  /\ replacement_text (bad_pattern_edit (Some 1)) = Some "x"
  /\ re_sub (Regex := sample_regex) "(" "x" "abc"
     = Raise (Exn ReError "missing ), unterminated subpattern at position 0")
  /\ run (R := sample_regex) edit_state (bad_pattern_edit (Some 1))
     = (with_tree edit_state (<[ ["w"; "f"] := File "b" ]> (tree edit_state)),
        [TextContent ("File successfully updated: f" +:+ nl +:+ "b")])
  /\ run (R := sample_regex) edit_state (bad_pattern_edit (Some 1))
     <> (with_tree edit_state
           (<[ ["w"; "f"] :=
                 File (invalid_pattern_text
                         "missing ), unterminated subpattern at position 0") ]>
              (tree edit_state)),
         [TextContent ("File successfully updated: f" +:+ nl
                       +:+ invalid_pattern_text
                             "missing ), unterminated subpattern at position 0")]).
Proof.
  split; [repeat split|]. repeat (split; [reflexivity|]).
  intros Heq. apply (f_equal snd) in Heq. vm_compute in Heq. discriminate Heq.
Qed.

End FileEditExamples.

(** ** Folder creation *)

Section CreateFolders.
Import Py Content PosixPath OS OsCreateFolders.

Lemma create_one_reports st path : reports path (snd (create_one st path)).
Proof.
  unfold create_one, attempt, reports, created, rejected.
  destruct (negb (all_allowed _)); [simpl; auto|].
  destruct (makedirs st _) as [st' [[]|e]]; [simpl; auto|].
  destruct (issubclass (exn_cls e) PermissionError); simpl; eauto 6.
Qed.

Lemma loop_accumulates paths : forall st results,
  loop st paths results
  = (fst (loop st paths []), results ++ snd (loop st paths [])).
Proof.
  induction paths as [|p paths IH]; intros st results; simpl.
  - rewrite app_nil_r. reflexivity.
  - destruct (create_one st p) as [st' line].
    rewrite (IH st' (results ++ [line])), (IH st' [line]).
    simpl. rewrite <- app_assoc. reflexivity.
Qed.

(** Every path gets its status line, at its own position, whatever
    happened to the paths before it. *)
Lemma one_line_per_path paths : forall st,
  Forall2 reports paths (snd (loop st paths [])).
Proof.
  induction paths as [|p paths IH]; intros st; simpl; [constructor|].
  pose proof (create_one_reports st p) as Hp.
  destruct (create_one st p) as [st' line].
  rewrite loop_accumulates. simpl. constructor; [exact Hp | apply IH].
Qed.

Lemma mkdir_key_cwd st k path : cwd (fst (mkdir_key st k path)) = cwd st.
Proof.
  unfold mkdir_key. destruct (lookup_node st k); [reflexivity|].
  destruct (lookup_node st (parent k)) as [[]|]; try reflexivity.
  destruct (is_protected st (parent k)); reflexivity.
Qed.

Lemma makedirs_from_cwd todo : forall st done path,
  cwd (fst (makedirs_from st done todo path)) = cwd st.
Proof.
  induction todo as [|c todo IH]; intros st done path; simpl; [reflexivity|].
  destruct (lookup_node st (done ++ [c])) as [[]|];
    [apply IH | reflexivity | reflexivity |].
  pose proof (mkdir_key_cwd st (done ++ [c]) path) as Hk.
  destruct (mkdir_key st (done ++ [c]) path) as [st' [[]|e]]; simpl in *.
  - rewrite IH. exact Hk.
  - exact Hk.
Qed.

Lemma makedirs_cwd st path : cwd (fst (makedirs st path)) = cwd st.
Proof. apply makedirs_from_cwd. Qed.

Lemma create_one_created st path st' :
  all_allowed (target st path) = true ->
  makedirs st (target st path) = (st', Ok tt) ->
  create_one st path = (st', created path).
Proof.
  intros Ha Hm. unfold create_one, attempt. fold (target st path).
  rewrite Ha, Hm. reflexivity.
Qed.

Lemma create_one_rejected st path :
  all_allowed (target st path) = false ->
  create_one st path = (st, rejected path).
Proof.
  intros Ha. unfold create_one, attempt. fold (target st path).
  rewrite Ha. reflexivity.
Qed.

(** C9, as amended.  Given one path whose normalised absolute form has
    no disallowed character and can be created, and one path whose
    normalised absolute form has a disallowed character, in either order,
    [run] returns one text of two lines, the success line and the failure
    line in the order of the input; the failure stops nothing. *)
Theorem C9_create_folders_two_paths st st' good bad :
  all_allowed (target st good) = true ->
  makedirs st (target st good) = (st', Ok tt) ->
  all_allowed (target st bad) = false ->
  run st {| folder_paths := [good; bad] |}
  = (st', [TextContent (created good +:+ nl +:+ rejected bad)])
  /\ run st {| folder_paths := [bad; good] |}
     = (st', [TextContent (rejected bad +:+ nl +:+ created good)]).
Proof.
  intros Hg Hm Hb.
  assert (Hcwd : cwd st' = cwd st).
  { pose proof (makedirs_cwd st (target st good)) as H. rewrite Hm in H. exact H. }
  assert (Hb' : all_allowed (target st' bad) = false).
  { unfold target. rewrite Hcwd. exact Hb. }
  unfold run. cbn [folder_paths loop].
  split.
  - rewrite (create_one_created st good st' Hg Hm).
    rewrite (create_one_rejected st' bad Hb'). reflexivity.
  - rewrite (create_one_rejected st bad Hb).
    rewrite (create_one_created st good st' Hg Hm). reflexivity.
Qed.

Lemma C9_create_folders_witness :
  run folders_state {| folder_paths := ["ok"; "bad?"] |}
  = (folders_state_ok, [TextContent (created "ok" +:+ nl +:+ rejected "bad?")])
  /\ run folders_state {| folder_paths := ["bad?"; "ok"] |}
     = (folders_state_ok, [TextContent (rejected "bad?" +:+ nl +:+ created "ok")]).
Proof.
  refine (C9_create_folders_two_paths folders_state folders_state_ok "ok" "bad?"
            eq_refl _ eq_refl).
  vm_compute. reflexivity.
Defined.

(** C9 as stated fails for a path whose disallowed character is
    normalised away: "bad?/.." holds a question mark, its normalised
    absolute form is the working directory, and both lines report
    success. *)
Lemma C9_counterexample :
  contains_char "?" "bad?/.." = true
  /\ contains_char "?" disallowed = true
  /\ run folders_state {| folder_paths := ["ok"; "bad?/.."] |}
     = (folders_state_ok,
        [TextContent (created "ok" +:+ nl +:+ created "bad?/..")])
  /\ snd (run folders_state {| folder_paths := ["ok"; "bad?/.."] |})
     <> [TextContent (created "ok" +:+ nl +:+ rejected "bad?/..")].
Proof.
  split; [reflexivity|]. split; [reflexivity|].
  split; [vm_compute; reflexivity|].
  intros Heq. vm_compute in Heq. discriminate Heq.
Qed.

End CreateFolders.

(** ** Brave web search: one invocation *)

Section BraveSequential.
Import Py Content Http WebBraveWebSearch.
Context `{PR : PyRepr} `{IL : Interpreter}.

Lemma run_from_equation depth env a upstream p :
  run_from depth env a upstream p
  = if negb (has_key env) then
      Some (Ok [TextContent "Missing required BRAVE_API_KEY environment variables"], p)
    else
      match send a (limited p) with
      | (Raise e, p2) => Some (Raise e, p2)
      | (Ok _, p2) =>
          match upstream with
          | [] => None
          | x :: rest =>
              let p3 := advance (latency x) p2 in
              match result x with
              | Failed e => Some (Raise e, p3)
              | Replied r =>
                  match on_response r with
                  | Return res => Some (res, p3)
                  | Retry n =>
                      if (depth <? recursion_room)%nat then
                        run_from (S depth) env a rest
                          (advance (n * second) (record (RetrySleep n) p3))
                      else None
                  end
              end
          end
      end.
Proof. destruct upstream; reflexivity. Qed.

Lemma run_equation env a upstream p :
  run env a upstream p
  = if negb (has_key env) then
      Some (Ok [TextContent "Missing required BRAVE_API_KEY environment variables"], p)
    else
      match send a (limited p) with
      | (Raise e, p2) => Some (Raise e, p2)
      | (Ok _, p2) =>
          match upstream with
          | [] => None
          | x :: rest =>
              let p3 := advance (latency x) p2 in
              match result x with
              | Failed e => Some (Raise e, p3)
              | Replied r =>
                  match on_response r with
                  | Return res => Some (res, p3)
                  | Retry n =>
                      if (0 <? recursion_room)%nat then
                        run_from 1 env a rest
                          (advance (n * second) (record (RetrySleep n) p3))
                      else None
                  end
              end
          end
      end.
Proof. apply run_from_equation. Qed.

Lemma send_valid a im p :
  validate a = Ok im -> send a (limited p) = (Ok im, sent a p).
Proof. intros Hv. unfold sent, send. rewrite Hv. reflexivity. Qed.

Lemma request_times_snoc l e :
  request_times (l ++ [e]) = request_times l ++ request_times [e].
Proof. unfold request_times. apply omap_app. Qed.

Lemma retry_sleeps_snoc l e :
  retry_sleeps (l ++ [e]) = retry_sleeps l ++ retry_sleeps [e].
Proof. unfold retry_sleeps. apply omap_app. Qed.

Lemma limited_log_requests p :
  request_times (log (limited p)) = request_times (log p).
Proof.
  unfold limited. destruct (rate_limit_delay p); [|reflexivity].
  cbn [advance record log]. rewrite request_times_snoc. apply app_nil_r.
Qed.

Lemma limited_log_retries p :
  retry_sleeps (log (limited p)) = retry_sleeps (log p).
Proof.
  unfold limited. destruct (rate_limit_delay p); [|reflexivity].
  cbn [advance record log]. rewrite retry_sleeps_snoc. apply app_nil_r.
Qed.

Lemma sent_requests a im p :
  validate a = Ok im ->
  request_times (log (sent a p)) = request_times (log p) ++ [now (limited p)].
Proof.
  intros Hv. unfold sent, send. rewrite Hv. cbn [snd record log now].
  rewrite request_times_snoc, limited_log_requests. reflexivity.
Qed.

Lemma sent_retries a im p :
  validate a = Ok im ->
  retry_sleeps (log (sent a p)) = retry_sleeps (log p).
Proof.
  intros Hv. unfold sent, send. rewrite Hv. cbn [snd record log now].
  rewrite retry_sleeps_snoc, limited_log_retries. apply app_nil_r.
Qed.

(** C1, on the code.  With the key present and valid arguments, a
    transport error of the request is not caught: [run] ends by raising
    the very exception [client.get] raised. *)
Theorem C1_brave_transport_error_escapes env a im p lat e rest :
  has_key env = true ->
  validate a = Ok im ->
  run env a (Exchange lat (Failed e) :: rest) p
  = Some (Raise e, advance lat (sent a p)).
Proof.
  intros Hk Hv. rewrite run_equation, Hk, (send_valid a im p Hv). reflexivity.
Qed.

Lemma throttles_retry r n : throttles r n -> on_response r = Retry n.
Proof.
  intros (Hs & Hn & Hf). unfold on_response. rewrite Hs, Hn, Hf. reflexivity.
Qed.

Lemma other_status_returns r :
  status_code r <> 429 -> exists res, on_response r = Return res.
Proof.
  intros Hs. unfold on_response.
  destruct (Z.eqb_spec (status_code r) 429); [contradiction|].
  destruct (negb (status_code r =? 200)); eauto.
Qed.

(** The retries of a call that is already [depth] calls deep. *)
Lemma retries_from env a im rs : forall ns lats depth x rest,
  has_key env = true ->
  validate a = Ok im ->
  length lats = length rs ->
  (depth + length rs <= recursion_room)%nat ->
  Forall2 throttles rs ns ->
  (forall r, result x = Replied r -> status_code r <> 429) ->
  forall p, exists res p',
    run_from depth env a
      (zip_with (fun lat r => Exchange lat (Replied r)) lats rs ++ x :: rest) p
    = Some (res, p')
    /\ length (request_times (log p'))
       = (length (request_times (log p)) + length rs + 1)%nat
    /\ retry_sleeps (log p') = retry_sleeps (log p) ++ ns.
Proof.
  induction rs as [|r rs IH]; intros ns lats depth x rest Hk Hv Hlen Hroom Hrs Hx p.
  - inversion Hrs; subst. destruct lats; [|discriminate]. cbn [zip_with app].
    rewrite run_from_equation, Hk, (send_valid a im p Hv). cbn [negb]. cbv zeta.
    destruct (result x) as [e|r] eqn:Hres.
    + eexists _, _. split; [reflexivity|]. cbn [advance log].
      rewrite (sent_requests a im p Hv), (sent_retries a im p Hv), length_app.
      split; [simpl; lia | rewrite app_nil_r; reflexivity].
    + destruct (other_status_returns r (Hx r eq_refl)) as [res ->].
      eexists _, _. split; [reflexivity|]. cbn [advance log].
      rewrite (sent_requests a im p Hv), (sent_retries a im p Hv), length_app.
      split; [simpl; lia | rewrite app_nil_r; reflexivity].
  - inversion Hrs as [|r' n rs' ns' Hr Hrest]; subst.
    destruct lats as [|lat lats]; [discriminate|]. cbn [zip_with app].
    rewrite run_from_equation, Hk, (send_valid a im p Hv). cbn [negb].
    cbv zeta. cbn [result latency]. rewrite (throttles_retry r n Hr).
    simpl in Hlen, Hroom.
    destruct (Nat.ltb_spec depth recursion_room); [|lia].
    destruct (IH ns' lats (S depth) x rest Hk Hv ltac:(lia) ltac:(lia) Hrest Hx
                 (advance (n * second)
                    (record (RetrySleep n) (advance lat (sent a p)))))
      as (res & p' & Hrun & Hreq & Hsleep).
    exists res, p'. split; [exact Hrun|].
    cbn [advance record log] in Hreq, Hsleep.
    rewrite request_times_snoc, (sent_requests a im p Hv) in Hreq.
    rewrite retry_sleeps_snoc, (sent_retries a im p Hv) in Hsleep.
    rewrite !length_app in Hreq. simpl in Hreq, Hsleep.
    split; [simpl; lia|]. rewrite Hsleep, <- app_assoc. reflexivity.
Qed.


(** C4, on the code, for the Brave tool: a 200 response whose document
    has no result makes [run] return the empty sequence. *)
Lemma brave_no_result_no_item env a im p lat r data web rest :
  has_key env = true ->
  validate a = Ok im ->
  status_code r = 200 ->
  json_body r = Ok data ->
  get data "web" (JObj []) = Ok web ->
  get web "results" (JArr []) = Ok (JArr []) ->
  run env a (Exchange lat (Replied r) :: rest) p
  = Some (Ok [], advance lat (sent a p)).
Proof.
  intros Hk Hv Hs Hj Hw Hr.
  rewrite run_equation, Hk, (send_valid a im p Hv). cbn [negb].
  cbv zeta. cbn [result latency]. unfold on_response. rewrite Hs.
  change (200 =? 429) with false. change (negb (200 =? 200)) with false.
  cbv iota. unfold format_results. rewrite Hj. cbn [bind].
  rewrite Hw. cbn [bind]. rewrite Hr. reflexivity.
Qed.

End BraveSequential.

Section BraveExamples.
Import Py Content Http WebBraveWebSearch.
#[local] Existing Instance sample_interpreter.

Lemma C1_brave_transport_error_witness :
  run (PR := sample_repr) sample_env sample_query [unreachable] fresh
  = Some (Raise (Exn ConnectError "All connection attempts failed"),
          advance 100 (sent sample_query fresh)).
Proof.
  exact (C1_brave_transport_error_escapes (PR := sample_repr) sample_env
           sample_query (Validated "rocq prover" 10 0) fresh 100
           (Exn ConnectError "All connection attempts failed") []
           eq_refl eq_refl).
Defined.



(** C5, on the code.  Three invocations are started together on a fresh
    process.  The first sends at once.  The other two both find the
    limiter's second not yet over and go to sleep until it is; once woken,
    neither looks at [LAST_REQUEST_TIME] again, and their requests leave
    50 microseconds apart.  Every step is one the event loop can take. *)
Theorem C5_concurrent_calls_break_the_rate :
  exists s,
    exec (PR := sample_repr) sample_env three_calls racing_schedule = Some s
    /\ tasks s = [(sample_query, Awaiting); (sample_query, Awaiting);
                  (sample_query, Awaiting)]
    /\ request_times (log (shared s)) = [0; 1000000; 1000050]
    /\ min_interval = 1000000
    /\ ~ spaced min_interval (request_times (log (shared s))).
Proof.
  eexists. split; [vm_compute; reflexivity|].
  split; [reflexivity|]. split; [reflexivity|]. split; [reflexivity|].
  cbn [request_times omap list_omap spaced shared log] in *.
  intros (_ & Hgap & _). change min_interval with 1000000 in Hgap. lia.
Qed.

End BraveExamples.

(** ** Search tools and the empty result *)

Section EmptyResults.
Import Py Content Http WebBraveWebSearch.
Context `{PR : PyRepr} `{IL : Interpreter}
        `{SZ : WebDuckduckgoSearch.Sanitizer}
        `{SE : WebDuckduckgoSearch.SearchEngine}.

(** C4, on the code.  When the search engine finds nothing,
    [WebDuckduckgoSearchTool.run] returns the empty sequence for valid
    arguments with a non-empty query, and when the Brave API answers 200 with a document
    that holds no result, [WebBraveWebSearchTool.run] returns the empty
    sequence too: neither returns an item. *)
Theorem C4_search_tools_return_no_item
    (arg : WebDuckduckgoSearch.InputModel)
    env a im p lat r data web rest :
  WebDuckduckgoSearch.validate arg = Ok arg ->
  WebDuckduckgoSearch.query arg <> EmptyString ->
  (forall region n,
     WebDuckduckgoSearch.arun region n (WebDuckduckgoSearch.query arg)
     = Ok (JArr [])) ->
  WebBraveWebSearch.has_key env = true ->
  WebBraveWebSearch.validate a = Ok im ->
  status_code r = 200 ->
  json_body r = Ok data ->
  get data "web" (JObj []) = Ok web ->
  get web "results" (JArr []) = Ok (JArr []) ->
  WebDuckduckgoSearch.run arg = Ok []
  /\ WebBraveWebSearch.run env a (Exchange lat (Replied r) :: rest) p
     = Some (Ok [], WebBraveWebSearch.advance lat (sent a p)).
Proof.
  intros Hva Hq Hnone Hk Hv Hs Hj Hw Hr. split.
  - unfold WebDuckduckgoSearch.run. rewrite Hva. cbn [bind].
    assert (He : is_empty (WebDuckduckgoSearch.query arg) = false)
      by (destruct (WebDuckduckgoSearch.query arg); [contradiction | reflexivity]).
    rewrite He, Hnone. reflexivity.
  - eapply brave_no_result_no_item; eassumption.
Qed.

End EmptyResults.

Section EmptyResultsExample.
Import Py Content Http WebBraveWebSearch WebDuckduckgoSearch.
#[local] Existing Instance sample_interpreter.

Lemma C4_search_tools_witness :
  WebDuckduckgoSearch.run (PR := sample_repr) (SZ := plain_sanitizer)
    (SE := silent_engine)
    {| WebDuckduckgoSearch.query := "zxqv";
       WebDuckduckgoSearch.num_results := None;
       WebDuckduckgoSearch.region := None |} = Ok []
  /\ WebBraveWebSearch.run (PR := sample_repr) sample_env sample_query
       [answered (JObj [("web", JObj [("results", JArr [])])])] fresh
     = Some (Ok [], WebBraveWebSearch.advance 100 (sent sample_query fresh)).
Proof.
  refine (C4_search_tools_return_no_item (PR := sample_repr)
            (SZ := plain_sanitizer) (SE := silent_engine)
            {| WebDuckduckgoSearch.query := "zxqv";
               WebDuckduckgoSearch.num_results := None;
               WebDuckduckgoSearch.region := None |}
            sample_env sample_query (WebBraveWebSearch.Validated "rocq prover" 10 0)
            fresh 100
            (Response 200 [] EmptyString
               (Ok (JObj [("web", JObj [("results", JArr [])])])))
            (JObj [("web", JObj [("results", JArr [])])])
            (JObj [("results", JArr [])]) []
            eq_refl _ (fun _ _ => eq_refl) eq_refl eq_refl eq_refl eq_refl
            eq_refl eq_refl).
  discriminate.
Defined.

End EmptyResultsExample.

(** ** Brave web search: calls made one after the other *)

Section BraveSpacing.
Import Py Content Http WebBraveWebSearch.
Context `{PR : PyRepr} `{IL : Interpreter}.

Lemma spaced_snoc gap t ts :
  spaced gap ts -> Forall (fun x => x + gap <= t) ts -> spaced gap (ts ++ [t]).
Proof.
  induction ts as [|a [|b ts] IH]; intros Hs Hf.
  - exact I.
  - simpl. split; [|exact I]. inversion Hf; assumption.
  - destruct Hs as [Hab Hs]. inversion Hf; subst.
    change (a + gap <= b /\ spaced gap ((b :: ts) ++ [t])).
    split; [exact Hab | apply IH; assumption].
Qed.

Lemma paced_advance d p : paced p -> paced (advance d p).
Proof.
  intros [Hs Hl]. split; [exact Hs|]. cbn [advance LAST_REQUEST_TIME now log].
  destruct (LAST_REQUEST_TIME p); [|exact Hl].
  destruct Hl as [Hle Hf]. split; [lia | exact Hf].
Qed.

Lemma paced_record_sleep e p :
  request_times [e] = [] -> paced p -> paced (record e p).
Proof.
  intros He [Hs Hl]. unfold paced. cbn [record LAST_REQUEST_TIME now log].
  rewrite request_times_snoc, He, app_nil_r. split; assumption.
Qed.

Lemma paced_limited p :
  paced p ->
  paced (limited p)
  /\ LAST_REQUEST_TIME (limited p) = LAST_REQUEST_TIME p
  /\ forall last, LAST_REQUEST_TIME p = Some last ->
                  last + min_interval <= now (limited p).
Proof.
  intros Hp. unfold limited, rate_limit_delay.
  destruct (LAST_REQUEST_TIME p) as [last|] eqn:Hlast.
  - destruct (Z.ltb_spec (now p - last) min_interval) as [Hlt|Hge].
    + split; [apply paced_advance, paced_record_sleep; [reflexivity | exact Hp]|].
      split; [exact Hlast|]. intros l [= <-]. cbn [advance record now]. lia.
    + split; [exact Hp|]. split; [exact Hlast|]. intros l [= <-]. lia.
  - split; [exact Hp|]. split; [exact Hlast|]. intros l [=].
Qed.

Lemma paced_send a p : paced p -> paced (snd (send a (limited p))).
Proof.
  intros Hp. destruct (paced_limited p Hp) as ([Hs Hl] & Hsame & Hgap).
  unfold send. destruct (validate a) as [im|e]; cbn [snd].
  - unfold paced. cbn [record LAST_REQUEST_TIME now log].
    rewrite request_times_snoc. cbn [request_times omap list_omap app].
    rewrite Hsame in Hl. destruct (LAST_REQUEST_TIME p) as [last|].
    + destruct Hl as [Hle Hf]. specialize (Hgap last eq_refl).
      assert (0 <= min_interval) by (unfold min_interval, second, RATE_LIMIT; now vm_compute).
      split; [apply spaced_snoc; [exact Hs|]|split; [lia|]].
      * eapply Forall_impl; [exact Hf|]. simpl. intros; lia.
      * apply Forall_app. split; [|repeat constructor; lia].
        eapply Forall_impl; [exact Hf|]. simpl. intros; lia.
    + rewrite Hl in *. simpl. repeat split; [lia | repeat constructor; lia].
  - unfold paced. cbn [LAST_REQUEST_TIME now log].
    split; [exact Hs|]. split; [lia|].
    rewrite Hsame in Hl. destruct (LAST_REQUEST_TIME p) as [last|].
    + destruct Hl as [Hle Hf]. eapply Forall_impl; [exact Hf|]. simpl. intros; lia.
    + rewrite Hl. constructor.
Qed.

Lemma run_from_paced env a upstream : forall depth p res p',
  paced p -> run_from depth env a upstream p = Some (res, p') -> paced p'.
Proof.
  induction upstream as [|x rest IH]; intros depth p res p' Hp;
    rewrite run_from_equation; destruct (negb (has_key env)).
  - intros [= _ <-]. exact Hp.
  - pose proof (paced_send a p Hp) as Hs.
    destruct (send a (limited p)) as [[im|e] p2]; [discriminate|].
    intros [= _ <-]. exact Hs.
  - intros [= _ <-]. exact Hp.
  - pose proof (paced_send a p Hp) as Hs.
    destruct (send a (limited p)) as [[im|e] p2]; cbn [snd] in Hs;
      [|intros [= _ <-]; exact Hs].
    cbv zeta. destruct (result x) as [e|r].
    + intros [= _ <-]. apply paced_advance, Hs.
    + destruct (on_response r) as [res'|n].
      * intros [= _ <-]. apply paced_advance, Hs.
      * destruct (depth <? recursion_room)%nat; [|discriminate].
        apply IH. apply paced_advance, paced_record_sleep; [reflexivity|].
        apply paced_advance, Hs.
Qed.

Lemma run_paced env a upstream p res p' :
  paced p -> run env a upstream p = Some (res, p') -> paced p'.
Proof. apply run_from_paced. Qed.


Lemma fresh_paced : paced fresh.
Proof. split; [exact I | reflexivity]. Qed.

End BraveSpacing.

Section BraveSolo.
Import Py Content Http WebBraveWebSearch.
Context `{PR : PyRepr} `{IL : Interpreter}.

Lemma advance_max d p : advance (Z.max 0 d) p = advance d p.
Proof. unfold advance. f_equal. lia. Qed.

Lemma solo_equation env a upstream p :
  solo env a upstream p
  = if negb (has_key env) then [Resume 0]
    else
      match rate_limit_delay p with
      | Some d => [Resume 0; Tick (Z.max 0 d)]
      | None => []
      end ++
      Resume 0 ::
      match send a (limited p), upstream with
      | (Ok _, p2), x :: rest =>
          Tick (Z.max 0 (latency x)) :: Deliver 0 (result x) ::
          match result x with
          | Replied r =>
              match on_response r with
              | Retry n =>
                  Tick (Z.max 0 (n * second))
                  :: solo env a rest
                       (advance (n * second)
                          (record (RetrySleep n) (advance (latency x) p2)))
              | Return _ => []
              end
          | Failed _ => []
          end
      | _, _ => []
      end.
Proof. destruct upstream; reflexivity. Qed.

Lemma step_resume_startable env a p t :
  startable p t ->
  step env (System p [(a, t)]) (Resume 0)
  = Some (System (snd (resume_entry env a p)) [(a, fst (resume_entry env a p))]).
Proof.
  intros [-> | (wake & -> & Hw)]; [reflexivity|].
  unfold step. cbn [tasks shared lookup list_lookup].
  destruct (Z.leb_spec wake (now p)); [reflexivity | lia].
Qed.

Lemma step_tick env s d :
  step env s (Tick (Z.max 0 d)) = Some (System (advance d (shared s)) (tasks s)).
Proof.
  unfold step. destruct (Z.leb_spec 0 (Z.max 0 d)); [|lia].
  rewrite advance_max. reflexivity.
Qed.

(** The machine up to the moment the request is sent, or refused. *)
Lemma solo_reaches_send env a p t rest :
  has_key env = true ->
  startable p t ->
  exec env (System p [(a, t)])
    (match rate_limit_delay p with
     | Some d => [Resume 0; Tick (Z.max 0 d)]
     | None => []
     end ++ Resume 0 :: rest)
  = exec env (System (snd (resume_send a (limited p)))
                [(a, fst (resume_send a (limited p)))]) rest.
Proof.
  intros Hk Ht. unfold limited.
  destruct (rate_limit_delay p) as [d|] eqn:Hd; cbn [app exec].
  - rewrite (step_resume_startable env a p t Ht).
    unfold resume_entry. rewrite Hk, Hd. cbn [negb fst snd].
    rewrite step_tick. cbn [shared tasks].
    unfold step. cbn [tasks shared lookup list_lookup advance record now].
    destruct (Z.leb_spec (now p + Z.max 0 d) (now p + Z.max 0 d)); [|lia].
    reflexivity.
  - rewrite (step_resume_startable env a p t Ht).
    unfold resume_entry. rewrite Hk, Hd. reflexivity.
Qed.

(** The same for a call that is already [depth] calls deep. *)
Lemma solo_task_agrees_with_run_from env a upstream : forall depth p t res p',
  startable p t ->
  run_from depth env a upstream p = Some (res, p') ->
  exec env (System p [(a, t)]) (solo env a upstream p)
  = Some (System p' [(a, Finished res)]).
Proof.
  induction upstream as [|x rest IH]; intros depth p t res p' Ht;
    rewrite run_from_equation, solo_equation;
    destruct (has_key env) eqn:Hk; cbn [negb].
  - rewrite (solo_reaches_send env a p t _ Hk Ht). unfold resume_send.
    destruct (send a (limited p)) as [[im|e] p2]; [discriminate|].
    intros [= <- <-]. reflexivity.
  - intros [= <- <-]. cbn [exec].
    rewrite (step_resume_startable env a p t Ht).
    unfold resume_entry. rewrite Hk. reflexivity.
  - rewrite (solo_reaches_send env a p t _ Hk Ht). unfold resume_send.
    destruct (send a (limited p)) as [[im|e] p2]; cbn [fst snd];
      [|intros [= <- <-]; reflexivity].
    cbv zeta. cbn [exec]. rewrite step_tick. cbn [shared tasks].
    unfold step at 1. cbn [tasks shared lookup list_lookup].
    unfold set_task, resume_response. cbn [tasks shared].
    destruct (result x) as [e|r].
    + intros [= <- <-]. reflexivity.
    + destruct (on_response r) as [res'|n].
      * intros [= <- <-]. reflexivity.
      * destruct (depth <? recursion_room)%nat; [|discriminate].
        intros Hrun. cbn [fst snd insert list_insert exec].
        rewrite step_tick. cbn [shared tasks].
        apply (IH (S depth)); [|exact Hrun].
        right. eexists. split; [reflexivity|].
        cbn [advance record now]. lia.
  - intros [= <- <-]. cbn [exec].
    rewrite (step_resume_startable env a p t Ht).
    unfold resume_entry. rewrite Hk. reflexivity.
Qed.

(** One invocation alone: the machine, driven by [solo], ends with the
    result and the process state of [run]. *)
Theorem solo_task_agrees_with_run env a upstream p t res p' :
  startable p t ->
  run env a upstream p = Some (res, p') ->
  exec env (System p [(a, t)]) (solo env a upstream p)
  = Some (System p' [(a, Finished res)]).
Proof. apply solo_task_agrees_with_run_from. Qed.

End BraveSolo.

(** ** Error items *)

Section ErrorItems.
Import Py Content Weather.

Lemma tag_discriminates c :
  (tag_of c = text_tag <-> exists t, c = TextContent t)
  /\ (tag_of c = image_tag <-> exists i m, c = ImageContent i m)
  /\ (tag_of c = error_tag <-> exists code err, c = ErrorContent code err).
Proof.
  destruct c; simpl; repeat split; intros H; try discriminate; eauto;
    destruct H as (? & H); try destruct H as (? & H); discriminate.
Qed.

(** The keyword calls the tools write with the declared fields are the
    items of the union. *)
Lemma new_TextContent_text t :
  new_TextContent [("type", VStr "text"); ("text", VStr t)] = Ok (TextContent t)
  /\ new_TextContent [("text", VStr t)] = Ok (TextContent t).
Proof. split; reflexivity. Qed.

Lemma new_ImageContent_image `{IP : ImagePayload} i m :
  well_formed_image i = true ->
  new_ImageContent [("type", VStr "image"); ("image", VStr i); ("mime_type", VStr m)]
  = Ok (ImageContent i m).
Proof. intros Hi. unfold new_ImageContent. cbn. rewrite Hi. reflexivity. Qed.

(** A keyword call that names exactly [code] and [error], with an integer
    and a string, is the error item with these two fields. *)
Lemma new_ErrorContent_code_error c e :
  new_ErrorContent [("code", VInt c); ("error", VStr e)] = Ok (ErrorContent c e).
Proof. reflexivity. Qed.

(** A keyword call without [error] builds no item. *)
Lemma new_ErrorContent_needs_error kw :
  kw_get "error" kw = None -> raises (new_ErrorContent kw).
Proof.
  intros He. unfold new_ErrorContent. rewrite He.
  destruct (kw_get "code" kw) as [[]|]; eexists; reflexivity.
Qed.

(** C8, on the code.  The error sites of the two weather tools name the
    fields [code] and [message], not [code] and [error]; those of the
    DALL-E tool name [code] and [error].  So on the arguments with no
    location [WeatherOpenMeteoForecastTool.run] builds no error item: the
    call of line 109 raises, the handler of line 228 makes the same call
    and raises past [run].  [WeatherUSForecastTool.run] does the same on
    arguments that fail validation ([days = 0]) and on a city the geocoder
    does not know.  The DALL-E handler yields two items with code 500. *)
Theorem C8_weather_error_sites_name_message :
  field_names WeatherOpenMeteoForecast.missing_location_site = ["code"; "message"]
  /\ (forall e, field_names (WeatherOpenMeteoForecast.failure_site e)
                = ["code"; "message"])
  /\ (forall e, field_names (WeatherUSForecast.error_site e) = ["code"; "message"])
  /\ (forall e, map field_names (GenerateDalleImage.error_site e)
                = [["code"; "error"]; ["code"; "error"]])
  /\ (forall (G : Geocoder) (O : WeatherOpenMeteoForecast.OpenMeteo),
        WeatherOpenMeteoForecast.run (Arguments None None None None)
        = Raise field_required)
  /\ (forall (G : Geocoder) (N : WeatherUSForecast.Nws),
        WeatherUSForecast.run (Arguments None None None (Some 0))
        = Raise field_required)
  /\ (forall e,
        comprehension new_ErrorContent (GenerateDalleImage.error_site e)
        = Ok [ErrorContent 500 ("Error generating image: " +:+ exn_msg e);
              ErrorContent 500 "An error occurred"]).
Proof.
  repeat split; reflexivity.
Qed.

(** The second error site of [WeatherUSForecastTool.run]: a city the
    geocoder does not know, and no coordinates. *)
Lemma us_forecast_unknown_city (G : Geocoder) (N : WeatherUSForecast.Nws) c msg :
  c <> EmptyString ->
  _geocode_city c = Raise (Exn ValueError msg) ->
  WeatherUSForecast.run (Arguments None None (Some c) None) = Raise field_required.
Proof.
  intros Hc Hgeo. unfold WeatherUSForecast.run, validate.
  cbn [latitude longitude city days in_range andb].
  destruct (Nat.leb (String.length c) 60); cbn [andb]; [|reflexivity].
  cbn [city truthy_str lacks_coordinates latitude longitude default].
  assert (He : is_empty c = false) by (destruct c; [contradiction | reflexivity]).
  rewrite He. cbn [negb andb id]. rewrite Hgeo. reflexivity.
Qed.

(** With the key present and a description given, every failure of the
    image API ends in the two error items of the handler. *)
Lemma dalle_failure_items `{PE : GenerateDalleImage.PatternEngine}
    `{IP : ImagePayload} `{IA : GenerateDalleImage.ImageApi} env arg e :
  GenerateDalleImage.validate arg = Ok arg ->
  GenerateDalleImage.check_required_env env = None ->
  GenerateDalleImage.image_description arg <> EmptyString ->
  GenerateDalleImage.generate env arg = Raise e ->
  GenerateDalleImage.run env arg
  = Ok [ErrorContent 500 ("Error generating image: " +:+ exn_msg e);
        ErrorContent 500 "An error occurred"].
Proof.
  intros Hv He Hd Hg. unfold GenerateDalleImage.run. rewrite Hv. cbn [bind].
  rewrite He.
  destruct (GenerateDalleImage.image_description arg); [contradiction|].
  cbn [is_empty]. rewrite Hg. reflexivity.
Qed.

(** [WeatherUSCurrentTool.run] keeps every failure inside: whatever the
    geocoder and the weather service do, it returns one text item. *)
Theorem weather_us_current_never_raises
    (G : Geocoder) (N : WeatherUSCurrent.Nws) a :
  exists t, WeatherUSCurrent.run a = Ok [TextContent t].
Proof.
  unfold WeatherUSCurrent.run, WeatherUSCurrent.current, try_except_Exception.
  destruct (WeatherUSCurrent.validate a) as [arg|e]; cbn [bind]; [|eauto].
  destruct (truthy_str (city arg) && lacks_coordinates arg).
  - destruct (_geocode_city _) as [ll|e]; cbn [bind]; [|eauto].
    cbn [lacks_coordinates latitude longitude].
    destruct (WeatherUSCurrent.current_text _); cbn [bind]; eauto.
  - cbn [bind]. destruct (lacks_coordinates arg); [eauto|].
    destruct (WeatherUSCurrent.current_text _); cbn [bind]; eauto.
Qed.

End ErrorItems.

(** ** Brave web search: what else leaves or stays inside [run] *)

Section BraveBoundary.
Import Py Content Http WebBraveWebSearch.
Context `{PR : PyRepr} `{IL : Interpreter}.

(** The missing credential is answered with a text item; no request is
    made and the process state is untouched. *)
Lemma brave_missing_key env a upstream p :
  has_key env = false ->
  run env a upstream p
  = Some (Ok [TextContent "Missing required BRAVE_API_KEY environment variables"], p).
Proof. intros Hk. rewrite run_equation, Hk. reflexivity. Qed.

(** A 200 response whose body is no JSON document: the decoding error
    leaves [run]. *)
Lemma brave_malformed_body_escapes env a im p lat r e rest :
  has_key env = true ->
  validate a = Ok im ->
  status_code r = 200 ->
  json_body r = Raise e ->
  run env a (Exchange lat (Replied r) :: rest) p
  = Some (Raise e, advance lat (sent a p)).
Proof.
  intros Hk Hv Hs Hj. rewrite run_equation, Hk, (send_valid a im p Hv).
  cbn [negb]. cbv zeta. cbn [result latency]. unfold on_response. rewrite Hs.
  change (200 =? 429) with false. change (negb (200 =? 200)) with false.
  cbv iota. unfold format_results. rewrite Hj. reflexivity.
Qed.

(** An upstream error status other than 429 is turned into one error
    item with that status as its code. *)
Lemma brave_error_status env a im p lat r rest :
  has_key env = true ->
  validate a = Ok im ->
  status_code r <> 429 -> status_code r <> 200 ->
  run env a (Exchange lat (Replied r) :: rest) p
  = Some (Ok [ErrorContent (status_code r)
                ("Brave API error: " +:+ str_of_Z (status_code r)
                 +:+ " " +:+ text r)],
          advance lat (sent a p)).
Proof.
  intros Hk Hv H429 H200. rewrite run_equation, Hk, (send_valid a im p Hv).
  cbn [negb]. cbv zeta. cbn [result latency]. unfold on_response.
  destruct (Z.eqb_spec (status_code r) 429); [contradiction|].
  destruct (Z.eqb_spec (status_code r) 200); [contradiction|]. reflexivity.
Qed.

(** The delay of a retry is the upstream's: the [Retry-After] header read
    as an integer number of seconds, or 1 when the header is absent. *)
Lemma retry_after_header r v n :
  status_code r = 429 ->
  header_get "Retry-After" (headers r) = Some v ->
  int_of_str v = Ok n ->
  float_overflows n = false ->
  on_response r = Retry n.
Proof.
  intros Hs Hh Hn Hf. unfold on_response, retry_after.
  rewrite Hs, Hh, Hn, Hf. reflexivity.
Qed.

Lemma retry_after_default r :
  status_code r = 429 ->
  header_get "Retry-After" (headers r) = None ->
  on_response r = Retry 1.
Proof.
  intros Hs Hh. unfold on_response, retry_after. rewrite Hs, Hh. reflexivity.
Qed.

(** The name of the header is matched without regard to case. *)
Lemma retry_after_any_case name v :
  lower name = "retry-after" ->
  retry_after (throttled_response name v) = int_of_str v.
Proof.
  intros Hn. unfold retry_after, header_get. cbn [headers throttled_response header_values].
  change (lower "Retry-After") with "retry-after". rewrite Hn. reflexivity.
Qed.

End BraveBoundary.

Section BraveRetryAfter.
Import Py Content Http WebBraveWebSearch.
#[local] Existing Instance sample_interpreter.

(** A 429 response whose [Retry-After] is a date, as HTTP allows: [int]
    raises [ValueError], and it leaves [run]. *)
Example brave_retry_after_date_escapes :
  run (PR := sample_repr) sample_env sample_query
    [throttled "Wed, 21 Oct 2015 07:28:00 GMT"] fresh
  = Some (Raise (Exn ValueError
            "invalid literal for int() with base 10: 'Wed, 21 Oct 2015 07:28:00 GMT'"),
          advance 100 (sent sample_query fresh)).
Proof. vm_compute. reflexivity. Qed.

End BraveRetryAfter.

(** * Further properties of the tools *)

(** ** Brave web search: results, refusals *)

Section BraveResults.
Import Py Content Http WebBraveWebSearch.
Context `{PR : PyRepr} `{IL : Interpreter}.

Lemma format_result_dict fields :
  format_result (JObj fields) = Ok (result_item fields).
Proof. reflexivity. Qed.

Lemma comprehension_dicts dicts :
  comprehension format_result (map JObj dicts) = Ok (map result_item dicts).
Proof.
  induction dicts as [|d dicts IH]; [reflexivity|].
  cbn [map comprehension]. rewrite format_result_dict, IH. reflexivity.
Qed.

(** A 200 response whose results are all objects gives one text item per
    result, in the order of the results, each made of the result's title,
    description and URL. *)
Theorem brave_one_item_per_result env a im p lat r data web dicts rest :
  has_key env = true ->
  validate a = Ok im ->
  status_code r = 200 ->
  json_body r = Ok data ->
  get data "web" (JObj []) = Ok web ->
  get web "results" (JArr []) = Ok (JArr (map JObj dicts)) ->
  run env a (Exchange lat (Replied r) :: rest) p
  = Some (Ok (map result_item dicts), advance lat (sent a p)).
Proof.
  intros Hk Hv Hs Hj Hw Hr.
  rewrite run_equation, Hk, (send_valid a im p Hv). cbn [negb].
  cbv zeta. cbn [result latency]. unfold on_response. rewrite Hs.
  change (200 =? 429) with false. change (negb (200 =? 200)) with false.
  cbv iota. unfold format_results. rewrite Hj. cbn [bind].
  rewrite Hw. cbn [bind]. rewrite Hr. cbn [bind iterate].
  rewrite comprehension_dicts. reflexivity.
Qed.

(** Arguments that fail validation: [run] raises the validation error and
    sends nothing, but the limiter has already run: the call has slept if
    it had to and has stamped [LAST_REQUEST_TIME] with the current time,
    so it counts against the rate like a request. *)
Theorem brave_invalid_arguments_stamp env a e upstream p :
  has_key env = true ->
  validate a = Raise e ->
  exists p',
    run env a upstream p = Some (Raise e, p')
    /\ request_times (log p') = request_times (log p)
    /\ LAST_REQUEST_TIME p' = Some (now p')
    /\ now p' = now (limited p).
Proof.
  intros Hk Hv. rewrite run_equation, Hk. cbn [negb].
  unfold send. rewrite Hv. eexists. split; [reflexivity|].
  cbn [log LAST_REQUEST_TIME now]. rewrite limited_log_requests.
  repeat split.
Qed.

End BraveResults.

Section BraveResultsExamples.
Import Py Content Http WebBraveWebSearch.
#[local] Existing Instance sample_interpreter.

Lemma brave_one_item_per_result_witness :
  run (PR := sample_repr) sample_env sample_query
    [answered (JObj [("web", JObj [("results",
        JArr (map JObj [[("title", JStr "Rocq"); ("url", JStr "https://rocq-prover.org")];
                        [("description", JStr "A proof assistant")]]))])])] fresh
  = Some (Ok (map (result_item (PR := sample_repr))
                [[("title", JStr "Rocq"); ("url", JStr "https://rocq-prover.org")];
                 [("description", JStr "A proof assistant")]]),
          advance 100 (sent sample_query fresh)).
Proof.
  exact (brave_one_item_per_result (PR := sample_repr) sample_env sample_query
           (Validated "rocq prover" 10 0) fresh 100
           (Response 200 [] EmptyString
              (Ok (JObj [("web", JObj [("results",
                 JArr (map JObj [[("title", JStr "Rocq");
                                  ("url", JStr "https://rocq-prover.org")];
                                 [("description", JStr "A proof assistant")]]))])])))
           (JObj [("web", JObj [("results",
                 JArr (map JObj [[("title", JStr "Rocq");
                                  ("url", JStr "https://rocq-prover.org")];
                                 [("description", JStr "A proof assistant")]]))])])
           (JObj [("results",
                 JArr (map JObj [[("title", JStr "Rocq");
                                  ("url", JStr "https://rocq-prover.org")];
                                 [("description", JStr "A proof assistant")]]))])
           [[("title", JStr "Rocq"); ("url", JStr "https://rocq-prover.org")];
            [("description", JStr "A proof assistant")]] []
           eq_refl eq_refl eq_refl eq_refl eq_refl eq_refl).
Defined.

Lemma brave_invalid_arguments_witness :
  exists p',
    run (PR := sample_repr) sample_env (Arguments "rocq" (Some 21) None)
      [unreachable] fresh
    = Some (Raise (Exn ValidationError "validation error for InputModel"), p')
    /\ request_times (log p') = request_times (log fresh)
    /\ LAST_REQUEST_TIME p' = Some (now p')
    /\ now p' = now (limited fresh).
Proof.
  exact (brave_invalid_arguments_stamp (PR := sample_repr) sample_env
           (Arguments "rocq" (Some 21) None)
           (Exn ValidationError "validation error for InputModel")
           [unreachable] fresh eq_refl eq_refl).
Defined.

Lemma brave_missing_key_witness :
  run (PR := sample_repr) ∅ sample_query [unreachable] fresh
  = Some (Ok [TextContent "Missing required BRAVE_API_KEY environment variables"], fresh).
Proof.
  exact (brave_missing_key (PR := sample_repr) ∅ sample_query [unreachable]
           fresh eq_refl).
Defined.

Lemma brave_error_status_witness :
  run (PR := sample_repr) sample_env sample_query
    [Exchange 7 (Replied (Response 503 [] "Service Unavailable"
                            (Raise (Exn JSONDecodeError "Expecting value"))))] fresh
  = Some (Ok [ErrorContent 503 ("Brave API error: " +:+ str_of_Z 503 +:+ " "
                                +:+ "Service Unavailable")],
          advance 7 (sent sample_query fresh)).
Proof.
  refine (brave_error_status (PR := sample_repr) sample_env sample_query
            (Validated "rocq prover" 10 0) fresh 7
            (Response 503 [] "Service Unavailable"
               (Raise (Exn JSONDecodeError "Expecting value"))) []
            eq_refl eq_refl _ _); discriminate.
Defined.


End BraveResultsExamples.

(** ** DuckDuckGo search: what [run] returns *)

Section DuckDuckGoResults.
Import Py Content Http WebDuckduckgoSearch.
Context `{PR : PyRepr} `{SZ : Sanitizer} `{SE : SearchEngine}.

Lemma collect_dicts dicts : forall acc,
  collect (map JObj dicts) acc = Ok (acc ++ omap result_item dicts).
Proof.
  induction dicts as [|d dicts IH]; intros acc; cbn [map collect omap list_omap].
  - rewrite app_nil_r. reflexivity.
  - cbn [get bind]. fold (field_text d "title") (field_text d "link")
      (field_text d "snippet"). unfold result_item.
    destruct (is_empty (field_text d "title")),
             (is_empty (field_text d "link")),
             (is_empty (field_text d "snippet"));
      cbn [negb orb andb]; rewrite IH; try reflexivity;
      rewrite <- app_assoc; reflexivity.
Qed.

Lemma omap_length {A B} (f : A -> option B) l :
  (length (omap f l) <= length l)%nat.
Proof.
  induction l as [|x l IH]; [simpl; lia|]. cbn [omap list_omap].
  destruct (f x); simpl in *; lia.
Qed.

Lemma non_empty_query arg : query arg <> EmptyString -> is_empty (query arg) = false.
Proof. destruct (query arg); [contradiction | reflexivity]. Qed.

(** For valid arguments with a non-empty query, when the engine returns
    a list of results that are objects, [run] returns, in the order of
    the results, exactly one text item for every result of which the
    cleaned title, link or snippet is not empty, made of these three, and
    no item for a result of which all three are empty; so never more
    items than results. *)
Theorem duckduckgo_one_item_per_result arg dicts :
  validate arg = Ok arg ->
  query arg <> EmptyString ->
  arun (search_region arg) (limit arg) (query arg) = Ok (JArr (map JObj dicts)) ->
  run arg = Ok (omap result_item dicts)
  /\ (length (omap result_item dicts) <= length dicts)%nat.
Proof.
  intros Hv Hq Hrun. split; [|apply omap_length]. unfold run.
  rewrite Hv. cbn [bind]. rewrite (non_empty_query arg Hq), Hrun.
  cbn [bind iterate]. rewrite collect_dicts. reflexivity.
Qed.

(** For valid arguments with a non-empty query, a failure of the search
    is answered with the single item "Error performing search: ..."
    carrying the exception's message. *)
Theorem duckduckgo_search_failure arg e :
  validate arg = Ok arg ->
  query arg <> EmptyString ->
  arun (search_region arg) (limit arg) (query arg) = Raise e ->
  run arg = Ok [TextContent ("Error performing search: " +:+ exn_msg e)].
Proof.
  intros Hv Hq Hrun. unfold run. rewrite Hv. cbn [bind].
  rewrite (non_empty_query arg Hq), Hrun. reflexivity.
Qed.

(** Arguments that fail validation raise before anything is searched. *)
Lemma duckduckgo_invalid_arguments arg e :
  validate arg = Raise e -> run arg = Raise e.
Proof. intros Hv. unfold run. rewrite Hv. reflexivity. Qed.

End DuckDuckGoResults.

Section DuckDuckGoExamples.
Import Py Content Http WebBraveWebSearch WebDuckduckgoSearch.

Lemma duckduckgo_one_item_per_result_witness :
  run (PR := sample_repr) (SZ := plain_sanitizer) (SE := two_results_engine)
    sample_search
  = Ok (omap (result_item (PR := sample_repr) (SZ := plain_sanitizer)) sample_results)
  /\ (length (omap (result_item (PR := sample_repr) (SZ := plain_sanitizer))
                 sample_results)
      <= length sample_results)%nat.
Proof.
  exact (duckduckgo_one_item_per_result (PR := sample_repr) (SZ := plain_sanitizer)
           (SE := two_results_engine) sample_search sample_results
           eq_refl ltac:(discriminate) eq_refl).
Defined.

(** The two sample results give one item: the second is blank. *)
Example duckduckgo_blank_result_dropped :
  run (PR := sample_repr) (SZ := plain_sanitizer) (SE := two_results_engine)
    sample_search
  = Ok [TextContent ("Title: Rocq" +:+ nl +:+ "Link: https://rocq-prover.org" +:+ nl
                     +:+ "Snippet: " +:+ nl +:+ nl)].
Proof. reflexivity. Qed.

Lemma duckduckgo_search_failure_witness :
  run (PR := sample_repr) (SZ := plain_sanitizer) (SE := failing_engine)
    sample_search
  = Ok [TextContent "Error performing search: 202 Ratelimit"].
Proof.
  exact (duckduckgo_search_failure (PR := sample_repr) (SZ := plain_sanitizer)
           (SE := failing_engine) sample_search
           (Exn RuntimeError "202 Ratelimit") eq_refl ltac:(discriminate) eq_refl).
Defined.

End DuckDuckGoExamples.

(** ** The weather tools: what stays inside [run] *)

Section WeatherBoundary.
Import Py Content Weather.
Context `{G : Geocoder}.

Lemma validate_fields a arg :
  validate a = Ok arg ->
  latitude arg = latitude a /\ longitude arg = longitude a
  /\ city arg = city a.
Proof.
  unfold validate. destruct (_ && _ && _ && _); [|discriminate].
  intros [= <-]. repeat split.
Qed.

Lemma current_validate_fields a arg :
  WeatherUSCurrent.validate a = Ok arg ->
  latitude arg = latitude a /\ longitude arg = longitude a
  /\ city arg = city a.
Proof.
  unfold WeatherUSCurrent.validate. destruct (_ && _ && _); [|discriminate].
  intros [= <-]. repeat split.
Qed.

(** With arguments that pass the validation of the current-weather tool
    (which knows no [days]) and give neither a city nor both coordinates,
    the tool answers with its own message and asks no service. *)
Theorem us_current_missing_location `{N : WeatherUSCurrent.Nws} a arg :
  WeatherUSCurrent.validate a = Ok arg ->
  truthy_str (city a) = false ->
  lacks_coordinates a = true ->
  WeatherUSCurrent.run a
  = Ok [TextContent "Error: Either city or latitude/longitude must be provided"].
Proof.
  intros Hv Hc Hl. destruct (current_validate_fields a arg Hv) as (Hla & Hlo & Hci).
  unfold WeatherUSCurrent.run, WeatherUSCurrent.current. rewrite Hv.
  cbn [bind]. rewrite Hci, Hc. cbn [andb bind].
  unfold lacks_coordinates in *. rewrite Hla, Hlo, Hl. reflexivity.
Qed.

(** With both coordinates given and valid arguments, the forecast tool
    consults no geocoder and returns exactly one text item: the forecast,
    or the description of the failure of the weather service. *)
Theorem us_forecast_with_coordinates `{N : WeatherUSForecast.Nws} a arg la lo :
  validate a = Ok arg ->
  latitude a = Some la ->
  longitude a = Some lo ->
  WeatherUSForecast.run a
  = Ok [TextContent (match WeatherUSForecast.forecast_text arg with
                     | Ok t => t
                     | Raise e => describe e
                     end)].
Proof.
  intros Hv Hla Hlo. destruct (validate_fields a arg Hv) as (Hla' & Hlo' & _).
  unfold WeatherUSForecast.run. rewrite Hv.
  assert (Hl : lacks_coordinates arg = false).
  { unfold lacks_coordinates. rewrite Hla', Hlo', Hla, Hlo. reflexivity. }
  rewrite Hl, andb_false_r. unfold WeatherUSForecast.forecast.
  destruct (WeatherUSForecast.forecast_text arg); reflexivity.
Qed.

(** The Open-Meteo tool tests its coordinates for truth, so a latitude or
    a longitude of zero counts as absent: without a city, a point on the
    equator or on the prime meridian is handled exactly like a request
    with no location at all, and the weather client is not called. *)
Theorem open_meteo_zero_coordinate `{O : WeatherOpenMeteoForecast.OpenMeteo} a :
  truthy_str (city a) = false ->
  (exists q, latitude a = Some q /\ Qeq_bool q 0 = true)
  \/ (exists q, longitude a = Some q /\ Qeq_bool q 0 = true) ->
  WeatherOpenMeteoForecast.run a
  = WeatherOpenMeteoForecast.run (Arguments None None None None).
Proof.
  intros Hc Hz. unfold WeatherOpenMeteoForecast.run, WeatherOpenMeteoForecast.weather.
  rewrite Hc. cbn [city truthy_str latitude longitude truthy_float andb].
  assert (Hf : truthy_float (latitude a) && truthy_float (longitude a) = false).
  { destruct Hz as [(q & Hq & Hz) | (q & Hq & Hz)]; rewrite Hq; cbn [truthy_float];
      rewrite Hz; cbn [negb andb]; [reflexivity | apply andb_false_r]. }
  rewrite Hf. reflexivity.
Qed.

End WeatherBoundary.

Section WeatherExamples.
Import Py Content Weather.

(** The arguments hold a latitude only, and a [days] of 0 that the tool
    does not look at. *)
Lemma us_current_missing_location_witness :
  WeatherUSCurrent.run (G := fixed_geocoder) (N := WeatherUSCurrent.down)
    (Arguments (Some 47.6%Q) None (Some EmptyString) (Some 0))
  = Ok [TextContent "Error: Either city or latitude/longitude must be provided"].
Proof.
  exact (us_current_missing_location (G := fixed_geocoder)
           (N := WeatherUSCurrent.down)
           (Arguments (Some 47.6%Q) None (Some EmptyString) (Some 0))
           (Arguments (Some 47.6%Q) None (Some EmptyString) None)
           eq_refl eq_refl eq_refl).
Defined.

Lemma us_forecast_with_coordinates_witness :
  WeatherUSForecast.run (G := no_city_geocoder) (N := WeatherUSForecast.down)
    (Arguments (Some 47.6%Q) (Some (-122.3)%Q) (Some "Atlantis") (Some 3))
  = Ok [TextContent
          (match WeatherUSForecast.forecast_text (Nws := WeatherUSForecast.down)
                   (Arguments (Some 47.6%Q) (Some (-122.3)%Q) (Some "Atlantis") (Some 3))
           with
           | Ok t => t
           | Raise e => describe e
           end)].
Proof.
  exact (us_forecast_with_coordinates (G := no_city_geocoder)
           (N := WeatherUSForecast.down)
           (Arguments (Some 47.6%Q) (Some (-122.3)%Q) (Some "Atlantis") (Some 3))
           (Arguments (Some 47.6%Q) (Some (-122.3)%Q) (Some "Atlantis") (Some 3))
           47.6%Q (-122.3)%Q eq_refl eq_refl eq_refl).
Defined.

Lemma open_meteo_zero_coordinate_witness :
  WeatherOpenMeteoForecast.run (G := fixed_geocoder)
    (O := WeatherOpenMeteoForecast.answering)
    (Arguments (Some 0%Q) (Some 36.8%Q) None None)
  = WeatherOpenMeteoForecast.run (G := fixed_geocoder)
      (O := WeatherOpenMeteoForecast.answering) (Arguments None None None None).
Proof.
  refine (open_meteo_zero_coordinate (G := fixed_geocoder)
            (O := WeatherOpenMeteoForecast.answering)
            (Arguments (Some 0%Q) (Some 36.8%Q) None None) eq_refl _).
  left. exists 0%Q. split; reflexivity.
Defined.

End WeatherExamples.

(** ** DALL-E image generation *)

Section DalleBranches.
Import Py Content GenerateDalleImage.
Context `{PE : PatternEngine} `{IP : ImagePayload} `{IA : ImageApi}.

(** Valid arguments have a description. *)
Lemma valid_description arg :
  validate arg = Ok arg -> is_empty (image_description arg) = false.
Proof.
  unfold validate. destruct (image_description arg); [|reflexivity].
  cbn. discriminate.
Qed.

(** Arguments that fail validation raise before the key is looked at and
    before the image API is called. *)
Lemma dalle_invalid_arguments env arg e :
  validate arg = Raise e -> run env arg = Raise e.
Proof. intros Hv. unfold run. rewrite Hv. reflexivity. Qed.

(** With valid arguments and without a key, or with an empty one, [run]
    answers with the message of [check_required_env] and the image API is
    not called. *)
Theorem dalle_missing_key env arg :
  validate arg = Ok arg ->
  env !! "OPENAI_API_KEY" = None \/ env !! "OPENAI_API_KEY" = Some EmptyString ->
  run env arg = Ok [TextContent missing_key_message].
Proof.
  intros Hv [Hk | Hk]; unfold run, check_required_env; rewrite Hv; cbn [bind];
    rewrite Hk; reflexivity.
Qed.

(** With valid arguments and the key "test", [run] returns the built-in
    one-pixel image, a payload the image item takes, and the image API is
    not called. *)
Theorem dalle_test_key env arg :
  validate arg = Ok arg ->
  env !! "OPENAI_API_KEY" = Some "test" ->
  well_formed_image test_image = true ->
  run env arg = Ok [ImageContent test_image "image/jpeg"].
Proof.
  intros Hv Hk Hwf. unfold run, check_required_env. rewrite Hv. cbn [bind].
  rewrite Hk, (valid_description arg Hv).
  unfold generate. rewrite Hk, bool_decide_eq_true_2 by reflexivity.
  unfold new_ImageContent. cbn. rewrite Hwf. reflexivity.
Qed.

Lemma real_key env arg k :
  validate arg = Ok arg ->
  env !! "OPENAI_API_KEY" = Some k -> k <> EmptyString -> k <> "test" ->
  run env arg
  = try_except_Exception
      (bind (image_generation (requested arg) (Some k) (env !! "OPENAI_BASE_URL"))
         (fun data =>
            match data with
            | Some (first :: _) =>
                bind (new_ImageContent
                        [("type", VStr "image"); ("mime_type", VStr "image/jpeg");
                         ("image", match first with
                                   | Some b => VStr b
                                   | None => VNone
                                   end)])
                     (fun i => Ok [i])
            | _ => Ok [TextContent "No images generated."]
            end))
      (fun e => comprehension new_ErrorContent (error_site e)).
Proof.
  intros Hv Hk Hne Ht. unfold run, check_required_env. rewrite Hv. cbn [bind].
  rewrite Hk. destruct k; [contradiction|].
  rewrite (valid_description arg Hv).
  unfold generate. rewrite Hk, bool_decide_eq_false_2 by congruence.
  reflexivity.
Qed.

(** With valid arguments and a real key, however many images were asked
    for and returned, [run] returns one image item, made of the first
    image of the response, a payload the image item takes. *)
Theorem dalle_first_image_only env arg k b others :
  validate arg = Ok arg ->
  env !! "OPENAI_API_KEY" = Some k -> k <> EmptyString -> k <> "test" ->
  image_generation (requested arg) (Some k) (env !! "OPENAI_BASE_URL")
  = Ok (Some (Some b :: others)) ->
  well_formed_image b = true ->
  run env arg = Ok [ImageContent b "image/jpeg"].
Proof.
  intros Hv Hk Hne Ht Hg Hwf. rewrite (real_key env arg k Hv Hk Hne Ht), Hg.
  cbn [bind]. unfold new_ImageContent. cbn. rewrite Hwf. reflexivity.
Qed.

(** A response without images is answered with "No images generated.". *)
Theorem dalle_no_images env arg k data :
  validate arg = Ok arg ->
  env !! "OPENAI_API_KEY" = Some k -> k <> EmptyString -> k <> "test" ->
  image_generation (requested arg) (Some k) (env !! "OPENAI_BASE_URL") = Ok data ->
  data = None \/ data = Some [] ->
  run env arg = Ok [TextContent "No images generated."].
Proof.
  intros Hv Hk Hne Ht Hg Hdata. rewrite (real_key env arg k Hv Hk Hne Ht), Hg.
  destruct Hdata as [-> | ->]; reflexivity.
Qed.

(** With valid arguments and a real key, a failure of the image API is
    answered with two error items of code 500: the exception's message,
    then "An error occurred". *)
Theorem dalle_api_failure env arg k e :
  validate arg = Ok arg ->
  env !! "OPENAI_API_KEY" = Some k -> k <> EmptyString -> k <> "test" ->
  image_generation (requested arg) (Some k) (env !! "OPENAI_BASE_URL") = Raise e ->
  run env arg
  = Ok [ErrorContent 500 ("Error generating image: " +:+ exn_msg e);
        ErrorContent 500 "An error occurred"].
Proof.
  intros Hv Hk Hne Ht Hg. rewrite (real_key env arg k Hv Hk Hne Ht), Hg.
  reflexivity.
Qed.

End DalleBranches.

Section DalleExamples.
Import Py Content GenerateDalleImage.

Lemma dalle_missing_key_witness :
  run (PE := sample_patterns) (IP := base64_payload) (IA := failing_api)
    {[ "OPENAI_API_KEY" := EmptyString ]} sample_request
  = Ok [TextContent missing_key_message].
Proof.
  exact (dalle_missing_key (PE := sample_patterns) (IP := base64_payload)
           (IA := failing_api)
           {[ "OPENAI_API_KEY" := EmptyString ]} sample_request
           eq_refl (or_intror eq_refl)).
Defined.

Lemma dalle_test_key_witness :
  run (PE := sample_patterns) (IP := base64_payload) (IA := failing_api)
    {[ "OPENAI_API_KEY" := "test" ]} sample_request
  = Ok [ImageContent test_image "image/jpeg"].
Proof.
  exact (dalle_test_key (PE := sample_patterns) (IP := base64_payload)
           (IA := failing_api) {[ "OPENAI_API_KEY" := "test" ]}
           sample_request eq_refl eq_refl eq_refl).
Defined.

Lemma dalle_first_image_only_witness :
  run (PE := sample_patterns) (IP := base64_payload) (IA := two_images_api)
    {[ "OPENAI_API_KEY" := "sk-1" ]} sample_request
  = Ok [ImageContent "AAAA" "image/jpeg"].
Proof.
  refine (dalle_first_image_only (PE := sample_patterns) (IP := base64_payload)
            (IA := two_images_api)
            {[ "OPENAI_API_KEY" := "sk-1" ]} sample_request "sk-1" "AAAA"
            [Some "BBBB"] eq_refl eq_refl _ _ eq_refl eq_refl); discriminate.
Defined.

Lemma dalle_api_failure_witness :
  run (PE := sample_patterns) (IP := base64_payload) (IA := failing_api)
    {[ "OPENAI_API_KEY" := "sk-1" ]} sample_request
  = Ok [ErrorContent 500 "Error generating image: quota exceeded";
        ErrorContent 500 "An error occurred"].
Proof.
  refine (dalle_api_failure (PE := sample_patterns) (IP := base64_payload)
            (IA := failing_api) {[ "OPENAI_API_KEY" := "sk-1" ]}
            sample_request "sk-1" (Exn RuntimeError "quota exceeded")
            eq_refl eq_refl _ _ eq_refl); discriminate.
Defined.

End DalleExamples.

(** ** Line ends *)

Section LineEnds.
Import Py OS.

Lemma app_str_cons x (a b : string) : String x a +:+ b = String x (a +:+ b).
Proof. reflexivity. Qed.

Lemma app_str_nil_l (b : string) : EmptyString +:+ b = b.
Proof. reflexivity. Qed.

Lemma contains_char_app c a b :
  contains_char c (a +:+ b) = contains_char c a || contains_char c b.
Proof.
  induction a as [|x a IH]; [reflexivity|].
  rewrite app_str_cons. cbn [contains_char]. destruct (Ascii.eqb c x); [reflexivity|].
  exact IH.
Qed.

(** A text without CR is read as it is. *)
Lemma universal_newlines_id s :
  contains_char CR s = false -> universal_newlines s = s.
Proof.
  induction s as [|c s IH]; [reflexivity|]. cbn [contains_char universal_newlines].
  rewrite Ascii.eqb_sym. destruct (Ascii.eqb c CR); [discriminate|].
  intros H. rewrite (IH H). reflexivity.
Qed.

(** A line boundary that is not the CR of a CR LF closes the line. *)
Lemma splitlines_break c t cur :
  is_linebreak c = true ->
  Ascii.eqb c CR && String.prefix nl t = false ->
  splitlines_from cur (String c t) = cur :: splitlines_from EmptyString t.
Proof.
  intros Hb Hc. cbn [splitlines_from]. rewrite Hb.
  destruct t as [|d t]; [reflexivity|].
  destruct (Ascii.eqb c CR); [|reflexivity]. cbn [andb] in Hc |- *.
  unfold nl in Hc. cbn [String.prefix] in Hc.
  destruct (ascii_dec LF d) as [<-|Hd].
  - destruct t; discriminate Hc.
  - apply Ascii.eqb_neq in Hd. rewrite Ascii.eqb_sym, Hd. reflexivity.
Qed.

Lemma splitlines_crlf t cur :
  splitlines_from cur (String CR (String LF t))
  = cur :: splitlines_from EmptyString t.
Proof. reflexivity. Qed.

(** [splitlines] sees the same lines before and after the translation of
    the line ends. *)
Lemma splitlines_from_universal n : forall s cur,
  (String.length s <= n)%nat ->
  splitlines_from cur (universal_newlines s) = splitlines_from cur s.
Proof.
  induction n as [|n IH]; intros s cur Hn.
  - destruct s; [reflexivity | simpl in Hn; lia].
  - destruct s as [|c s]; [reflexivity|]. simpl in Hn.
    cbn [universal_newlines]. destruct (Ascii.eqb_spec c CR) as [->|Hc].
    + destruct s as [|d s]; [reflexivity|]. simpl in Hn.
      destruct (Ascii.eqb_spec d LF) as [->|Hd].
      * rewrite splitlines_crlf, (splitlines_break LF) by reflexivity.
        rewrite (IH s) by lia. reflexivity.
      * rewrite (splitlines_break LF) by reflexivity.
        rewrite (IH (String d s)) by (simpl; lia).
        rewrite (splitlines_break CR); [reflexivity | reflexivity |].
        cbn [andb]. unfold nl. cbn [String.prefix].
        destruct (ascii_dec LF d) as [<-|]; [contradiction | reflexivity].
    + apply Ascii.eqb_neq in Hc.
      destruct (is_linebreak c) eqn:Hb.
      * rewrite !(splitlines_break c) by (rewrite ?Hc; reflexivity || exact Hb).
        rewrite (IH s) by lia. reflexivity.
      * cbn [splitlines_from]. rewrite Hb. apply IH. lia.
Qed.

Lemma splitlines_universal s :
  splitlines (universal_newlines s) = splitlines s.
Proof. apply (splitlines_from_universal (String.length s)). lia. Qed.

(** A text that has been read holds no CR. *)
Lemma universal_newlines_no_cr n : forall s,
  (String.length s <= n)%nat ->
  contains_char CR (universal_newlines s) = false.
Proof.
  induction n as [|n IH]; intros s Hn.
  - destruct s; [reflexivity | simpl in Hn; lia].
  - destruct s as [|c s]; [reflexivity|]. simpl in Hn.
    cbn [universal_newlines]. destruct (Ascii.eqb_spec c CR) as [->|Hc].
    + destruct s as [|d s]; [reflexivity|]. simpl in Hn.
      destruct (Ascii.eqb d LF); cbn [contains_char];
        change (Ascii.eqb CR LF) with false; cbv iota; apply IH; simpl; lia.
    + cbn [contains_char]. apply Ascii.eqb_neq in Hc.
      rewrite Ascii.eqb_sym, Hc. apply IH. lia.
Qed.

Lemma read_text_no_cr s : contains_char CR (universal_newlines s) = false.
Proof. apply (universal_newlines_no_cr (String.length s)). lia. Qed.

Lemma prefix_nl_cons s :
  String.prefix nl s = true -> exists t, s = String LF t.
Proof.
  destruct s as [|d t]; [discriminate|]. unfold nl. cbn [String.prefix].
  destruct (ascii_dec LF d) as [<-|]; [eauto | discriminate].
Qed.

(** No line of [splitlines] holds a CR. *)
Lemma splitlines_from_no_cr n : forall s cur,
  (String.length s <= n)%nat ->
  contains_char CR cur = false ->
  Forall (fun l => contains_char CR l = false) (splitlines_from cur s).
Proof.
  induction n as [|n IH]; intros s cur Hn Hcur.
  - destruct s; [|simpl in Hn; lia]. cbn [splitlines_from].
    destruct (is_empty cur); repeat constructor. exact Hcur.
  - destruct s as [|c s].
    { cbn [splitlines_from]. destruct (is_empty cur); repeat constructor. exact Hcur. }
    simpl in Hn. destruct (is_linebreak c) eqn:Hb.
    + destruct (Ascii.eqb c CR && String.prefix nl s) eqn:Hc.
      * apply andb_true_iff in Hc as [Hcr Hp].
        apply Ascii.eqb_eq in Hcr as ->.
        destruct (prefix_nl_cons s Hp) as [t ->]. simpl in Hn.
        rewrite splitlines_crlf. constructor; [exact Hcur|].
        apply IH; [lia | reflexivity].
      * rewrite (splitlines_break c s cur Hb Hc). constructor; [exact Hcur|].
        apply IH; [lia | reflexivity].
    + cbn [splitlines_from]. rewrite Hb. apply IH; [lia|].
      unfold snoc. rewrite contains_char_app, Hcur. cbn [contains_char orb].
      destruct (Ascii.eqb_spec CR c) as [<-|]; [discriminate Hb | reflexivity].
Qed.

Lemma splitlines_no_cr s :
  Forall (fun l => contains_char CR l = false) (splitlines s).
Proof. apply (splitlines_from_no_cr (String.length s)); [lia | reflexivity]. Qed.

Lemma join_no_cr l :
  Forall (fun x => contains_char CR x = false) l ->
  contains_char CR (Py.join nl l) = false.
Proof.
  induction 1 as [|x l Hx Hl IH]; [reflexivity|].
  destruct l as [|y l]; [exact Hx|].
  change (Py.join nl (x :: y :: l)) with (x +:+ nl +:+ Py.join nl (y :: l)).
  rewrite !contains_char_app, Hx, IH. reflexivity.
Qed.

End LineEnds.

(** ** File editing: the other branches of [run] *)

Section FileEditBranches.
Import Py Content PosixPath OS OsFileEdit.
Context `{R : Regex}.

Lemma is_dir_key_written st k c data k' :
  lookup_node st k = Some (File c) ->
  is_dir_key (written st k data) k' = is_dir_key st k'.
Proof.
  intros Hk. unfold is_dir_key, lookup_node, written in *. cbn [tree with_tree].
  destruct k' as [|x k']; [reflexivity|].
  destruct (decide (k = x :: k')) as [->|Hne].
  - rewrite lookup_insert_eq, Hk. reflexivity.
  - rewrite lookup_insert_ne by exact Hne. reflexivity.
Qed.

Lemma walk_written st k c data comps : forall cur,
  lookup_node st k = Some (File c) ->
  walk (written st k data) cur comps = walk st cur comps.
Proof.
  induction comps as [|x comps IH]; intros cur Hk; [reflexivity|].
  cbn [walk]. rewrite (is_dir_key_written st k c data cur Hk).
  destruct (is_dir_key st cur); [|reflexivity].
  destruct (_ || _); [apply IH, Hk|].
  destruct (String.eqb x ".."); apply IH, Hk.
Qed.

Lemma resolve_written st k c data path :
  lookup_node st k = Some (File c) ->
  resolve (written st k data) path = resolve st path.
Proof.
  intros Hk. unfold resolve. cbn [cwd written with_tree].
  destruct (is_empty path); [reflexivity|].
  rewrite !(walk_written st k c data _ _ Hk).
  destruct (isabs path); [reflexivity|].
  destruct (walk st [] (components (cwd st))); [|reflexivity].
  apply (walk_written st k c data), Hk.
Qed.

Lemma file_key_not_root st k c : lookup_node st k = Some (File c) -> k <> [].
Proof. intros H ->. discriminate H. Qed.

(** What has been written is what is read, up to the line ends. *)
Lemma read_written st path k c data :
  writable_file st path k c ->
  read_file (written st k data) path = Ok (universal_newlines data).
Proof.
  intros (Hr & Hl & _). unfold read_file.
  rewrite (resolve_written st k c data path Hl), Hr.
  pose proof (file_key_not_root st k c Hl) as Hne.
  unfold lookup_node, written. cbn [tree with_tree].
  destruct k; [contradiction|]. rewrite lookup_insert_eq. reflexivity.
Qed.

Lemma others_untouched st k data k' :
  k' <> k -> lookup_node (written st k data) k' = lookup_node st k'.
Proof.
  intros Hne. unfold lookup_node, written. cbn [tree with_tree].
  destruct k'; [reflexivity|]. rewrite lookup_insert_ne by congruence.
  reflexivity.
Qed.

Lemma readable_exists st path c : read_file st path = Ok c -> exists_ st path = true.
Proof.
  unfold read_file, exists_, stat. destruct (resolve st path); [|discriminate].
  destruct (lookup_node st l) as [[]|]; try discriminate. reflexivity.
Qed.

Lemma edited_lines_no_cr content s e new :
  contains_char CR (edited_lines content s e new) = false.
Proof.
  unfold edited_lines. apply join_no_cr.
  pose proof (splitlines_no_cr content) as Hc.
  pose proof (splitlines_no_cr new) as Hn.
  rewrite !Forall_app. repeat split;
    [apply Forall_take, Hc | exact Hn | apply Forall_drop, Hc].
Qed.

(** A full edit replaces the content of the file by [new_content], as
    it is: the file then reads as [new_content] with CR LF and CR read as
    LF, so exactly as [new_content] when that holds no CR; every other
    entry of the file system is as it was, and the reply quotes the new
    content. *)
Theorem file_edit_full_round_trip st arg k content :
  writable_file st (file_path arg) k content ->
  edit_type arg = "full" ->
  run st arg
  = (written st k (new_content arg),
     [TextContent ("File successfully updated: " +:+ file_path arg +:+ nl
                   +:+ new_content arg)])
  /\ read_file (written st k (new_content arg)) (file_path arg)
     = Ok (universal_newlines (new_content arg))
  /\ (contains_char CR (new_content arg) = false ->
      read_file (written st k (new_content arg)) (file_path arg)
      = Ok (new_content arg))
  /\ forall k', k' <> k ->
       lookup_node (written st k (new_content arg)) k' = lookup_node st k'.
Proof.
  intros Hw Het. split; [|split; [|split]].
  - unfold run. rewrite (writable_exists _ _ _ _ Hw). cbn [negb].
    unfold edit. rewrite (writable_read _ _ _ _ Hw), Het.
    change (String.eqb "full" "full") with true. cbv iota.
    rewrite (writable_write _ _ _ _ _ Hw). reflexivity.
  - apply (read_written st _ k content), Hw.
  - intros Hcr. rewrite (read_written st _ k content _ Hw).
    rewrite (universal_newlines_id _ Hcr). reflexivity.
  - intros k' Hne. apply others_untouched, Hne.
Qed.

(** A line edit with [1 <= start_line <= end_line <= number of lines]
    replaces exactly the lines [start_line .. end_line] by the lines of
    [new_content]: the lines before and after are kept in order, all
    lines are joined by single line feeds, and the file then reads as
    that text. *)
Theorem file_edit_lines_round_trip st arg k content s e :
  writable_file st (file_path arg) k content ->
  edit_type arg <> "full" ->
  start_line arg = Some s -> end_line arg = Some e ->
  1 <= s -> s <= e -> e <= Z.of_nat (length (splitlines content)) ->
  run st arg
  = (written st k (edited_lines content s e (new_content arg)),
     [TextContent ("File successfully updated: " +:+ file_path arg +:+ nl
                   +:+ edited_lines content s e (new_content arg))])
  /\ read_file (written st k (edited_lines content s e (new_content arg)))
       (file_path arg)
     = Ok (edited_lines content s e (new_content arg)).
Proof.
  intros Hw Het Hs He H1 H2 H3. split.
  - unfold run. rewrite (writable_exists _ _ _ _ Hw). cbn [negb].
    unfold edit. rewrite (writable_read _ _ _ _ Hw), splitlines_universal.
    apply String.eqb_neq in Het. rewrite Het, Hs, He.
    unfold _edit_by_lines.
    destruct (Z.ltb_spec s 1); [lia|].
    destruct (Z.gtb_spec e (Z.of_nat (length (splitlines content)))); [lia|].
    destruct (Z.gtb_spec s e); [lia|]. cbn [orb].
    fold (edited_lines content s e (new_content arg)).
    rewrite (writable_write _ _ _ _ _ Hw). reflexivity.
  - rewrite (read_written st _ k content _ Hw).
    rewrite (universal_newlines_id _ (edited_lines_no_cr _ _ _ _)). reflexivity.
Qed.

(** Line numbers out of range ([start_line < 1], [end_line] beyond the
    last line, or [start_line > end_line]) are answered with
    "Error editing file: Invalid line numbers"; nothing is written. *)
Theorem file_edit_bad_line_numbers st arg content s e :
  read_file st (file_path arg) = Ok content ->
  edit_type arg <> "full" ->
  start_line arg = Some s -> end_line arg = Some e ->
  s < 1 \/ e > Z.of_nat (length (splitlines content)) \/ s > e ->
  run st arg = (st, [TextContent "Error editing file: Invalid line numbers"]).
Proof.
  intros Hr Het Hs He Hbad. unfold run.
  rewrite (readable_exists _ _ _ Hr). cbn [negb].
  unfold edit. rewrite Hr. apply String.eqb_neq in Het. rewrite Het, Hs, He.
  unfold _edit_by_lines.
  destruct (Z.ltb_spec s 1); [reflexivity|].
  destruct (Z.gtb_spec e (Z.of_nat (length (splitlines content)))); [reflexivity|].
  destruct (Z.gtb_spec s e); [reflexivity | lia].
Qed.

(** A partial edit that gives neither both line numbers nor both a
    non-empty pattern and a non-empty replacement is refused with
    "Error editing file: Invalid partial edit parameters"; nothing is
    written.  In particular a pattern cannot be replaced by the empty
    string. *)
Theorem file_edit_missing_parameters st arg content :
  read_file st (file_path arg) = Ok content ->
  edit_type arg <> "full" ->
  start_line arg = None \/ end_line arg = None ->
  truthy_opt (search_pattern arg) = false
  \/ truthy_opt (replacement_text arg) = false ->
  run st arg
  = (st, [TextContent "Error editing file: Invalid partial edit parameters"]).
Proof.
  intros Hr Het Hlines Hparams. unfold run.
  rewrite (readable_exists _ _ _ Hr). cbn [negb].
  unfold edit. rewrite Hr. apply String.eqb_neq in Het. rewrite Het.
  assert (Hupd :
    match search_pattern arg, replacement_text arg with
    | Some p, Some r =>
        if negb (is_empty p) && negb (is_empty r)
        then _find_and_replace content p r
        else Raise (Exn ValueError "Invalid partial edit parameters")
    | _, _ => Raise (Exn ValueError "Invalid partial edit parameters")
    end = Raise (Exn ValueError "Invalid partial edit parameters")).
  { unfold truthy_opt in Hparams.
    destruct (search_pattern arg) as [p|], (replacement_text arg) as [r|];
      try reflexivity.
    all: destruct Hparams as [H | H]; try discriminate H.
    - rewrite H. reflexivity.
    - rewrite H, andb_false_r. reflexivity. }
  destruct Hlines as [Hn | Hn]; rewrite Hn.
  - rewrite Hupd. reflexivity.
  - destruct (start_line arg); rewrite Hupd; reflexivity.
Qed.

(** [run] always answers with exactly one text item. *)
Theorem file_edit_single_text_item st arg :
  exists t, snd (run st arg) = [TextContent t].
Proof.
  unfold run. destruct (negb (exists_ st (file_path arg))); [eauto|].
  unfold edit. destruct (read_file st (file_path arg)); [|eauto].
  match goal with
  | |- context [match ?u with Ok _ => _ | Raise _ => _ end] => destruct u
  end; [|eauto].
  destruct (write_file st (file_path arg) a0) as [st' [[]|e]]; eauto.
Qed.

End FileEditBranches.

Section FileEditBranchExamples.
Import Py Content PosixPath OS OsFileEdit.

Lemma lines_state_file :
  writable_file lines_state "f" ["w"; "f"]
    ("one" +:+ nl +:+ "two" +:+ nl +:+ "three" +:+ nl).
Proof. repeat split. Qed.

Lemma file_edit_full_witness :
  run (R := sample_regex) lines_state (sample_edit "full" "fresh text" None None None)
  = (written lines_state ["w"; "f"] "fresh text",
     [TextContent ("File successfully updated: f" +:+ nl +:+ "fresh text")])
  /\ read_file (written lines_state ["w"; "f"] "fresh text") "f"
     = Ok (universal_newlines "fresh text")
  /\ (contains_char CR "fresh text" = false ->
      read_file (written lines_state ["w"; "f"] "fresh text") "f" = Ok "fresh text")
  /\ forall k', k' <> ["w"; "f"] ->
       lookup_node (written lines_state ["w"; "f"] "fresh text") k'
       = lookup_node lines_state k'.
Proof.
  exact (file_edit_full_round_trip (R := sample_regex) lines_state
           (sample_edit "full" "fresh text" None None None) ["w"; "f"]
           ("one" +:+ nl +:+ "two" +:+ nl +:+ "three" +:+ nl)
           lines_state_file eq_refl).
Defined.

Lemma file_edit_lines_witness :
  edited_lines ("one" +:+ nl +:+ "two" +:+ nl +:+ "three" +:+ nl) 2 2
    ("zwei" +:+ nl +:+ "deux")
  = "one" +:+ nl +:+ "zwei" +:+ nl +:+ "deux" +:+ nl +:+ "three"
  /\ run (R := sample_regex) lines_state
       (sample_edit "partial" ("zwei" +:+ nl +:+ "deux") (Some (2, 2)) None None)
     = (written lines_state ["w"; "f"]
          (edited_lines ("one" +:+ nl +:+ "two" +:+ nl +:+ "three" +:+ nl) 2 2
             ("zwei" +:+ nl +:+ "deux")),
        [TextContent ("File successfully updated: f" +:+ nl
                      +:+ edited_lines ("one" +:+ nl +:+ "two" +:+ nl +:+ "three" +:+ nl)
                            2 2 ("zwei" +:+ nl +:+ "deux"))])
  /\ read_file
       (written lines_state ["w"; "f"]
          (edited_lines ("one" +:+ nl +:+ "two" +:+ nl +:+ "three" +:+ nl) 2 2
             ("zwei" +:+ nl +:+ "deux"))) "f"
     = Ok (edited_lines ("one" +:+ nl +:+ "two" +:+ nl +:+ "three" +:+ nl) 2 2
             ("zwei" +:+ nl +:+ "deux")).
Proof.
  split; [reflexivity|].
  refine (file_edit_lines_round_trip (R := sample_regex) lines_state
            (sample_edit "partial" ("zwei" +:+ nl +:+ "deux") (Some (2, 2)) None None)
            ["w"; "f"] ("one" +:+ nl +:+ "two" +:+ nl +:+ "three" +:+ nl) 2 2
            lines_state_file _ eq_refl eq_refl _ _ _);
    [discriminate | lia | lia | vm_compute; discriminate].
Defined.

Lemma file_edit_bad_line_numbers_witness :
  run (R := sample_regex) lines_state
    (sample_edit "partial" "x" (Some (3, 4)) None None)
  = (lines_state, [TextContent "Error editing file: Invalid line numbers"]).
Proof.
  refine (file_edit_bad_line_numbers (R := sample_regex) lines_state
            (sample_edit "partial" "x" (Some (3, 4)) None None)
            ("one" +:+ nl +:+ "two" +:+ nl +:+ "three" +:+ nl) 3 4
            eq_refl _ eq_refl eq_refl _).
  - discriminate.
  - right. left. vm_compute. reflexivity.
Defined.

Lemma file_edit_missing_parameters_witness :
  run (R := sample_regex) lines_state
    (sample_edit "partial" "x" None (Some "two") (Some EmptyString))
  = (lines_state,
     [TextContent "Error editing file: Invalid partial edit parameters"]).
Proof.
  refine (file_edit_missing_parameters (R := sample_regex) lines_state
            (sample_edit "partial" "x" None (Some "two") (Some EmptyString))
            ("one" +:+ nl +:+ "two" +:+ nl +:+ "three" +:+ nl)
            eq_refl _ (or_introl eq_refl) (or_intror eq_refl)).
  discriminate.
Defined.

End FileEditBranchExamples.

(** ** Folder creation: what a run leaves behind *)

Section CreateFoldersEffects.
Import Py Content PosixPath OS OsCreateFolders.

Lemma mkdir_key_keeps st k path k' n :
  lookup_node st k' = Some n ->
  lookup_node (fst (mkdir_key st k path)) k' = Some n.
Proof.
  intros Hk'. unfold mkdir_key.
  destruct (lookup_node st k) eqn:Hk; [exact Hk'|].
  destruct (lookup_node st (parent k)) as [[]|]; try exact Hk'.
  destruct (is_protected st (parent k)); [exact Hk'|].
  cbn [fst]. unfold lookup_node in *. cbn [tree with_tree].
  destruct k' as [|x k']; [exact Hk'|].
  rewrite lookup_insert_ne; [exact Hk'|].
  intros Heq. subst k. cbn in Hk. congruence.
Qed.

Lemma mkdir_key_made st k path st' :
  mkdir_key st k path = (st', Ok tt) -> lookup_node st' k = Some Dir.
Proof.
  unfold mkdir_key. destruct (lookup_node st k) eqn:Hk; [discriminate|].
  destruct (lookup_node st (parent k)) as [[]|]; try discriminate.
  destruct (is_protected st (parent k)); [discriminate|].
  intros [= <-]. unfold lookup_node in *. cbn [tree with_tree].
  destruct k; [discriminate|]. apply lookup_insert_eq.
Qed.

Lemma makedirs_from_keeps todo : forall st done path k' n,
  lookup_node st k' = Some n ->
  lookup_node (fst (makedirs_from st done todo path)) k' = Some n.
Proof.
  induction todo as [|c todo IH]; intros st done path k' n Hk'; [exact Hk'|].
  cbn [makedirs_from].
  destruct (lookup_node st (done ++ [c])) as [[]|];
    [apply IH, Hk' | exact Hk' | exact Hk' |].
  pose proof (mkdir_key_keeps st (done ++ [c]) path k' n Hk') as Hm.
  destruct (mkdir_key st (done ++ [c]) path) as [st1 [[]|e]]; cbn [fst] in *.
  - apply IH, Hm.
  - exact Hm.
Qed.

Lemma makedirs_from_made todo : forall st done path st',
  makedirs_from st done todo path = (st', Ok tt) ->
  lookup_node st done = Some Dir ->
  forall pre, pre `prefix_of` todo -> lookup_node st' (done ++ pre) = Some Dir.
Proof.
  induction todo as [|c todo IH]; intros st done path st' Hm Hd pre Hpre.
  - apply prefix_nil_inv in Hpre as ->. injection Hm as <-.
    rewrite app_nil_r. exact Hd.
  - pose proof (makedirs_from_keeps (c :: todo) st done path done Dir Hd) as Hkeep.
    rewrite Hm in Hkeep. cbn [fst] in Hkeep.
    destruct pre as [|x pre]; [rewrite app_nil_r; exact Hkeep|].
    apply prefix_cons_inv_1 in Hpre as Hx. subst x.
    apply prefix_cons_inv_2 in Hpre.
    replace (done ++ c :: pre) with ((done ++ [c]) ++ pre)
      by (rewrite <- app_assoc; reflexivity).
    cbn [makedirs_from] in Hm.
    destruct (lookup_node st (done ++ [c])) as [[]|] eqn:Hc.
    + eapply IH; eassumption.
    + discriminate.
    + discriminate.
    + destruct (mkdir_key st (done ++ [c]) path) as [st1 [[]|e]] eqn:Hmk;
        [|discriminate].
      eapply IH; [exact Hm | eapply mkdir_key_made; exact Hmk | exact Hpre].
Qed.

Lemma makedirs_from_again todo : forall st done path,
  (forall pre, pre `prefix_of` todo -> lookup_node st (done ++ pre) = Some Dir) ->
  makedirs_from st done todo path = (st, Ok tt).
Proof.
  induction todo as [|c todo IH]; intros st done path Hall; [reflexivity|].
  cbn [makedirs_from].
  rewrite (Hall [c]) by (apply prefix_cons, prefix_nil).
  apply IH. intros pre Hpre. rewrite <- app_assoc. apply Hall.
  apply prefix_cons, Hpre.
Qed.

Lemma makedirs_again st path st' :
  makedirs st path = (st', Ok tt) -> makedirs st' path = (st', Ok tt).
Proof.
  unfold makedirs. intros Hm. apply makedirs_from_again. intros pre Hpre.
  eapply makedirs_from_made; [exact Hm | reflexivity | exact Hpre].
Qed.

Lemma reported_created st path :
  snd (create_one st path) = created path ->
  all_allowed (target st path) = true
  /\ makedirs st (target st path) = (fst (create_one st path), Ok tt).
Proof.
  unfold create_one, attempt. fold (target st path).
  destruct (all_allowed (target st path)); cbn [negb];
    [|cbn; intros H; discriminate H].
  destruct (makedirs st (target st path)) as [st' [[]|e]]; [intros _; split; reflexivity|].
  destruct (issubclass (exn_cls e) PermissionError); cbn; intros H; discriminate H.
Qed.

(** When the tool reports "Successfully created folder" for a path, the
    directory exists afterwards at the normalised absolute path, every
    entry that existed before is still there unchanged, and creating the
    same path again succeeds and changes nothing. *)
Theorem create_folders_success_means_directory st path :
  snd (create_one st path) = created path ->
  lookup_node (fst (create_one st path)) (normpath_comps (target st path))
  = Some Dir
  /\ (forall k n, lookup_node st k = Some n ->
                  lookup_node (fst (create_one st path)) k = Some n)
  /\ create_one (fst (create_one st path)) path
     = (fst (create_one st path), created path).
Proof.
  intros Hline. destruct (reported_created st path Hline) as [Ha Hm].
  set (st' := fst (create_one st path)) in *.
  assert (Hcwd : cwd st' = cwd st).
  { pose proof (makedirs_cwd st (target st path)) as H. rewrite Hm in H. exact H. }
  split; [|split].
  - unfold makedirs in Hm.
    pose proof (makedirs_from_made _ _ _ _ _ Hm eq_refl
                  (normpath_comps (target st path)) (reflexivity _)) as H.
    exact H.
  - intros k n Hk.
    pose proof (makedirs_from_keeps (normpath_comps (target st path)) st []
                  (target st path) k n Hk) as H.
    unfold makedirs in Hm. rewrite Hm in H. exact H.
  - apply create_one_created.
    + unfold target. rewrite Hcwd. exact Ha.
    + unfold target. rewrite Hcwd. apply (makedirs_again st). exact Hm.
Qed.

Lemma create_one_keeps st path k n :
  lookup_node st k = Some n -> lookup_node (fst (create_one st path)) k = Some n.
Proof.
  intros Hk. unfold create_one, attempt.
  destruct (negb (all_allowed _)); [exact Hk|].
  pose proof (makedirs_from_keeps (normpath_comps (abspath (cwd st) (normpath path)))
                st [] (abspath (cwd st) (normpath path)) k n Hk) as H.
  fold (makedirs st (abspath (cwd st) (normpath path))) in H.
  destruct (makedirs st _) as [st' [[]|e]]; cbn [fst] in *; [exact H|].
  destruct (issubclass (exn_cls e) PermissionError); exact H.
Qed.

Lemma loop_keeps paths : forall st results k n,
  lookup_node st k = Some n ->
  lookup_node (fst (loop st paths results)) k = Some n.
Proof.
  induction paths as [|p paths IH]; intros st results k n Hk; [exact Hk|].
  cbn [loop]. pose proof (create_one_keeps st p k n Hk) as H.
  destruct (create_one st p) as [st' line]. apply IH, H.
Qed.

(** Folder creation never removes or replaces anything: every entry of
    the file system, file or directory, is still there with the same
    content after [run], whatever the paths and whichever of them
    failed. *)
Theorem create_folders_keeps_entries st arg k n :
  lookup_node st k = Some n -> lookup_node (fst (run st arg)) k = Some n.
Proof.
  intros Hk. unfold run. destruct (folder_paths arg) as [|p ps]; [exact Hk|].
  pose proof (loop_keeps (p :: ps) st [] k n Hk) as H.
  destruct (loop st (p :: ps) []) as [st' results]. exact H.
Qed.

(** For every non-empty list of paths the reply is one text whose lines
    are the status lines of the paths, one per path and in the order of
    the list; each line names its path and is one of the four kinds. *)
Theorem create_folders_one_line_per_path st arg :
  folder_paths arg <> [] ->
  exists lines,
    snd (run st arg) = [TextContent (Py.join nl lines)]
    /\ Forall2 reports (folder_paths arg) lines.
Proof.
  intros Hne. unfold run. destruct (folder_paths arg) as [|p ps] eqn:Hp;
    [contradiction|].
  pose proof (one_line_per_path (p :: ps) st) as H.
  destruct (loop st (p :: ps) []) as [st' results]. cbn [snd] in *.
  exists results. split; [reflexivity | exact H].
Qed.

End CreateFoldersEffects.

Section CreateFoldersEffectsExamples.
Import Py Content PosixPath OS OsCreateFolders.

Lemma create_folders_success_witness :
  snd (create_one folders_state "a/b") = created "a/b"
  /\ lookup_node (fst (create_one folders_state "a/b")) ["w"; "a"; "b"] = Some Dir
  /\ lookup_node (fst (create_one folders_state "a/b"))
       (normpath_comps (target folders_state "a/b")) = Some Dir
  /\ (forall k n, lookup_node folders_state k = Some n ->
                  lookup_node (fst (create_one folders_state "a/b")) k = Some n)
  /\ create_one (fst (create_one folders_state "a/b")) "a/b"
     = (fst (create_one folders_state "a/b"), created "a/b").
Proof.
  split; [reflexivity|]. split; [vm_compute; reflexivity|].
  refine (create_folders_success_means_directory folders_state "a/b" _).
  vm_compute. reflexivity.
Defined.

Lemma create_folders_keeps_entries_witness :
  lookup_node OsDeleteFolders.sample_state ["w"; "f"] = Some (File "abc")
  /\ snd (run OsDeleteFolders.sample_state
            {| folder_paths := ["f/x"; "d/new"; "f"] |})
     = [TextContent
          ("Error creating folder f/x: [Errno 20] Not a directory: '/w/f/x'" +:+ nl
           +:+ created "d/new" +:+ nl
           +:+ "Error creating folder f: [Errno 17] File exists: '/w/f'")]
  /\ lookup_node
       (fst (run OsDeleteFolders.sample_state
               {| folder_paths := ["f/x"; "d/new"; "f"] |})) ["w"; "f"]
     = Some (File "abc").
Proof.
  split; [reflexivity|]. split; [vm_compute; reflexivity|].
  exact (create_folders_keeps_entries OsDeleteFolders.sample_state
           {| folder_paths := ["f/x"; "d/new"; "f"] |} ["w"; "f"] (File "abc")
           eq_refl).
Defined.

Lemma create_folders_one_line_witness :
  exists lines,
    snd (run folders_state {| folder_paths := ["a"; "b|c"; "a/d"] |})
    = [TextContent (Py.join nl lines)]
    /\ Forall2 reports ["a"; "b|c"; "a/d"] lines.
Proof.
  refine (create_folders_one_line_per_path folders_state
            {| folder_paths := ["a"; "b|c"; "a/d"] |} _).
  discriminate.
Defined.

End CreateFoldersEffectsExamples.

(** ** Searching strings *)

Section StringSearch.
Import Py PyStr.

Lemma app_str_assoc (a b c : string) : (a +:+ b) +:+ c = a +:+ (b +:+ c).
Proof.
  induction a as [|x a IH]; [reflexivity|].
  rewrite !app_str_cons, IH. reflexivity.
Qed.

Lemma app_str_nil_r (a : string) : a +:+ EmptyString = a.
Proof.
  induction a as [|x a IH]; [reflexivity|]. rewrite app_str_cons, IH. reflexivity.
Qed.

Lemma app_str_length (a b : string) :
  String.length (a +:+ b) = (String.length a + String.length b)%nat.
Proof.
  induction a as [|x a IH]; [reflexivity|].
  rewrite app_str_cons. cbn [String.length]. rewrite IH. reflexivity.
Qed.

Lemma prefix_app sub post : String.prefix sub (sub +:+ post) = true.
Proof.
  induction sub as [|c sub IH]; [destruct post; reflexivity|].
  rewrite app_str_cons. cbn [String.prefix].
  destruct (ascii_dec c c); [exact IH | contradiction].
Qed.

Lemma prefix_split sub : forall s,
  String.prefix sub s = true -> s = sub +:+ drop_str (String.length sub) s.
Proof.
  induction sub as [|c sub IH]; intros s H; [destruct s; reflexivity|].
  destruct s as [|d s]; cbn [String.prefix] in H; [discriminate|].
  destruct (ascii_dec c d) as [<-|]; [|discriminate].
  cbn [String.length drop_str]. rewrite app_str_cons. f_equal. apply IH, H.
Qed.

Lemma take_str_app pre rest : take_str (String.length pre) (pre +:+ rest) = pre.
Proof.
  induction pre as [|c pre IH]; [destruct rest; reflexivity|].
  rewrite app_str_cons. cbn [String.length take_str]. rewrite IH. reflexivity.
Qed.

Lemma drop_str_app pre rest : drop_str (String.length pre) (pre +:+ rest) = rest.
Proof.
  induction pre as [|c pre IH]; [destruct rest; reflexivity|].
  rewrite app_str_cons. cbn [String.length drop_str]. exact IH.
Qed.

(** What [find_from] returns: the first occurrence, or nothing when there
    is no occurrence. *)
Lemma find_from_spec sub s : forall i0,
  match find_from sub s i0 with
  | Some i => exists pre post,
                first_occurrence sub s pre post
                /\ i = (i0 + String.length pre)%nat
  | None => ~ occurs sub s
  end.
Proof.
  induction s as [|c s IH]; intros i0; cbn [find_from].
  - destruct (String.prefix sub EmptyString) eqn:Hp.
    + exists EmptyString, (drop_str (String.length sub) EmptyString).
      split; [split|cbn [String.length]; lia].
      * rewrite app_str_nil_l. apply prefix_split, Hp.
      * intros; cbn [String.length]; lia.
    + intros (pre & post & H). destruct pre as [|d pre];
        [|rewrite app_str_cons in H; discriminate H].
      rewrite app_str_nil_l in H.
      destruct sub; [discriminate Hp | rewrite app_str_cons in H; discriminate H].
  - destruct (String.prefix sub (String c s)) eqn:Hp.
    + exists EmptyString, (drop_str (String.length sub) (String c s)).
      split; [split|cbn [String.length]; lia].
      * rewrite app_str_nil_l. apply prefix_split, Hp.
      * intros; cbn [String.length]; lia.
    + specialize (IH (S i0)). destruct (find_from sub s (S i0)) as [i|].
      * destruct IH as (pre & post & [Hs Hmin] & Hi).
        exists (String c pre), post. split; [split|cbn [String.length]; lia].
        -- rewrite app_str_cons, <- Hs. reflexivity.
        -- intros pre' post' H'. destruct pre' as [|d pre'].
           ++ rewrite app_str_nil_l in H'. rewrite H', prefix_app in Hp.
              discriminate.
           ++ rewrite app_str_cons in H'. injection H' as _ H'.
              cbn [String.length]. apply le_n_S, (Hmin pre' post'), H'.
      * intros (pre & post & H). destruct pre as [|d pre].
        -- rewrite app_str_nil_l in H. rewrite H, prefix_app in Hp. discriminate.
        -- rewrite app_str_cons in H. injection H as _ H.
           apply IH. exists pre, post. exact H.
Qed.

Lemma find_absent s sub : ~ occurs sub s -> find s sub = -1.
Proof.
  intros Hno. unfold find. pose proof (find_from_spec sub s 0) as H.
  destruct (find_from sub s 0); [|reflexivity].
  destruct H as (pre & post & [Hs _] & _). exfalso. apply Hno.
  exists pre, post. exact Hs.
Qed.

Lemma find_first s sub pre post :
  first_occurrence sub s pre post -> find s sub = Z.of_nat (String.length pre).
Proof.
  intros [Hs Hmin]. unfold find. pose proof (find_from_spec sub s 0) as H.
  destruct (find_from sub s 0) as [i|].
  - destruct H as (pre0 & post0 & [Hs0 Hmin0] & ->).
    pose proof (Hmin pre0 post0 Hs0). pose proof (Hmin0 pre post Hs).
    f_equal. simpl. lia.
  - exfalso. apply H. exists pre, post. exact Hs.
Qed.

Lemma find_present s sub :
  occurs sub s -> exists pre post, first_occurrence sub s pre post.
Proof.
  intros Ho. pose proof (find_from_spec sub s 0) as H.
  destruct (find_from sub s 0); [|contradiction].
  destruct H as (pre & post & Hf & _). eauto.
Qed.

End StringSearch.

(** ** The diff editor *)

Section DiffEditor.
Import Py PyStr Content PosixPath OS OsDiffEditor.

Lemma replace_at_first content old new pre post :
  content = pre +:+ old +:+ post ->
  replace_at content (Z.of_nat (String.length pre)) old new = pre +:+ new +:+ post.
Proof.
  intros ->. unfold replace_at.
  rewrite Nat2Z.id, take_str_app.
  replace (Z.to_nat (Z.of_nat (String.length pre) + Z.of_nat (String.length old)))
    with (String.length (pre +:+ old)) by (rewrite app_str_length; lia).
  rewrite <- (app_str_assoc pre old post), drop_str_app. reflexivity.
Qed.

Lemma writable_isfile st p k content :
  OsFileEdit.writable_file st p k content -> isfile st p = true.
Proof.
  intros (Hr & Hl & _). unfold isfile, stat. rewrite Hr, Hl. reflexivity.
Qed.

Lemma readable_isfile st p content : read_file st p = Ok content -> isfile st p = true.
Proof.
  unfold read_file, isfile, stat. destruct (resolve st p); [|discriminate].
  destruct (lookup_node st l) as [[]|]; try discriminate. reflexivity.
Qed.

(** When [old_text] occurs nowhere in the text [content] that [run]
    reads from the file, that is the text of the file with CR LF and CR
    read as LF, the reply says so and the file system is left as it
    was. *)
Theorem diff_editor_not_found st arg content :
  read_file st (path arg) = Ok content ->
  ~ occurs (old_text arg) content ->
  run st arg
  = (st, [TextContent ("'" +:+ old_text arg
                       +:+ "' not found in the file. No changes made.")]).
Proof.
  intros Hr Hno. unfold run.
  rewrite (readable_isfile _ _ _ Hr), Hr, (find_absent _ _ Hno). reflexivity.
Qed.

Lemma run_first st arg k content pre post :
  OsFileEdit.writable_file st (path arg) k content ->
  first_occurrence (old_text arg) (universal_newlines content) pre post ->
  run st arg
  = (OsFileEdit.written st k (pre +:+ new_text arg +:+ post),
     [TextContent ("Successfully replaced '" +:+ old_text arg
                   +:+ "' with '" +:+ new_text arg
                   +:+ "' in " +:+ path arg +:+ ".")]).
Proof.
  intros Hw Hf. unfold run.
  rewrite (writable_isfile _ _ _ _ Hw), (writable_read _ _ _ _ Hw). cbn [negb].
  rewrite (find_first _ _ _ _ Hf). cbv zeta.
  destruct (Z.eqb_spec (Z.of_nat (String.length pre)) (-1)); [lia|].
  rewrite (replace_at_first (universal_newlines content) _ _ pre post (proj1 Hf)).
  rewrite (writable_write _ _ _ _ _ Hw). reflexivity.
Qed.

(** The first occurrence of [old_text], and only that one, is replaced,
    in the text of the file as [run] reads it (CR LF and CR read as LF):
    if that text is [pre], [old_text], [post] and [old_text] begins
    nowhere before the end of [pre], the file becomes [pre], [new_text],
    [post]; it reads so afterwards when [new_text] holds no CR, and with
    the CR of [new_text] read as LF otherwise; every other entry is
    untouched. *)
Theorem diff_editor_replaces_first st arg k content pre post :
  OsFileEdit.writable_file st (path arg) k content ->
  first_occurrence (old_text arg) (universal_newlines content) pre post ->
  run st arg
  = (OsFileEdit.written st k (pre +:+ new_text arg +:+ post),
     [TextContent ("Successfully replaced '" +:+ old_text arg
                   +:+ "' with '" +:+ new_text arg
                   +:+ "' in " +:+ path arg +:+ ".")])
  /\ read_file (OsFileEdit.written st k (pre +:+ new_text arg +:+ post)) (path arg)
     = Ok (universal_newlines (pre +:+ new_text arg +:+ post))
  /\ (contains_char CR (new_text arg) = false ->
      read_file (OsFileEdit.written st k (pre +:+ new_text arg +:+ post)) (path arg)
      = Ok (pre +:+ new_text arg +:+ post))
  /\ forall k', k' <> k ->
       lookup_node (OsFileEdit.written st k (pre +:+ new_text arg +:+ post)) k'
       = lookup_node st k'.
Proof.
  intros Hw Hf. split; [|split; [|split]].
  - apply (run_first st arg k content pre post Hw Hf).
  - apply (read_written st _ k content), Hw.
  - intros Hnew. rewrite (read_written st _ k content _ Hw).
    rewrite universal_newlines_id; [reflexivity|].
    pose proof (read_text_no_cr content) as Hc.
    rewrite (proj1 Hf), !contains_char_app in Hc.
    apply orb_false_iff in Hc as [Hpre Hc].
    apply orb_false_iff in Hc as [_ Hpost].
    rewrite !contains_char_app, Hpre, Hnew, Hpost. reflexivity.
  - intros k' Hne. apply others_untouched, Hne.
Qed.

Lemma written_same st k content :
  lookup_node st k = Some (File content) -> OsFileEdit.written st k content = st.
Proof.
  intros Hl. pose proof (file_key_not_root st k content Hl) as Hne.
  destruct st as [c h t pr]. unfold OsFileEdit.written, with_tree.
  cbn [cwd home tree protected].
  f_equal. apply insert_id. unfold lookup_node in Hl. cbn [tree] in Hl.
  destruct k; [contradiction | exact Hl].
Qed.

(** Replacing a text that occurs in the file by itself rewrites the file
    with the text as [run] read it: the line ends CR LF and CR of the file
    come out as LF and nothing else changes; a file without CR is left
    exactly as it was. *)
Theorem diff_editor_same_text st arg k content :
  OsFileEdit.writable_file st (path arg) k content ->
  occurs (old_text arg) (universal_newlines content) ->
  new_text arg = old_text arg ->
  fst (run st arg) = OsFileEdit.written st k (universal_newlines content)
  /\ (contains_char CR content = false -> fst (run st arg) = st).
Proof.
  intros Hw Ho Hsame.
  destruct (find_present _ _ Ho) as (pre & post & Hf).
  rewrite (run_first st arg k content pre post Hw Hf).
  cbn [fst]. rewrite Hsame, <- (proj1 Hf). split; [reflexivity|].
  intros Hcr. rewrite (universal_newlines_id _ Hcr).
  apply written_same. apply Hw.
Qed.

End DiffEditor.

Section StringSearchDecide.
Import Py PyStr.

(** Searching decides occurrence: on concrete strings both facts are read
    off the result of the search. *)
Lemma absent_by_search sub s : find_from sub s 0 = None -> ~ occurs sub s.
Proof.
  intros H. pose proof (find_from_spec sub s 0) as Hs. rewrite H in Hs. exact Hs.
Qed.

Lemma first_by_search sub s pre post :
  s = pre +:+ sub +:+ post ->
  find_from sub s 0 = Some (String.length pre) ->
  first_occurrence sub s pre post.
Proof.
  intros Hs H. pose proof (find_from_spec sub s 0) as Hspec. rewrite H in Hspec.
  destruct Hspec as (pre0 & post0 & [_ Hmin] & Hlen). split; [exact Hs|].
  intros pre' post' H'. specialize (Hmin pre' post' H'). simpl in Hlen. lia.
Qed.

End StringSearchDecide.

Section DiffEditorExamples.
Import Py PyStr Content PosixPath OS OsDiffEditor.

Lemma twice_state_file :
  OsFileEdit.writable_file twice_state "notes" ["w"; "notes"] "red fish, red sea".
Proof. repeat split. Qed.

Lemma dos_state_file :
  OsFileEdit.writable_file dos_state "notes" ["w"; "notes"]
    ("red" +:+ String CR nl +:+ "fish").
Proof. repeat split. Qed.

(** The file holds "red", CR LF, "fish": a text with a CR is not found in
    it, since the file is read with LF line ends. *)
Lemma diff_editor_not_found_witness :
  run dos_state {| path := "notes"; old_text := "red" +:+ String CR nl;
                   new_text := "green" |}
  = (dos_state,
     [TextContent ("'" +:+ ("red" +:+ String CR nl)
                   +:+ "' not found in the file. No changes made.")]).
Proof.
  refine (diff_editor_not_found dos_state
            {| path := "notes"; old_text := "red" +:+ String CR nl;
               new_text := "green" |}
            ("red" +:+ nl +:+ "fish") eq_refl _).
  apply absent_by_search. reflexivity.
Defined.

Lemma diff_editor_replaces_first_witness :
  run twice_state {| path := "notes"; old_text := "red"; new_text := "blue" |}
  = (OsFileEdit.written twice_state ["w"; "notes"]
       (EmptyString +:+ "blue" +:+ " fish, red sea"),
     [TextContent "Successfully replaced 'red' with 'blue' in notes."])
  /\ read_file (OsFileEdit.written twice_state ["w"; "notes"]
                  (EmptyString +:+ "blue" +:+ " fish, red sea")) "notes"
     = Ok (universal_newlines (EmptyString +:+ "blue" +:+ " fish, red sea"))
  /\ (contains_char CR "blue" = false ->
      read_file (OsFileEdit.written twice_state ["w"; "notes"]
                   (EmptyString +:+ "blue" +:+ " fish, red sea")) "notes"
      = Ok (EmptyString +:+ "blue" +:+ " fish, red sea"))
  /\ forall k', k' <> ["w"; "notes"] ->
       lookup_node (OsFileEdit.written twice_state ["w"; "notes"]
                      (EmptyString +:+ "blue" +:+ " fish, red sea")) k'
       = lookup_node twice_state k'.
Proof.
  refine (diff_editor_replaces_first twice_state
            {| path := "notes"; old_text := "red"; new_text := "blue" |}
            ["w"; "notes"] "red fish, red sea" EmptyString " fish, red sea"
            twice_state_file _).
  apply first_by_search; reflexivity.
Defined.

(** On a file with a CR LF line end, replacing "fish" by "fish" leaves
    the file with an LF line end. *)
Lemma diff_editor_same_text_witness :
  fst (run dos_state {| path := "notes"; old_text := "fish"; new_text := "fish" |})
  = OsFileEdit.written dos_state ["w"; "notes"]
      (universal_newlines ("red" +:+ String CR nl +:+ "fish"))
  /\ (contains_char CR ("red" +:+ String CR nl +:+ "fish") = false ->
      fst (run dos_state {| path := "notes"; old_text := "fish"; new_text := "fish" |})
      = dos_state).
Proof.
  refine (diff_editor_same_text dos_state
            {| path := "notes"; old_text := "fish"; new_text := "fish" |}
            ["w"; "notes"] ("red" +:+ String CR nl +:+ "fish")
            dos_state_file _ eq_refl).
  exists ("red" +:+ nl), EmptyString. reflexivity.
Defined.

End DiffEditorExamples.

(** ** Splitting strings *)

Section StringSplit.
Import Py PyStr.

Lemma snoc_app cur c s : snoc cur c +:+ s = cur +:+ String c s.
Proof. unfold snoc. rewrite app_str_assoc. reflexivity. Qed.

Lemma not_prefix_if_absent sep s : ~ occurs sep s -> String.prefix sep s = false.
Proof.
  intros Hno. destruct (String.prefix sep s) eqn:Hp; [|reflexivity].
  exfalso. apply Hno. exists EmptyString, (drop_str (String.length sep) s).
  rewrite app_str_nil_l. apply prefix_split, Hp.
Qed.

Lemma absent_tail sep c s : ~ occurs sep (String c s) -> ~ occurs sep s.
Proof.
  intros Hno (pre & post & H). apply Hno. exists (String c pre), post.
  rewrite app_str_cons, <- H. reflexivity.
Qed.

(** Without an occurrence of the separator, [split] returns the string
    as its only piece. *)
Lemma split_absent sep s : forall cur,
  ~ occurs sep s -> split_sep_from sep 0 cur s = [cur +:+ s].
Proof.
  induction s as [|c s IH]; intros cur Hno; cbn [split_sep_from].
  - rewrite app_str_nil_r. reflexivity.
  - rewrite (not_prefix_if_absent sep _ Hno).
    rewrite (IH (snoc cur c) (absent_tail sep c s Hno)), snoc_app. reflexivity.
Qed.

Lemma split_skip sep t : forall cur post,
  split_sep_from sep (String.length t) cur (t +:+ post)
  = split_sep_from sep 0 cur post.
Proof.
  induction t as [|c t IH]; intros cur post; [reflexivity|].
  rewrite app_str_cons. cbn [String.length split_sep_from]. apply IH.
Qed.

Lemma first_occurrence_tail sep c s pre post :
  first_occurrence sep (String c s) (String c pre) post ->
  first_occurrence sep s pre post.
Proof.
  intros [Hs Hmin]. rewrite app_str_cons in Hs. injection Hs as Hs. split; [exact Hs|].
  intros pre' post' H'.
  specialize (Hmin (String c pre') post').
  rewrite app_str_cons, <- H' in Hmin. specialize (Hmin eq_refl).
  cbn [String.length] in Hmin. lia.
Qed.

(** With a first occurrence of the separator, the first piece is what
    comes before it, and the rest is split in the same way. *)
Lemma split_first sep pre : forall s cur post,
  sep <> EmptyString ->
  first_occurrence sep s pre post ->
  split_sep_from sep 0 cur s = (cur +:+ pre) :: split_sep_from sep 0 EmptyString post.
Proof.
  induction pre as [|d pre IH]; intros s cur post Hsep Hf.
  - destruct Hf as [Hs _]. rewrite app_str_nil_l in Hs. subst s.
    destruct sep as [|c0 sep']; [contradiction|].
    rewrite app_str_cons. cbn [split_sep_from].
    rewrite <- app_str_cons, prefix_app.
    replace (String.length (String c0 sep') - 1)%nat with (String.length sep')
      by (cbn [String.length]; lia).
    rewrite split_skip, app_str_nil_r. reflexivity.
  - pose proof Hf as [Hs Hmin]. rewrite app_str_cons in Hs. subst s.
    cbn [split_sep_from].
    assert (Hp : String.prefix sep (String d (pre +:+ sep +:+ post)) = false).
    { destruct (String.prefix sep _) eqn:Hp; [|reflexivity].
      apply prefix_split in Hp.
      specialize (Hmin EmptyString
                    (drop_str (String.length sep) (String d (pre +:+ sep +:+ post)))).
      rewrite app_str_nil_l in Hmin.
      specialize (Hmin Hp). cbn [String.length] in Hmin. lia. }
    rewrite Hp.
    rewrite (IH (pre +:+ sep +:+ post) (snoc cur d) post Hsep).
    + rewrite snoc_app. reflexivity.
    + apply (first_occurrence_tail sep d). exact Hf.
Qed.

Lemma absent_char c s : contains_char c s = false -> ~ occurs (String c EmptyString) s.
Proof.
  intros Hc (pre & post & ->). rewrite contains_char_app, app_str_cons in Hc.
  cbn [contains_char] in Hc. rewrite Ascii.eqb_refl, orb_true_r in Hc. discriminate.
Qed.

(** Two ways to cut one string: the shorter first part is a prefix of the
    longer. *)
Lemma app_str_cut a : forall b c d,
  a +:+ b = c +:+ d ->
  (String.length a <= String.length c)%nat ->
  exists q, c = a +:+ q /\ b = q +:+ d.
Proof.
  induction a as [|x a IH]; intros b c d H Hlen.
  - exists c. rewrite !app_str_nil_l in *. split; [reflexivity | exact H].
  - destruct c as [|y c]; [cbn [String.length] in Hlen; lia|].
    rewrite !app_str_cons in H. injection H as -> H.
    cbn [String.length] in Hlen.
    destruct (IH b c d H) as (q & -> & ->); [lia|].
    exists q. rewrite app_str_cons. split; reflexivity.
Qed.

(** A character that is not in [a] first occurs, in [a] followed by that
    character, right after [a]. *)
Lemma first_char_occurrence c a r :
  contains_char c a = false ->
  first_occurrence (String c EmptyString) (a +:+ String c r) a r.
Proof.
  intros Hc. split; [reflexivity|].
  intros pre' post' H.
  destruct (Nat.le_gt_cases (String.length a) (String.length pre')) as [|Hlt];
    [assumption|].
  exfalso. symmetry in H.
  destruct (app_str_cut pre' _ a _ H) as (q & -> & Hq); [lia|].
  rewrite contains_char_app in Hc. apply orb_false_elim in Hc as [_ Hc].
  rewrite app_str_length in Hlt.
  destruct q as [|y q]; [cbn [String.length] in Hlt; lia|].
  rewrite !app_str_cons in Hq. injection Hq as <- _.
  cbn [contains_char] in Hc. rewrite Ascii.eqb_refl in Hc. discriminate.
Qed.

End StringSplit.

(** ** The video id of a YouTube URL *)

Section YouTubeVideoId.
Import Py PyStr Content YouTubeTranscript.

Lemma first_piece sep s :
  sep <> EmptyString ->
  exists piece others,
    split_sep sep s = piece :: others
    /\ ((~ occurs sep s /\ piece = s)
        \/ exists post, first_occurrence sep s piece post).
Proof.
  intros Hsep. unfold split_sep. pose proof (find_from_spec sep s 0) as H.
  destruct (find_from sep s 0) as [i|].
  - destruct H as (pre & post & Hf & _).
    exists pre, (split_sep_from sep 0 EmptyString post). split.
    + rewrite (split_first sep pre s EmptyString post Hsep Hf). reflexivity.
    + right. exists post. exact Hf.
  - exists s, []. split; [|left; split; [exact H | reflexivity]].
    rewrite (split_absent sep s EmptyString H). reflexivity.
Qed.

(** A part without an equals sign cannot hold the beginning of "v=". *)
Lemma v_eq_not_before a b p q :
  contains_char "=" a = false ->
  a +:+ b = p +:+ "v=" +:+ q ->
  (String.length p < String.length a)%nat ->
  exists q', b = String "=" q'.
Proof.
  intros Ha H Hlt. symmetry in H.
  destruct (app_str_cut p _ a b H) as (t & -> & Ht); [lia|].
  rewrite app_str_length in Hlt.
  destruct t as [|y t]; [cbn [String.length] in Hlt; lia|].
  rewrite app_str_cons in Ht. injection Ht as <- Ht.
  destruct t as [|z t].
  - rewrite app_str_nil_l in Ht. exists q. symmetry. exact Ht.
  - rewrite app_str_cons in Ht. injection Ht as <- _.
    rewrite contains_char_app in Ha. apply orb_false_elim in Ha as [_ Ha].
    cbn in Ha. discriminate.
Qed.

Lemma first_v_eq a b :
  contains_char "=" a = false ->
  first_occurrence "v=" (a +:+ "v=" +:+ b) a b.
Proof.
  intros Ha. split; [reflexivity|]. intros p q H.
  destruct (Nat.le_gt_cases (String.length a) (String.length p)) as [|Hlt];
    [assumption|].
  destruct (v_eq_not_before a _ p q Ha H Hlt) as (q' & Hq). discriminate Hq.
Qed.

Lemma first_of_split_amp id tail :
  contains_char "&" id = false ->
  tail = EmptyString \/ (exists r, tail = String "&" r) ->
  exists others, split_sep "&" (id +:+ tail) = id :: others.
Proof.
  intros Hid [-> | (r & ->)]; unfold split_sep.
  - rewrite app_str_nil_r, (split_absent "&" id EmptyString (absent_char _ _ Hid)).
    eexists. reflexivity.
  - rewrite (split_first "&" id _ EmptyString r); [eexists; reflexivity | discriminate |].
    apply first_char_occurrence, Hid.
Qed.

(** The piece after the first "v=": the id, followed by nothing or by
    text that begins with an ampersand. *)
Lemma piece_after_v id rest :
  contains_char "=" id = false ->
  rest = EmptyString \/ (exists r, rest = String "&" r) ->
  exists tail others,
    split_sep "v=" (id +:+ rest) = (id +:+ tail) :: others
    /\ (tail = EmptyString \/ exists r, tail = String "&" r).
Proof.
  intros Hid Hrest.
  destruct (first_piece "v=" (id +:+ rest)) as (piece & others & Hsplit & Hcase);
    [discriminate|].
  destruct Hcase as [[_ ->] | (post & Hf)].
  - exists rest, others. split; assumption.
  - pose proof Hf as [Hs _].
    destruct (Nat.le_gt_cases (String.length id) (String.length piece)) as [Hle|Hlt].
    + destruct (app_str_cut id rest piece _ Hs Hle) as (q & -> & Hq).
      exists q, others. split; [exact Hsplit|].
      destruct Hrest as [-> | (r & ->)].
      * destruct q; [left; reflexivity | rewrite app_str_cons in Hq; discriminate Hq].
      * destruct q as [|y q]; [discriminate Hq|].
        rewrite app_str_cons in Hq. injection Hq as <- _. right. eauto.
    + destruct (v_eq_not_before id rest piece post Hid Hs Hlt) as (q' & Hq).
      destruct Hrest as [-> | (r & ->)]; discriminate Hq.
Qed.

(** For a URL made of a part without an equals sign, then "v=", then an
    id that holds neither an ampersand nor an equals sign, then nothing or
    further parameters introduced by an ampersand, the id is what the
    tool extracts. *)
Lemma video_id_of_watch_url pre id rest :
  contains_char "=" pre = false ->
  contains_char "=" id = false ->
  contains_char "&" id = false ->
  rest = EmptyString \/ (exists r, rest = String "&" r) ->
  video_id (pre +:+ "v=" +:+ id +:+ rest) = Ok id.
Proof.
  intros Hpre Hid Hamp Hrest. unfold video_id.
  unfold split_sep at 1.
  rewrite (split_first "v=" pre _ EmptyString (id +:+ rest));
    [|discriminate | apply first_v_eq, Hpre].
  destruct (piece_after_v id rest Hid Hrest) as (tail & others & Hsplit & Htail).
  unfold split_sep in Hsplit. rewrite Hsplit.
  destruct (first_of_split_amp id tail Hamp Htail) as (others' & ->).
  reflexivity.
Qed.

Context `{TA : TranscriptApi}.

(** For a watch URL of that form, the transcript is asked for exactly the
    id between "v=" and the next ampersand. *)
Theorem youtube_watch_url arg pre id rest :
  url arg = pre +:+ "v=" +:+ id +:+ rest ->
  contains_char "=" pre = false ->
  contains_char "=" id = false ->
  contains_char "&" id = false ->
  rest = EmptyString \/ (exists r, rest = String "&" r) ->
  video_id (url arg) = Ok id
  /\ run arg = reply_for id (language arg).
Proof.
  intros Hurl Hpre Hid Hamp Hrest.
  pose proof (video_id_of_watch_url pre id rest Hpre Hid Hamp Hrest) as Hv.
  rewrite <- Hurl in Hv. split; [exact Hv|].
  unfold run. rewrite Hv.
  assert (He : is_empty (url arg) = false).
  { rewrite Hurl. destruct pre; reflexivity. }
  rewrite He. reflexivity.
Qed.

(** A URL without "v=", such as a short youtu.be link, is answered with
    "Error fetching transcript: list index out of range"; the transcript
    API is not asked. *)
Theorem youtube_no_v_parameter arg :
  url arg <> EmptyString ->
  ~ occurs "v=" (url arg) ->
  run arg = [TextContent "Error fetching transcript: list index out of range"].
Proof.
  intros Hne Hno. unfold run, video_id, split_sep.
  rewrite (split_absent "v=" (url arg) EmptyString Hno).
  destruct (url arg); [contradiction | reflexivity].
Qed.

End YouTubeVideoId.

Section YouTubeExamples.
Import Py PyStr Content YouTubeTranscript.

Lemma youtube_watch_url_witness :
  video_id "https://www.youtube.com/watch?v=dQw4w9WgXcQ&t=42s&v=other"
  = Ok "dQw4w9WgXcQ"
  /\ run (TA := echo_api)
       {| url := "https://www.youtube.com/watch?v=dQw4w9WgXcQ&t=42s&v=other";
          language := "en" |}
     = reply_for (TA := echo_api) "dQw4w9WgXcQ" "en".
Proof.
  refine (youtube_watch_url (TA := echo_api)
            {| url := "https://www.youtube.com/watch?v=dQw4w9WgXcQ&t=42s&v=other";
               language := "en" |}
            "https://www.youtube.com/watch?" "dQw4w9WgXcQ" "&t=42s&v=other"
            eq_refl eq_refl eq_refl eq_refl _).
  right. eexists. reflexivity.
Defined.

Lemma youtube_no_v_parameter_witness :
  run (TA := echo_api) {| url := "https://youtu.be/dQw4w9WgXcQ"; language := "en" |}
  = [TextContent "Error fetching transcript: list index out of range"].
Proof.
  refine (youtube_no_v_parameter (TA := echo_api)
            {| url := "https://youtu.be/dQw4w9WgXcQ"; language := "en" |} _ _).
  - discriminate.
  - apply absent_by_search. reflexivity.
Defined.

End YouTubeExamples.

(** ** The apt tools *)

Section AptTools.
Import Py Content Subprocess.
Context `{SP : Spawner}.

(** A command the tool does not know is refused by name and no process is
    started. *)
Theorem apt_unsupported_command (arg : AptPackageManager.InputModel) :
  ~ In (AptPackageManager.command arg) AptPackageManager.supported ->
  AptPackageManager.build arg = None
  /\ AptPackageManager.run arg
     = [TextContent ("Unsupported command: " +:+ AptPackageManager.command arg)].
Proof.
  intros Hno.
  assert (Hb : AptPackageManager.build arg = None).
  { unfold AptPackageManager.build, AptPackageManager.supported in *.
    repeat match goal with
    | |- context [String.eqb ?a ?b] =>
        destruct (String.eqb_spec a b) as [Heq|_];
          [exfalso; apply Hno; rewrite Heq; simpl; tauto|]
    end. reflexivity. }
  split; [exact Hb|]. unfold AptPackageManager.run. rewrite Hb. reflexivity.
Qed.

(** The command line of a known command: [sudo] first when asked for,
    then [apt-get], then [-y] when asked for, then the command; the
    packages follow for [install] and [remove] and for no other
    command. *)
Theorem apt_command_line (arg : AptPackageManager.InputModel) :
  In (AptPackageManager.command arg) AptPackageManager.supported ->
  AptPackageManager.build arg
  = Some ((if AptPackageManager.use_sudo arg then ["sudo"] else [])
          ++ ["apt-get"]
          ++ (if AptPackageManager.assume_yes arg then ["-y"] else [])
          ++ [AptPackageManager.command arg]
          ++ (if String.eqb (AptPackageManager.command arg) "install"
                 || String.eqb (AptPackageManager.command arg) "remove"
              then AptPackageManager.packages arg else [])).
Proof.
  unfold AptPackageManager.supported, AptPackageManager.build. cbn [In].
  intros [<- | [<- | [<- | [<- | [<- | []]]]]];
    destruct (AptPackageManager.use_sudo arg),
             (AptPackageManager.assume_yes arg); reflexivity.
Qed.

(** [update], [upgrade] and [autoremove] ignore the packages: two
    requests that differ only in their packages start the same process
    and get the same reply. *)
Theorem apt_packages_ignored (arg1 arg2 : AptPackageManager.InputModel) :
  In (AptPackageManager.command arg1) ["update"; "upgrade"; "autoremove"] ->
  AptPackageManager.command arg2 = AptPackageManager.command arg1 ->
  AptPackageManager.use_sudo arg2 = AptPackageManager.use_sudo arg1 ->
  AptPackageManager.assume_yes arg2 = AptPackageManager.assume_yes arg1 ->
  AptPackageManager.run arg2 = AptPackageManager.run arg1.
Proof.
  intros Hc H1 H2 H3.
  assert (Hb : AptPackageManager.build arg2 = AptPackageManager.build arg1).
  { unfold AptPackageManager.build. rewrite H1, H2, H3. cbn [In] in Hc.
    destruct Hc as [<- | [<- | [<- | []]]]; reflexivity. }
  unfold AptPackageManager.run. rewrite Hb, H1. reflexivity.
Qed.

(** Every operation other than [show], [search] and [policy] - the
    default [stats] and any misspelling alike - runs [apt-cache stats],
    and the package name plays no part. *)
Theorem apt_cache_unknown_is_stats (arg : AptCacheInfo.InputModel) :
  ~ In (AptCacheInfo.operation arg) ["show"; "search"; "policy"] ->
  AptCacheInfo.build arg
  = (if AptCacheInfo.use_sudo arg then ["sudo"] else []) ++ ["apt-cache"; "stats"]
  /\ AptCacheInfo.run arg
     = AptCacheInfo.run {| AptCacheInfo.operation := "stats";
                           AptCacheInfo.package_name := EmptyString;
                           AptCacheInfo.use_sudo := AptCacheInfo.use_sudo arg |}.
Proof.
  intros Hno.
  assert (Hb : AptCacheInfo.build arg
               = (if AptCacheInfo.use_sudo arg then ["sudo"] else [])
                 ++ ["apt-cache"; "stats"]).
  { unfold AptCacheInfo.build.
    repeat match goal with
    | |- context [String.eqb ?a ?b] =>
        destruct (String.eqb_spec a b) as [Heq|_];
          [exfalso; apply Hno; rewrite Heq; simpl; tauto|]
    end.
    destruct (AptCacheInfo.use_sudo arg); reflexivity. }
  split; [exact Hb|]. unfold AptCacheInfo.run. rewrite Hb.
  unfold AptCacheInfo.build. cbn [AptCacheInfo.operation AptCacheInfo.use_sudo].
  destruct (AptCacheInfo.use_sudo arg); reflexivity.
Qed.

End AptTools.

Section AptExamples.
Import Py Content Subprocess.

Lemma apt_unsupported_command_witness :
  AptPackageManager.build
    {| AptPackageManager.command := "purge"; AptPackageManager.packages := ["vim"];
       AptPackageManager.use_sudo := true; AptPackageManager.assume_yes := true |}
  = None
  /\ AptPackageManager.run (SP := AptPackageManager.echo)
       {| AptPackageManager.command := "purge"; AptPackageManager.packages := ["vim"];
          AptPackageManager.use_sudo := true; AptPackageManager.assume_yes := true |}
     = [TextContent "Unsupported command: purge"].
Proof.
  refine (apt_unsupported_command (SP := AptPackageManager.echo)
            {| AptPackageManager.command := "purge";
               AptPackageManager.packages := ["vim"];
               AptPackageManager.use_sudo := true;
               AptPackageManager.assume_yes := true |} _).
  cbn. intros H. repeat destruct H as [H | H]; try discriminate H. exact H.
Defined.

Lemma apt_command_line_witness :
  AptPackageManager.build
    {| AptPackageManager.command := "install";
       AptPackageManager.packages := ["vim"; "git"];
       AptPackageManager.use_sudo := true; AptPackageManager.assume_yes := true |}
  = Some ["sudo"; "apt-get"; "-y"; "install"; "vim"; "git"].
Proof.
  refine (apt_command_line
            {| AptPackageManager.command := "install";
               AptPackageManager.packages := ["vim"; "git"];
               AptPackageManager.use_sudo := true;
               AptPackageManager.assume_yes := true |} _).
  left. reflexivity.
Defined.

Lemma apt_packages_ignored_witness :
  AptPackageManager.run (SP := AptPackageManager.echo)
    {| AptPackageManager.command := "upgrade"; AptPackageManager.packages := ["vim"];
       AptPackageManager.use_sudo := false; AptPackageManager.assume_yes := true |}
  = AptPackageManager.run (SP := AptPackageManager.echo)
      {| AptPackageManager.command := "upgrade"; AptPackageManager.packages := [];
         AptPackageManager.use_sudo := false; AptPackageManager.assume_yes := true |}.
Proof.
  refine (apt_packages_ignored (SP := AptPackageManager.echo)
            {| AptPackageManager.command := "upgrade";
               AptPackageManager.packages := [];
               AptPackageManager.use_sudo := false;
               AptPackageManager.assume_yes := true |}
            {| AptPackageManager.command := "upgrade";
               AptPackageManager.packages := ["vim"];
               AptPackageManager.use_sudo := false;
               AptPackageManager.assume_yes := true |}
            _ eq_refl eq_refl eq_refl).
  right. left. reflexivity.
Defined.

Lemma apt_cache_unknown_witness :
  AptCacheInfo.build {| AptCacheInfo.operation := "showpkg";
                        AptCacheInfo.package_name := "vim";
                        AptCacheInfo.use_sudo := false |}
  = ["apt-cache"; "stats"]
  /\ AptCacheInfo.run (SP := AptPackageManager.echo)
       {| AptCacheInfo.operation := "showpkg"; AptCacheInfo.package_name := "vim";
          AptCacheInfo.use_sudo := false |}
     = AptCacheInfo.run (SP := AptPackageManager.echo)
         {| AptCacheInfo.operation := "stats";
            AptCacheInfo.package_name := EmptyString;
            AptCacheInfo.use_sudo := false |}.
Proof.
  refine (apt_cache_unknown_is_stats (SP := AptPackageManager.echo)
            {| AptCacheInfo.operation := "showpkg";
               AptCacheInfo.package_name := "vim";
               AptCacheInfo.use_sudo := false |} _).
  cbn. intros H. repeat destruct H as [H | H]; try discriminate H. exact H.
Defined.

End AptExamples.

(** ** Weather alerts *)

Section WeatherAlerts.
Import Py Content Http WeatherUSAlerts.
Context `{PR : PyRepr} `{N : Nws}.

Lemma alert_of_properties_of f props :
  properties_of f = Some props -> alert_of f = Ok (alert_of_properties props).
Proof.
  unfold properties_of, alert_of. destruct f as [| | | | |fields]; try discriminate.
  cbn [get bind]. destruct (field_get "properties" fields) as [[| | | | |ps]|];
    try discriminate; intros [= <-]; reflexivity.
Qed.

Lemma alerts_of_features features propss :
  Forall2 (fun f props => properties_of f = Some props) features propss ->
  comprehension alert_of features = Ok (map alert_of_properties propss).
Proof.
  induction 1 as [|f props features propss Hf _ IH]; [reflexivity|].
  cbn [map comprehension]. rewrite (alert_of_properties_of f props Hf), IH.
  reflexivity.
Qed.

(** For a validated state code, when the service returns a document
    whose features are objects, each with an object under [properties] or
    without that key, the reply is
    one text made of one block per feature, in the order of the features,
    each block ending in the line "---"; a property the feature lacks is
    printed as the formatting of [None].  When the document holds no
    feature, the reply is "No active weather alerts for" the state. *)
Theorem alerts_one_block_per_feature state data features propss :
  valid_state state = true ->
  _make_nws_request (alerts_url state) = Ok data ->
  get data "features" (JArr []) = Ok (JArr features) ->
  Forall2 (fun f props => properties_of f = Some props) features propss ->
  run state
  = match propss with
    | [] => [TextContent ("No active weather alerts for " +:+ state)]
    | _ => [TextContent
              (Py.join nl (map (fun props => alert_text (alert_of_properties props))
                             propss))]
    end.
Proof.
  intros _ Hreq Hf Hprops. unfold run, alerts_for. rewrite Hreq. cbn [bind].
  rewrite Hf. cbn [bind iterate]. rewrite (alerts_of_features _ _ Hprops).
  cbn [bind]. destruct propss as [|p propss]; [reflexivity|].
  cbn [map]. rewrite map_map. reflexivity.
Qed.

(** A feature whose [properties] is there and is no object, [null] for
    one, ends the call with the item "Unexpected error: ...". *)
Lemma alerts_properties_not_object state data before fields v rest :
  _make_nws_request (alerts_url state) = Ok data ->
  get data "features" (JArr []) = Ok (JArr (before ++ JObj fields :: rest)) ->
  Forall (fun f => exists props, properties_of f = Some props) before ->
  field_get "properties" fields = Some v ->
  (forall props, v <> JObj props) ->
  exists msg, run state = [TextContent ("Unexpected error: " +:+ msg)].
Proof.
  intros Hreq Hf Hbefore Hv Hno. unfold run, alerts_for. rewrite Hreq. cbn [bind].
  rewrite Hf. cbn [bind iterate].
  assert (Hc : exists msg,
            comprehension alert_of (before ++ JObj fields :: rest)
            = Raise (Exn AttributeError msg)).
  { clear Hf. induction Hbefore as [|f before Hp _ IH].
    - cbn [app comprehension]. unfold alert_of. cbn [get bind]. rewrite Hv.
      destruct v as [| | | | |ps]; cbn [get bind]; eauto.
      exfalso. apply (Hno ps). reflexivity.
    - destruct Hp as [props Hp]. destruct IH as [msg' IH]. exists msg'.
      cbn [app comprehension].
      rewrite (alert_of_properties_of f props Hp), IH. reflexivity. }
  destruct Hc as [msg ->]. cbn [bind]. eauto.
Qed.

(** For a validated state code, whatever the service does - a transport
    failure, an error status, a body that does not decode or a document
    of another shape - [run] raises nothing and answers with exactly one
    text item. *)
Theorem alerts_single_text_item state : exists t, run state = [TextContent t].
Proof.
  unfold run. destruct (alerts_for state) as [items|e] eqn:Ha.
  - unfold alerts_for in Ha.
    destruct (_make_nws_request _); cbn [bind] in Ha; [|discriminate].
    destruct (get _ "features" _); cbn [bind] in Ha; [|discriminate].
    destruct (iterate _); cbn [bind] in Ha; [|discriminate].
    destruct (comprehension alert_of _) as [[|first others]|]; cbn [bind] in Ha;
      [| |discriminate]; injection Ha as <-; eauto.
  - destruct (issubclass (exn_cls e) HTTPError); eauto.
Qed.

End WeatherAlerts.

Section WeatherAlertsExamples.
Import Py Content Http WeatherUSAlerts.

Lemma alerts_one_block_witness :
  run (PR := none_repr) (N := two_alerts) "CA"
  = [TextContent
       (Py.join nl
          (map (fun props => alert_text (PR := none_repr) (alert_of_properties props))
             [[("event", JStr "Flood Warning"); ("severity", JStr "Severe")]; []]))].
Proof.
  refine (alerts_one_block_per_feature (PR := none_repr) (N := two_alerts) "CA"
            (JObj [("features", JArr sample_features)]) sample_features
            [[("event", JStr "Flood Warning"); ("severity", JStr "Severe")]; []]
            eq_refl eq_refl eq_refl _).
  repeat constructor.
Defined.

End WeatherAlertsExamples.
